(** * SecureVault: the incremental archiving engine and its scheduler

    A shallow embedding of [src/file_backup.cpp] (the tar.gz file strategy)
    and of [src/backup.cpp] (orchestration, verification, retention cleanup,
    schedule computation, the daemon and the command line), with the
    database strategies of [src/database_backup.cpp], the transfer of
    [src/remote_transfer.cpp] and [BackupAPI::startBackup], followed by the
    properties proved about it.

    Conventions of the embedding.
    - A [std::chrono::system_clock::time_point] is an integer count of
      nanoseconds since the epoch; a [time_t] is an integer count of seconds.
      Arithmetic on readings of the clock is exact: the clock stays far from
      the ends of the 64-bit range (it reaches them in the year 2262).  Where
      a number comes from a file or from the configuration (the marker,
      [retentionDays]) the result of the 64-bit, or [int], operation is
      written with its wrap-around: the language leaves the overflow
      undefined, and the two's-complement code the compiler emits wraps.
    - [std::expected<T, std::string>] is [expected T]; a C++ exception leaving
      a function is the [Throws] outcome of the [M] monad.
    - The process-wide [gShutdownFlag] is set by a signal handler at an
      instant the program does not choose.  The world counts the steps the
      program has taken, the environment says at which step the signal
      arrives, and reading the flag compares the two.
    - The system clock is read from the environment at the current step.
      In the expression [now() - (now() - t)], which calls it twice, the two
      readings differ: the environment gives the gap between them, for each
      of the three places that evaluate the expression and for each file.
    - Collaborators outside the core (database dump, transfer, notification,
      ownership change, libarchive's decoder) are answers supplied by the
      environment.  The dump, the transfer and the notification return:
      an exception that one of them lets escape is not part of the
      embedding.  The database strategies and the transfer are embedded
      as well, each on its own, over disks of files by path.
    - Writes whose status the source does not look at (log lines, archive
      blocks, the marker file) are taken to reach the disk. *)

From Stdlib Require Import ZArith List String Ascii Bool Lia Permutation.
From Stdlib Require Import Strings.Byte.
Import ListNotations.

Local Open Scope string_scope.
Local Open Scope Z_scope.

(* ===================================================================== *)
(** * Part I.  The embedding                                              *)
(* ===================================================================== *)

(** ** std::chrono *)

Module Chrono.

(** [system_clock::time_point]: nanoseconds since the epoch. *)
Definition time_point := Z.

Definition nanos_per_second : Z := 1000000000.

(** [std::chrono::system_clock::time_point()] *)
Definition epoch : time_point := 0.

(** [system_clock::from_time_t] *)
Definition from_time_t (t : Z) : time_point := t * nanos_per_second.

(** [system_clock::to_time_t]: a [duration_cast], truncating toward zero. *)
Definition to_time_t (tp : time_point) : Z := Z.quot tp nanos_per_second.

(** [std::chrono::hours(h)] as a nanosecond duration. *)
Definition hours (h : Z) : Z := h * 3600 * nanos_per_second.

(** The 64-bit two's-complement count behind a [time_point] and a
    duration: what an operation whose exact result is [z] leaves in it. *)
Definition wrap (z : Z) : Z := (z + 2 ^ 63) mod 2 ^ 64 - 2 ^ 63.

(** The time points and durations the count can hold. *)
Definition MIN : Z := - 2 ^ 63.
Definition MAX : Z := 2 ^ 63 - 1.

End Chrono.

(** ** Character and string helpers of the C and C++ libraries *)

Module CStr.

Definition code (c : ascii) : Z := Z.of_N (N_of_ascii c).

(** [isspace] in the "C" locale. *)
Definition isspace (c : ascii) : bool :=
  (code c =? 32) || ((9 <=? code c) && (code c <=? 13)).

Definition isdigit (c : ascii) : bool :=
  (48 <=? code c) && (code c <=? 57).

Definition digit_value (c : ascii) : Z := code c - 48.

Definition digit_char (d : Z) : ascii := ascii_of_N (Z.to_N (48 + d)).

Fixpoint skip_space (s : string) : string :=
  match s with
  | String c r => if isspace c then skip_space r else s
  | EmptyString => s
  end.

(** The longest prefix of decimal digits, accumulated most significant
    digit first; the rest of the string is returned with it. *)
Fixpoint scan_digits (s : string) (acc : Z) : Z * string :=
  match s with
  | String c r =>
      if isdigit c then scan_digits r (10 * acc + digit_value c)
      else (acc, s)
  | EmptyString => (acc, s)
  end.

Definition starts_with_digit (s : string) : bool :=
  match s with
  | String c _ => isdigit c
  | EmptyString => false
  end.

(** An optional sign, as [strtol] and [num_get] accept it. *)
Definition take_sign (s : string) : bool * string :=
  match s with
  | String "-" r => (true, r)
  | String "+" r => (false, r)
  | _ => (false, s)
  end.

Definition LONG_MIN : Z := - 2 ^ 63.
Definition LONG_MAX : Z := 2 ^ 63 - 1.
Definition INT_MIN : Z := - 2 ^ 31.
Definition INT_MAX : Z := 2 ^ 31 - 1.

(** What an [int] operation whose exact result is [z] leaves in the
    variable. *)
Definition wrap_int (z : Z) : Z := (z + 2 ^ 31) mod 2 ^ 32 - 2 ^ 31.

(** The two exceptions [std::stol] raises. *)
Inductive stol_error : Type :=
| invalid_argument
| out_of_range.

(** [std::stol(str)] with the default base 10: leading white space is
    skipped, a sign is optional, the longest run of digits is converted
    and whatever follows is ignored.  No digit at all raises
    [invalid_argument]; a value outside [long] raises [out_of_range]. *)
Definition stol (str : string) : Z + stol_error :=
  let '(neg, body) := take_sign (skip_space str) in
  if starts_with_digit body then
    let v := fst (scan_digits body 0) in
    let v := if neg then - v else v in
    if (LONG_MIN <=? v) && (v <=? LONG_MAX) then inl v
    else inr out_of_range
  else inr invalid_argument.

(** [std::getline(file, line)] on a freshly opened stream: the characters
    before the first line feed.  The extraction fails (the stream converts
    to [false]) exactly when nothing at all could be extracted, that is
    when the content is empty. *)
Fixpoint first_line (content : string) : string :=
  match content with
  | String c r => if (code c =? 10) then EmptyString else String c (first_line r)
  | EmptyString => EmptyString
  end.

Definition getline (content : string) : option string :=
  match content with
  | EmptyString => None
  | _ => Some (first_line content)
  end.

(** Decimal rendering of a non-negative number, least significant digit
    produced first and pushed in front of [acc]. *)
Fixpoint show_digits (fuel : nat) (n : Z) (acc : string) : string :=
  match fuel with
  | O => acc
  | S fuel' =>
      let acc' := String (digit_char (n mod 10)) acc in
      if n <? 10 then acc' else show_digits fuel' (n / 10) acc'
  end.

(** [ostream << long]: at most 19 digits are needed for a [long]. *)
Definition show_long (n : Z) : string :=
  if n <? 0 then String "-" (show_digits 20 (- n) EmptyString)
  else show_digits 20 n EmptyString.

(** [std::ranges::find(v, x) != v.end()] on a vector of strings. *)
Definition contains (v : list string) (x : string) : bool :=
  existsb (String.eqb x) v.

End CStr.

(** ** std::filesystem::path::extension *)

Module Path.

(** Position-free helpers on the characters of a path. *)
Fixpoint after_last_slash (p acc : string) : string :=
  match p with
  | String c r =>
      if Ascii.eqb c "/" then after_last_slash r r
      else after_last_slash r acc
  | EmptyString => acc
  end.

(** [path::filename()]: what follows the last directory separator. *)
Definition filename (p : string) : string := after_last_slash p p.

(** The suffix starting at the last dot of [s], if [s] has a dot. *)
Fixpoint from_last_dot (s : string) : option string :=
  match s with
  | String c r =>
      match from_last_dot r with
      | Some e => Some e
      | None => if Ascii.eqb c "." then Some s else None
      end
  | EmptyString => None
  end.

(** [path::extension()]: the file name from its last dot on; empty when
    the file name has no dot, is [.] or [..], or has its only dot in
    first position (a hidden file such as [.profile]). *)
Definition extension (p : string) : string :=
  let f := filename p in
  if String.eqb f "." || String.eqb f ".." then EmptyString
  else
    match f with
    | String _ r =>
        match from_last_dot r with
        | Some e => e
        | None => EmptyString
        end
    | EmptyString => EmptyString
    end.

End Path.

(** ** Outcomes, the environment and the world *)

(** [std::expected<T, std::string>] *)
Inductive expected (T : Type) : Type :=
| Value (v : T)
| Unexpected (error : string).

Arguments Value {T} v.
Arguments Unexpected {T} error.

(** How a call ends: it returns, or an exception leaves it. *)
Inductive result (A : Type) : Type :=
| Returns (a : A)
| Throws (what : string).

Arguments Returns {A} a.
Arguments Throws {A} what.

(** One entry met by a [recursive_directory_iterator]. *)
Record DirEntry : Type := {
  path : string;
  is_regular_file : bool;
  (** [fs::last_write_time], converted to the system clock; [None] when the
      call throws [filesystem_error]. *)
  last_write_time : option Z;
  (** [it->file_size()]; [None] when the call throws [filesystem_error]. *)
  file_size : option Z;
  (** The bytes an [ifstream] reads; [None] when the file cannot be opened. *)
  content : option (list byte)
}.

(** One increment of the directory iterator: it yields an entry, or throws
    [filesystem_error] with the given message. *)
Inductive DirStep : Type :=
| Visit (e : DirEntry)
| IterationError (what : string).

(** [struct archive_entry], with the fields the strategy sets. *)
Record archive_entry : Type := {
  ae_pathname : string;
  ae_size : Z;
  ae_perm : Z
}.

(** What has been sent to the archive writer, oldest first. *)
Inductive archive_write : Type :=
| write_header (ae : archive_entry)
| write_data (buf : list byte)
| write_close.

(** A file of one of the two backup folders, as [cleanupOldBackups] meets
    it; [remove_error] is the message of the exception [fs::remove] throws on
    it, if it throws. *)
Record Artifact : Type := {
  art_path : string;
  (** the message of the exception [entry.is_regular_file()] throws, if
      it throws *)
  art_status_error : option string;
  art_is_regular_file : bool;
  (** the message of the exception [fs::last_write_time(entry)] throws, if
      it throws *)
  art_time_error : option string;
  art_last_write_time : Z;
  remove_error : option string
}.

(** The three places that compute a file's time as
    [now() - (now() - t)]: [countFiles], [backupDirectory] and
    [cleanupOldBackups]. *)
Inductive Pass : Type :=
| counting
| archiving
| cleaning.

(** libarchive status codes. *)
Definition ARCHIVE_EOF : Z := 1.
Definition ARCHIVE_OK : Z := 0.
Definition ARCHIVE_RETRY : Z := -10.
Definition ARCHIVE_WARN : Z := -20.
Definition ARCHIVE_FAILED : Z := -25.
Definition ARCHIVE_FATAL : Z := -30.

(** What the program cannot decide. *)
Record Env : Type := {
  (** the step at which the signal handler runs, if a signal arrives *)
  shutdown_at : option nat;
  (** the reading of [system_clock::now()] at each step *)
  clock : nat -> Z;
  (** in [now() - (now() - t)], evaluated in the given place for the file
      at the given path: the reading of the outer call minus that of the
      inner call.  The language does not fix the order of the two calls, so
      the gap has either sign. *)
  now_gap : Pass -> string -> Z;
  (** local time minus UTC, in seconds; the zone keeps one offset (no
      daylight-saving change is modelled) *)
  gmtoff : Z;
  (** the message of the [filesystem_error] that [fs::exists] throws on a
      source directory whose status cannot be read, if it throws *)
  status_error : string -> option string;
  (** the same for [fs::exists(lastBackupFile)] *)
  marker_status_error : option string;
  (** the traversal of a source directory; [None] when [fs::exists] is false *)
  listing : string -> option (list DirStep);
  (** the message of the exception [fs::create_directories] throws, if any *)
  create_directories_error : option string;
  (** [archive_error_string] when [archive_write_open_filename] fails *)
  write_open_error : option string;
  (** [archive_error_string] when [archive_read_open_filename] fails on an
      existing file *)
  read_open_error : option string;
  (** the status codes of the successive [archive_read_next_header] calls;
      once they are used up the reader is at end of stream *)
  read_headers : list Z;
  (** the database-dump collaborator *)
  db_execute : string -> expected string;
  (** the message of the exception [changeOwnership] throws on a path *)
  chown_error : string -> option string;
  (** the transfer collaborator *)
  transfer : string -> string -> expected unit
}.

(** What the program changes. *)
Record World : Type := {
  steps : nat;
  (** content of [lastBackupFile]; [None] when it does not exist *)
  last_backup_file : option string;
  (** how many times [lastBackupFile] has been written *)
  marker_writes : nat;
  (** what was written to [outputFile]; [None] when it does not exist *)
  output_file : option (list archive_write);
  (** [processedFiles], the shared progress counter *)
  processedFiles : nat;
  (** the two retention folders, as [fs::directory_iterator] lists them;
      [None] when the folder does not exist.  The archive of the run in
      progress is held by [output_file] and is not listed in them. *)
  sys_folder : option (list Artifact);
  db_folder : option (list Artifact);
  (** messages appended to [backup_files.log] and to the general log *)
  log_lines : list string;
  (** messages appended to the error log *)
  error_lines : list string;
  (** messages handed to the notification strategy *)
  notifications : list string;
  (** files handed to the transfer strategy, with the remote directory *)
  transfers : list (string * string);
  (** paths whose ownership was changed *)
  chowned : list string
}.

Definition with_steps (n : nat) (w : World) : World :=
  {| steps := n; last_backup_file := last_backup_file w;
     marker_writes := marker_writes w; output_file := output_file w;
     processedFiles := processedFiles w; sys_folder := sys_folder w;
     db_folder := db_folder w; log_lines := log_lines w;
     error_lines := error_lines w; notifications := notifications w;
     transfers := transfers w; chowned := chowned w |}.

Definition with_marker (c : string) (w : World) : World :=
  {| steps := steps w; last_backup_file := Some c;
     marker_writes := S (marker_writes w); output_file := output_file w;
     processedFiles := processedFiles w; sys_folder := sys_folder w;
     db_folder := db_folder w; log_lines := log_lines w;
     error_lines := error_lines w; notifications := notifications w;
     transfers := transfers w; chowned := chowned w |}.

Definition with_output (o : option (list archive_write)) (w : World) : World :=
  {| steps := steps w; last_backup_file := last_backup_file w;
     marker_writes := marker_writes w; output_file := o;
     processedFiles := processedFiles w; sys_folder := sys_folder w;
     db_folder := db_folder w; log_lines := log_lines w;
     error_lines := error_lines w; notifications := notifications w;
     transfers := transfers w; chowned := chowned w |}.

Definition with_processed (n : nat) (w : World) : World :=
  {| steps := steps w; last_backup_file := last_backup_file w;
     marker_writes := marker_writes w; output_file := output_file w;
     processedFiles := n; sys_folder := sys_folder w;
     db_folder := db_folder w; log_lines := log_lines w;
     error_lines := error_lines w; notifications := notifications w;
     transfers := transfers w; chowned := chowned w |}.

Definition with_sys_folder (f : option (list Artifact)) (w : World) : World :=
  {| steps := steps w; last_backup_file := last_backup_file w;
     marker_writes := marker_writes w; output_file := output_file w;
     processedFiles := processedFiles w; sys_folder := f;
     db_folder := db_folder w; log_lines := log_lines w;
     error_lines := error_lines w; notifications := notifications w;
     transfers := transfers w; chowned := chowned w |}.

Definition with_db_folder (f : option (list Artifact)) (w : World) : World :=
  {| steps := steps w; last_backup_file := last_backup_file w;
     marker_writes := marker_writes w; output_file := output_file w;
     processedFiles := processedFiles w; sys_folder := sys_folder w;
     db_folder := f; log_lines := log_lines w;
     error_lines := error_lines w; notifications := notifications w;
     transfers := transfers w; chowned := chowned w |}.

Definition with_log (l : list string) (w : World) : World :=
  {| steps := steps w; last_backup_file := last_backup_file w;
     marker_writes := marker_writes w; output_file := output_file w;
     processedFiles := processedFiles w; sys_folder := sys_folder w;
     db_folder := db_folder w; log_lines := l;
     error_lines := error_lines w; notifications := notifications w;
     transfers := transfers w; chowned := chowned w |}.

Definition with_errors (l : list string) (w : World) : World :=
  {| steps := steps w; last_backup_file := last_backup_file w;
     marker_writes := marker_writes w; output_file := output_file w;
     processedFiles := processedFiles w; sys_folder := sys_folder w;
     db_folder := db_folder w; log_lines := log_lines w;
     error_lines := l; notifications := notifications w;
     transfers := transfers w; chowned := chowned w |}.

Definition with_notifications (l : list string) (w : World) : World :=
  {| steps := steps w; last_backup_file := last_backup_file w;
     marker_writes := marker_writes w; output_file := output_file w;
     processedFiles := processedFiles w; sys_folder := sys_folder w;
     db_folder := db_folder w; log_lines := log_lines w;
     error_lines := error_lines w; notifications := l;
     transfers := transfers w; chowned := chowned w |}.

Definition with_transfers (l : list (string * string)) (w : World) : World :=
  {| steps := steps w; last_backup_file := last_backup_file w;
     marker_writes := marker_writes w; output_file := output_file w;
     processedFiles := processedFiles w; sys_folder := sys_folder w;
     db_folder := db_folder w; log_lines := log_lines w;
     error_lines := error_lines w; notifications := notifications w;
     transfers := l; chowned := chowned w |}.

Definition with_chowned (l : list string) (w : World) : World :=
  {| steps := steps w; last_backup_file := last_backup_file w;
     marker_writes := marker_writes w; output_file := output_file w;
     processedFiles := processedFiles w; sys_folder := sys_folder w;
     db_folder := db_folder w; log_lines := log_lines w;
     error_lines := error_lines w; notifications := notifications w;
     transfers := transfers w; chowned := l |}.

(** ** The monad of the embedding: world passing with exceptions *)

Definition M (A : Type) : Type := World -> result A * World.

Definition ret {A : Type} (a : A) : M A := fun w => (Returns a, w).

Definition bind {A B : Type} (c : M A) (k : A -> M B) : M B :=
  fun w =>
    match c w with
    | (Returns a, w') => k a w'
    | (Throws what, w') => (Throws what, w')
    end.

(** [throw std::runtime_error(what)] and the like. *)
Definition throw {A : Type} (what : string) : M A := fun w => (Throws what, w).

(** [try { c } catch (const std::exception& e) { h(e.what()) }] *)
Definition try_catch {A : Type} (c : M A) (h : string -> M A) : M A :=
  fun w =>
    match c w with
    | (Returns a, w') => (Returns a, w')
    | (Throws what, w') => h what w'
    end.

Definition modify (f : World -> World) : M unit := fun w => (Returns tt, f w).

Definition gets {A : Type} (f : World -> A) : M A := fun w => (Returns (f w), w).

Declare Scope monad_scope.
Delimit Scope monad_scope with monad.
Notation "x <- c ;; k" := (bind c (fun x => k))
  (at level 61, c at next level, right associativity) : monad_scope.
Notation "c ;; k" := (bind c (fun _ => k))
  (at level 61, right associativity) : monad_scope.
Local Open Scope monad_scope.

(** [for (const auto& x : xs) body(x);] *)
Fixpoint for_each {A : Type} (xs : list A) (body : A -> M unit) : M unit :=
  match xs with
  | [] => ret tt
  | x :: xs' => body x ;; for_each xs' body
  end.

(** ** Primitive steps *)

Section Primitives.

Variable env : Env.

(** Time passes: the program has taken one more step. *)
Definition tick : M unit := modify (fun w => with_steps (S (steps w)) w).

(** Reading [gShutdownFlag]: set once the signal has arrived, never reset. *)
Definition flag_at (n : nat) : bool :=
  match shutdown_at env with
  | Some t => (t <=? n)%nat
  | None => false
  end.

Definition gShutdownFlag : M bool := gets (fun w => flag_at (steps w)).

(** [std::chrono::system_clock::now()]: the clock is read at the current
    step. *)
Definition now : M Z := gets (fun w => clock env (steps w)).

(** The inner call of [now() - (now() - t)]: its reading lies [now_gap]
    before that of the outer call. *)
Definition now_inner (pass : Pass) (p : string) : M Z :=
  gets (fun w => clock env (steps w) - now_gap env pass p).

Definition logFile (msg : string) : M unit :=
  modify (fun w => with_log (log_lines w ++ [msg])%list w).

(** [fs::create_directories(p)], which throws on failure. *)
Definition create_directories : M unit :=
  tick ;;
  match create_directories_error env with
  | Some what => throw what
  | None => ret tt
  end.

End Primitives.

(** ** TarGzFileBackupStrategy (file_backup.cpp) *)

Module TarGzFileBackupStrategy.

(** The expression the source uses for a file's time:
    [now() - (now() - file_clock::to_sys(lastWrite))]. *)
Definition fileTime (now1 now2 lastWrite : Z) : Z :=
  now1 - (now2 - lastWrite).

(** The size of the copy buffer, [char buf[8192]]. *)
Definition buf_size : nat := Z.to_nat 8192.

Section Strategy.

Variable env : Env.

(** The members of the strategy object.  The path [lastBackupFile]
    names the marker file, whose content is [last_backup_file]. *)
Variable excludeExtensions : list string.

(** The lambda [isExcluded] of [countFiles] and [backupDirectory]. *)
Definition isExcluded (ext : string) : bool :=
  negb (String.eqb ext "") && CStr.contains excludeExtensions ext.

(** The block that initialises [lastBackupTime], the same in
    [countFiles] and in [backupDirectory]. *)
Definition read_lastBackupTime (fullBackup : bool) (file : option string)
  : Chrono.time_point :=
  match file with
  | Some stream =>
      if negb fullBackup then
        match CStr.getline stream with
        | Some timestamp =>
            if negb (String.eqb timestamp "") then
              match CStr.stol timestamp with
              | inl t => Chrono.wrap (Chrono.from_time_t t)
              | inr _ => Chrono.epoch      (* caught; a warning is printed *)
              end
            else Chrono.epoch
        | None => Chrono.epoch
        end
      else Chrono.epoch
  | None => Chrono.epoch
  end.

(** The body of the [for] loop of [countFiles] over one directory.
    The result is the counter, and the message of the
    [filesystem_error] that ended the traversal, if one did. *)
Fixpoint count_loop (fullBackup : bool) (lastBackupTime : Z)
    (its : list DirStep) (count : nat) : M (nat * option string) :=
  match its with
  | [] => ret (count, None)
  | IterationError what :: _ => ret (count, Some what)
  | Visit it :: rest =>
      tick ;;
      if is_regular_file it then
        let ext := Path.extension (path it) in
        if isExcluded ext then count_loop fullBackup lastBackupTime rest count
        else
          match last_write_time it with
          | None => ret (count, Some "cannot get file time")
          | Some lastWrite =>
              now1 <- now env ;;
              now2 <- now_inner env counting (path it) ;;
              let fileTime := fileTime now1 now2 lastWrite in
              if fullBackup || (fileTime >? lastBackupTime) then
                count_loop fullBackup lastBackupTime rest (S count)
              else count_loop fullBackup lastBackupTime rest count
          end
      else count_loop fullBackup lastBackupTime rest count
  end.

(** The loop of [countFiles] over the source directories.  The call
    [fs::exists(dir)] is outside the [try] block: what it throws leaves
    the function. *)
Fixpoint count_dirs (fullBackup : bool) (lastBackupTime : Z)
    (sourceDirs : list string) (count : nat) : M nat :=
  match sourceDirs with
  | [] => ret count
  | dir :: rest =>
      match status_error env dir with
      | Some what => throw what
      | None =>
          match listing env dir with
          | None =>
              (* Warning: Directory does not exist, skipping *)
              count_dirs fullBackup lastBackupTime rest count
          | Some its =>
              r <- count_loop fullBackup lastBackupTime its count ;;
              (* catch (const fs::filesystem_error&): warning, next directory *)
              count_dirs fullBackup lastBackupTime rest (fst r)
          end
      end
  end.

(** [!fullBackup && fs::exists(lastBackupFile)]: the call is made in a
    run that is not full, and throws when the status of the marker file
    cannot be read. *)
Definition marker_exists (fullBackup : bool) : M unit :=
  if fullBackup then ret tt
  else
    match marker_status_error env with
    | Some what => throw what
    | None => ret tt
    end.

Definition countFiles (sourceDirs : list string) (fullBackup : bool) : M nat :=
  marker_exists fullBackup ;;
  file <- gets last_backup_file ;;
  let lastBackupTime := read_lastBackupTime fullBackup file in
  count_dirs fullBackup lastBackupTime sourceDirs 0%nat.

(** [archive_write_header] and [archive_write_data]: their status is not
    looked at by the source. *)
Definition archive_append (x : archive_write) : M unit :=
  modify (fun w =>
    match output_file w with
    | Some ws => with_output (Some (ws ++ [x])%list) w
    | None => w      (* no archive was opened: nothing reaches the disk *)
    end).

(** [while (file && !gShutdownFlag) { file.read(buf, sizeof(buf));
    archive_write_data(archive, buf, file.gcount()); }].
    A read that meets the end of the file leaves the stream failed, so
    the loop ends after the first chunk shorter than the buffer. *)
Fixpoint copy_loop (fuel : nat) (unread : list byte) : M unit :=
  match fuel with
  | O => ret tt
  | S fuel' =>
      flag <- gShutdownFlag env ;;
      if flag then ret tt
      else
        archive_append (write_data (firstn buf_size unread)) ;;
        tick ;;
        if (List.length unread <? buf_size)%nat then ret tt
        else copy_loop fuel' (skipn buf_size unread)
  end.

(** The number of reads a file of [n] bytes takes. *)
Definition reads_needed (n : nat) : nat := S (n / buf_size).

Definition interrupted_msg (dir : string) : string :=
  "Warning: Backup interrupted by signal, stopping directory processing: " ++ dir.

(** The statements of the loop body that archive a selected entry (from
    [archive_entry_new] on).  The result tells whether the loop goes on
    with the next entry ([true]) or is left by [break] or [return]. *)
Definition archive_file (dir : string) (it : DirEntry) : M bool :=
  match file_size it with
  | None =>
      (* catch (const fs::filesystem_error& e) *)
      logFile ("Warning: Failed to access directory " ++ dir
               ++ ": cannot get file size, skipping.") ;;
      ret false
  | Some size =>
      let ae := {| ae_pathname := path it;
                   ae_size := size;
                   ae_perm := 420 (* 0644 *) |} in
      match content it with
      | None =>
          logFile ("Failed to open file: " ++ path it) ;;
          ret true                                                  (* continue *)
      | Some bytes =>
          (* std::lock_guard<std::mutex> lock(mutex); *)
          tick ;;
          flag <- gShutdownFlag env ;;
          if flag then logFile (interrupted_msg dir) ;; ret false   (* return *)
          else
            archive_append (write_header ae) ;;
            copy_loop (reads_needed (List.length bytes)) bytes ;;
            (* the lock is released *)
            flag <- gShutdownFlag env ;;
            if flag then logFile (interrupted_msg dir) ;; ret false (* break *)
            else
              modify (fun w => with_processed (S (processedFiles w)) w) ;;
              logFile ("Backed up: " ++ path it) ;;
              ret true
      end
  end.

(** The [for] loop of [backupDirectory], inside its [try] block. *)
Fixpoint backup_loop (dir : string) (fullBackup : bool) (lastBackupTime : Z)
    (its : list DirStep) : M unit :=
  match its with
  | [] => ret tt
  | IterationError what :: _ =>
      (* catch (const fs::filesystem_error& e) *)
      logFile ("Warning: Failed to access directory " ++ dir ++ ": " ++ what ++ ", skipping.")
  | Visit it :: rest =>
      tick ;;
      flag <- gShutdownFlag env ;;
      if flag then logFile (interrupted_msg dir)                    (* break *)
      else if negb (is_regular_file it) then
        backup_loop dir fullBackup lastBackupTime rest              (* continue *)
      else
        let ext := Path.extension (path it) in
        if isExcluded ext then
          backup_loop dir fullBackup lastBackupTime rest            (* continue *)
        else
          match last_write_time it with
          | None =>
              logFile ("Warning: Failed to access directory " ++ dir
                       ++ ": cannot get file time, skipping.")
          | Some lastWrite =>
              now1 <- now env ;;
              now2 <- now_inner env archiving (path it) ;;
              let fileTime := fileTime now1 now2 lastWrite in
              if negb fullBackup && (fileTime <=? lastBackupTime) then
                backup_loop dir fullBackup lastBackupTime rest      (* continue *)
              else
                go_on <- archive_file dir it ;;
                if go_on then backup_loop dir fullBackup lastBackupTime rest
                else ret tt
          end
  end.

(** [backupDirectory]: the work of one thread.  The two calls of
    [fs::exists] come before the [try] block: what they throw leaves the
    thread function, and the process is ended by [std::terminate]. *)
Definition backupDirectory (dir : string) (fullBackup : bool) : M unit :=
  match status_error env dir with
  | Some what => throw what
  | None =>
      match listing env dir with
      | None => logFile ("Warning: Directory does not exist, skipping: " ++ dir)
      | Some its =>
          marker_exists fullBackup ;;
          file <- gets last_backup_file ;;
          let lastBackupTime := read_lastBackupTime fullBackup file in
          backup_loop dir fullBackup lastBackupTime its
      end
  end.

(** [archive_write_open_filename]: on success the output file exists and
    is empty. *)
Definition archive_write_open_filename : M (option string) :=
  tick ;;
  match write_open_error env with
  | Some e => ret (Some e)
  | None => modify (with_output (Some [])) ;; ret None
  end.

Definition archive_write_close : M unit :=
  tick ;; archive_append write_close.

(** One thread per source directory, all joined before going on.  The
    threads share the archive (under the mutex), the progress counter
    and the log, and none of them writes the flag or the marker.  Of the
    schedules the threads can follow this is the one that runs them one
    after the other, in the order of [sourceDirs]: what is proved of it
    and depends on the order of the entries in the archive holds for
    that schedule only.  An exception that leaves a thread function ends
    the process ([std::terminate]); it is the [Throws] outcome here.  The
    environment answers alike each time it is asked about a path, so the
    threads find the statuses and the traversals the count found. *)
Definition run_threads (sourceDirs : list string) (fullBackup : bool) : M unit :=
  for_each sourceDirs (fun dir => backupDirectory dir fullBackup).

(** The statements of [execute] that follow the joins. *)
Definition after_join (outputFile : string) : M (expected unit) :=
  flag <- gShutdownFlag env ;;
  if flag then
    logFile "Warning: Backup interrupted by signal, closing archive." ;;
    archive_write_close ;;
    ret (Unexpected "Backup interrupted by signal")
  else
    archive_write_close ;;
    logFile ("File backup completed: " ++ outputFile) ;;
    tick ;;
    t <- now env ;;
    let timeT := Chrono.to_time_t t in
    modify (with_marker (CStr.show_long timeT)) ;;
    ret (Value tt).

(** The statements of [execute] up to the joins; [None] when the threads
    were started and joined, otherwise what [execute] returns. *)
Definition until_join (sourceDirs : list string) (outputFile : string)
    (fullBackup : bool) : M (option (expected unit)) :=
  logFile ("Starting backup to " ++ outputFile) ;;
  create_directories env ;;
  logFile "Created output directory" ;;
  totalFiles <- countFiles sourceDirs fullBackup ;;
  if (totalFiles =? 0)%nat then
    logFile "Warning: No files to back up." ;;
    ret (Some (Value tt))
  else
    modify (with_processed 0%nat) ;;
    opened <- archive_write_open_filename ;;
    match opened with
    | Some e =>
        let errorMsg :=
          "Failed to open archive file: " ++ outputFile ++ " (error: " ++ e ++ ")" in
        logFile errorMsg ;;
        ret (Some (Unexpected errorMsg))
    | None =>
        run_threads sourceDirs fullBackup ;;
        ret None
    end.

Definition execute (sourceDirs : list string) (outputFile : string)
    (fullBackup : bool) : M (expected unit) :=
  r <- until_join sourceDirs outputFile fullBackup ;;
  match r with
  | Some early => ret early
  | None => after_join outputFile
  end.

End Strategy.

End TarGzFileBackupStrategy.

(** ** Broken-down time: std::tm, localtime, mktime, strftime *)

Module Calendar.

Record tm : Type := {
  tm_sec : Z;
  tm_min : Z;
  tm_hour : Z;
  tm_mday : Z;
  tm_mon : Z;     (* months since January, 0..11 *)
  tm_year : Z;    (* years since 1900 *)
  tm_wday : Z     (* days since Sunday, 0..6 *)
}.

(** Days from 1970-01-01 to the civil date [y]-[m]-[d], [m] in 1..12, in
    the proleptic Gregorian calendar; [d] may lie outside the month. *)
Definition days_from_civil (y m d : Z) : Z :=
  let y' := if m <=? 2 then y - 1 else y in
  let era := y' / 400 in
  let yoe := y' - era * 400 in
  let mp := (m + 9) mod 12 in
  let doy := (153 * mp + 2) / 5 + d - 1 in
  let doe := yoe * 365 + yoe / 4 - yoe / 100 + doy in
  era * 146097 + doe - 719468.

(** The civil date of a day number: year, month 1..12, day 1..31. *)
Definition civil_from_days (z : Z) : Z * Z * Z :=
  let z := z + 719468 in
  let era := z / 146097 in
  let doe := z - era * 146097 in
  let yoe := (doe - doe / 1460 + doe / 36524 - doe / 146096) / 365 in
  let y := yoe + era * 400 in
  let doy := doe - (365 * yoe + yoe / 4 - yoe / 100) in
  let mp := (5 * doy + 2) / 153 in
  let d := doy - (153 * mp + 2) / 5 + 1 in
  let m := if mp <? 10 then mp + 3 else mp - 9 in
  (if m <=? 2 then y + 1 else y, m, d).

(** Seconds since the epoch of a broken-down UTC time whose fields may be
    out of range: months carry into years, days into months, and so on. *)
Definition seconds_of_tm (t : tm) : Z :=
  let y := 1900 + tm_year t + tm_mon t / 12 in
  let m := tm_mon t mod 12 + 1 in
  (days_from_civil y m 1 + (tm_mday t - 1)) * 86400
  + tm_hour t * 3600 + tm_min t * 60 + tm_sec t.

(** The broken-down UTC time of a number of seconds since the epoch. *)
Definition tm_of_seconds (s : Z) : tm :=
  let days := s / 86400 in
  let rem := s mod 86400 in
  let '(y, m, d) := civil_from_days days in
  {| tm_sec := rem mod 60;
     tm_min := (rem / 60) mod 60;
     tm_hour := rem / 3600;
     tm_mday := d;
     tm_mon := m - 1;
     tm_year := y - 1900;
     tm_wday := (days + 4) mod 7 |}.

Section Zone.

Variable env : Env.

(** [*std::localtime(&t)] *)
Definition localtime (t : Z) : tm := tm_of_seconds (t + gmtoff env).

(** [std::mktime(&tm)] with [tm_isdst = -1]: the [time_t] of a local
    broken-down time, and the structure as [mktime] leaves it, with
    every field brought back in range. *)
Definition mktime (t : tm) : Z * tm :=
  let r := seconds_of_tm t - gmtoff env in
  (r, localtime r).

End Zone.

Definition with_hms (h m s : Z) (t : tm) : tm :=
  {| tm_sec := s; tm_min := m; tm_hour := h; tm_mday := tm_mday t;
     tm_mon := tm_mon t; tm_year := tm_year t; tm_wday := tm_wday t |}.

Definition with_mday (d : Z) (t : tm) : tm :=
  {| tm_sec := tm_sec t; tm_min := tm_min t; tm_hour := tm_hour t; tm_mday := d;
     tm_mon := tm_mon t; tm_year := tm_year t; tm_wday := tm_wday t |}.

Definition with_mon (m : Z) (t : tm) : tm :=
  {| tm_sec := tm_sec t; tm_min := tm_min t; tm_hour := tm_hour t;
     tm_mday := tm_mday t; tm_mon := m; tm_year := tm_year t;
     tm_wday := tm_wday t |}.

Definition with_year (y : Z) (t : tm) : tm :=
  {| tm_sec := tm_sec t; tm_min := tm_min t; tm_hour := tm_hour t;
     tm_mday := tm_mday t; tm_mon := tm_mon t; tm_year := y;
     tm_wday := tm_wday t |}.

(** [{:02d}] *)
Definition pad2 (n : Z) : string :=
  if (0 <=? n) && (n <? 10) then String "0" (CStr.show_long n)
  else CStr.show_long n.

(** The conversion specifications the program uses. *)
Definition directive (c : ascii) (t : tm) : string :=
  if Ascii.eqb c "d" then pad2 (tm_mday t)
  else if Ascii.eqb c "m" then pad2 (tm_mon t + 1)
  else if Ascii.eqb c "Y" then CStr.show_long (tm_year t + 1900)
  else if Ascii.eqb c "H" then pad2 (tm_hour t)
  else if Ascii.eqb c "M" then pad2 (tm_min t)
  else if Ascii.eqb c "S" then pad2 (tm_sec t)
  else String "%" (String c EmptyString).

(** [std::strftime(buf, sizeof(buf), fmt, &tm)] *)
Fixpoint strftime (fmt : string) (t : tm) : string :=
  match fmt with
  | String c r =>
      if Ascii.eqb c "%" then
        match r with
        | String d r' => directive d t ++ strftime r' t
        | EmptyString => String c EmptyString
        end
      else String c (strftime r t)
  | EmptyString => EmptyString
  end.

(** The rendering of the "Debug:" log lines, [Y-mm-dd HH:MM:SS]. *)
Definition show_tm (t : tm) : string := strftime "%Y-%m-%d %H:%M:%S" t.

End Calendar.

(** ** BackupConfig (backup_config.hpp), with the strategies Backup holds *)

Record BackupConfig : Type := {
  sysBackupFolder : string;
  dbBackupFolder : string;
  backupDirs : list string;
  excludeExtensions : list string;
  retentionDays : Z;
  scheduleType : string;
  scheduleTime : string;
  scheduleDayOfWeek : string;
  scheduleDayOfMonth : Z;
  username : string;
  (** whether [transferStrategy] and [notificationStrategy] are non-null *)
  transferStrategy : bool;
  notificationStrategy : bool
}.

(** ** Backup (backup.cpp) *)

Module Backup.

(** [ss >> n] for an [int]: white space is skipped, then an optional sign
    and at least one digit are read; no digit, or a value outside [int],
    sets the fail bit. *)
Definition extract_int (s : string) : option (Z * string) :=
  let '(neg, body) := CStr.take_sign (CStr.skip_space s) in
  if CStr.starts_with_digit body then
    let '(v, rest) := CStr.scan_digits body 0 in
    let v := if neg then - v else v in
    if (CStr.INT_MIN <=? v) && (v <=? CStr.INT_MAX) then Some (v, rest)
    else None
  else None.

(** [ss >> c] for a [char]: white space is skipped and one character,
    whatever it is, is read; the end of the input sets the fail bit. *)
Definition extract_char (s : string) : option (ascii * string) :=
  match CStr.skip_space s with
  | String c r => Some (c, r)
  | EmptyString => None
  end.

(** [ss >> hour >> colon >> minute >> colon >> second]; [None] stands for
    [ss.fail()]. *)
Definition parse_schedule_time (s : string) : option (Z * Z * Z) :=
  match extract_int s with
  | Some (hour, s1) =>
      match extract_char s1 with
      | Some (_, s2) =>
          match extract_int s2 with
          | Some (minute, s3) =>
              match extract_char s3 with
              | Some (_, s4) =>
                  match extract_int s4 with
                  | Some (second, _) => Some (hour, minute, second)
                  | None => None
                  end
              | None => None
              end
          | None => None
          end
      | None => None
      end
  | None => None
  end.

(** The [dayMap] of the weekly branch. *)
Definition dayMap : list (string * Z) :=
  [("monday", 1); ("tuesday", 2); ("wednesday", 3); ("thursday", 4);
   ("friday", 5); ("saturday", 6); ("sunday", 0)].

Fixpoint find (m : list (string * Z)) (k : string) : option Z :=
  match m with
  | [] => None
  | (k', v) :: m' => if String.eqb k k' then Some v else find m' k
  end.

(** [while (archive_read_next_header(a, &entry) == ARCHIVE_OK)
    archive_read_data_skip(a);] over the statuses the reader will give;
    the result is the number of headers that were read.  A reader with
    no status left is at end of stream. *)
Fixpoint header_loop (statuses : list Z) : nat :=
  match statuses with
  | [] => 0%nat
  | r :: rest => if r =? ARCHIVE_OK then S (header_loop rest) else 0%nat
  end.

Section Orchestrator.

Variable env : Env.
Variable config : BackupConfig.

Definition logMessage (msg : string) : M unit :=
  modify (fun w => with_log (log_lines w ++ [msg])%list w).

Definition logError (msg : string) : M unit :=
  modify (fun w => with_errors (error_lines w ++ [msg])%list w).

(** [if (notificationStrategy) notificationStrategy->notify(msg);] *)
Definition notify (msg : string) : M unit :=
  if notificationStrategy config then
    modify (fun w => with_notifications (notifications w ++ [msg])%list w)
  else ret tt.

(** [changeOwnership(path, user, group)] *)
Definition changeOwnership (p user groupName : string) : M unit :=
  match chown_error env p with
  | Some what => throw what
  | None => modify (fun w => with_chowned (chowned w ++ [p])%list w)
  end.

(** [transferStrategy->transfer(file, dir)] *)
Definition do_transfer (file dir : string) : M (expected unit) :=
  modify (fun w => with_transfers (transfers w ++ [(file, dir)])%list w) ;;
  ret (transfer env file dir).

(** [verifyBackup] *)
Definition verifyBackup (backupFile : string) : M (expected bool) :=
  tick ;;
  file <- gets output_file ;;
  let open_error :=
    match file with
    | None => Some "No such file or directory"
    | Some _ => read_open_error env
    end in
  match open_error with
  | Some e =>
      let errorMsg := "Failed to open archive for verification: "
                      ++ backupFile ++ " (error: " ++ e ++ ")" in
      logError errorMsg ;;
      ret (Unexpected errorMsg)
  | None =>
      let success := true in
      let read := header_loop (read_headers env) in
      modify (fun w => with_steps (steps w + read) w) ;;
      ret (Value success)
  end.

(** How the inner loop of [cleanupOldBackups] ends. *)
Inductive loop_end : Type :=
| finished
| returned (error : string)      (* return std::unexpected(error) *)
| threw (what : string).         (* an exception leaves the loop *)

(** The inner loop of [cleanupOldBackups] over the entries of one
    folder.  The result is the folder as the loop leaves it, and how the
    loop ended.  [is_regular_file] and [last_write_time] are called
    outside the inner [try]: what they throw leaves the function. *)
Fixpoint clean_entries (threshold : Z) (entries : list Artifact)
  : M (list Artifact * loop_end) :=
  match entries with
  | [] => ret ([], finished)
  | entry :: rest =>
      tick ;;
      match art_status_error entry with
      | Some what => ret (entry :: rest, threw what)
      | None =>
          if art_is_regular_file entry then
            match art_time_error entry with
            | Some what => ret (entry :: rest, threw what)
            | None =>
                now1 <- now env ;;
                now2 <- now_inner env cleaning (art_path entry) ;;
                let fileTime :=
                  TarGzFileBackupStrategy.fileTime now1 now2
                    (art_last_write_time entry) in
                if fileTime <? threshold then
                  match remove_error entry with
                  | None =>
                      logMessage ("Removed old backup: " ++ art_path entry) ;;
                      clean_entries threshold rest
                  | Some what =>
                      logError ("Failed to remove old backup: " ++ art_path entry
                                ++ " (error: " ++ what ++ ")") ;;
                      ret (entry :: rest,
                           returned ("Failed to remove old backup: " ++ what))
                  end
                else
                  r <- clean_entries threshold rest ;;
                  ret (entry :: fst r, snd r)
            end
          else
            r <- clean_entries threshold rest ;;
            ret (entry :: fst r, snd r)
      end
  end.

(** One round of the outer loop: [fs::directory_iterator(folder)] throws
    when the folder cannot be opened. *)
Definition clean_folder (get : World -> option (list Artifact))
    (set : option (list Artifact) -> World -> World) (threshold : Z)
  : M (option string) :=
  folder <- gets get ;;
  match folder with
  | None => throw "filesystem error: directory iterator cannot open directory"
  | Some entries =>
      r <- clean_entries threshold entries ;;
      modify (set (Some (fst r))) ;;
      match snd r with
      | finished => ret None
      | returned e => ret (Some e)
      | threw what => throw what
      end
  end.

(** [now - std::chrono::hours(24 * config.retentionDays)]: the product is
    an [int], the hours become a 64-bit count of nanoseconds, and so does
    the difference. *)
Definition threshold_at (now : Z) : Z :=
  Chrono.wrap
    (now - Chrono.wrap (Chrono.hours (CStr.wrap_int (24 * retentionDays config)))).

Definition cleanupOldBackups : M (expected unit) :=
  t <- now env ;;
  let threshold := threshold_at t in
  r <- clean_folder sys_folder with_sys_folder threshold ;;
  match r with
  | Some e => ret (Unexpected e)
  | None =>
      r <- clean_folder db_folder with_db_folder threshold ;;
      match r with
      | Some e => ret (Unexpected e)
      | None => ret (Value tt)
      end
  end.

Definition dateFormat_of (type : string) : option string :=
  if String.eqb type "daily" then Some "%d"
  else if String.eqb type "monthly" then Some "%m"
  else if String.eqb type "yearly" then Some "%Y"
  else None.

(** The part of [execute] that follows a successful file backup. *)
Definition after_file_backup (targetPath dbBackupFile : string)
  : M (expected unit) :=
  verifyResult <- verifyBackup targetPath ;;
  (* if (!verifyResult || !*verifyResult) *)
  let verified :=
    match verifyResult with
    | Value b => b
    | Unexpected _ => false
    end in
  if negb verified then
    let errorMsg := "Backup verification failed: "
                    ++ match verifyResult with
                       | Unexpected e => e
                       | Value _ => ""
                       end in
    logError errorMsg ;;
    notify errorMsg ;;
    ret (Unexpected errorMsg)
  else
    owned <- try_catch
               (changeOwnership targetPath (username config) (username config) ;;
                (if negb (String.eqb dbBackupFile "") then
                   changeOwnership dbBackupFile (username config) (username config)
                 else ret tt) ;;
                ret None)
               (fun what => ret (Some what)) ;;
    match owned with
    | Some what =>
        let errorMsg := "Failed to change ownership: " ++ what in
        logError errorMsg ;;
        notify errorMsg ;;
        ret (Unexpected errorMsg)
    | None =>
        (if transferStrategy config then
           transferResult <- do_transfer targetPath (sysBackupFolder config) ;;
           (match transferResult with
            | Unexpected e =>
                let errorMsg := "File transfer failed: " ++ e in
                logError errorMsg ;; notify errorMsg
            | Value _ => ret tt
            end) ;;
           if negb (String.eqb dbBackupFile "") then
             transferResult <- do_transfer dbBackupFile (dbBackupFolder config) ;;
             match transferResult with
             | Unexpected e =>
                 let errorMsg := "Database transfer failed: " ++ e in
                 logError errorMsg ;; notify errorMsg
             | Value _ => ret tt
             end
           else ret tt
         else ret tt) ;;
        cleanupResult <- cleanupOldBackups ;;
        (match cleanupResult with
         | Unexpected e =>
             let errorMsg := "Cleanup failed: " ++ e in
             logError errorMsg ;; notify errorMsg
         | Value _ => ret tt
         end) ;;
        let successMsg :=
          "Backup completed: " ++ targetPath ++ " and "
          ++ (if String.eqb dbBackupFile "" then "no database backup"
              else dbBackupFile) in
        logMessage successMsg ;;
        notify successMsg ;;
        ret (Value tt)
    end.

(** [Backup::execute] *)
Definition execute (type : string) (fullBackup : bool) : M (expected unit) :=
  match dateFormat_of type with
  | None =>
      logError ("Invalid backup type: " ++ type) ;;
      ret (Unexpected "Invalid backup type. Use daily, monthly, or yearly.")
  | Some dateFormat =>
      t <- now env ;;
      let timeT := Chrono.to_time_t t in
      let dateBuf := Calendar.strftime dateFormat (Calendar.localtime env timeT) in
      let timestampBuf :=
        Calendar.strftime "%Y%m%d-%H%M%S" (Calendar.localtime env timeT) in
      let targetFilename :=
        "sys-" ++ type ++ "-" ++ dateBuf ++ "-" ++ timestampBuf ++ ".tar.gz" in
      let targetPath := sysBackupFolder config ++ targetFilename in
      let dbBaseFilename := "all_databases_" ++ timestampBuf in
      let dbTargetPath := dbBackupFolder config ++ dbBaseFilename in
      tick ;;
      let dbResult := db_execute env dbTargetPath in
      dbBackupFile <-
        (match dbResult with
         | Unexpected e =>
             let errorMsg := "Database backup failed: " ++ e in
             logError errorMsg ;; notify errorMsg ;; ret ""
         | Value f => ret f
         end) ;;
      fileResult <- TarGzFileBackupStrategy.execute env (excludeExtensions config)
                      (backupDirs config) targetPath fullBackup ;;
      match fileResult with
      | Unexpected e =>
          let errorMsg := "File backup failed: " ++ e in
          logError errorMsg ;;
          notify errorMsg ;;
          ret (Unexpected errorMsg)
      | Value _ => after_file_backup targetPath dbBackupFile
      end
  end.

(** The error path of an unreadable or out-of-range [scheduleTime]. *)
Definition invalid_schedule_time : M Chrono.time_point :=
  logError ("Invalid schedule time format: " ++ scheduleTime config) ;;
  throw ("Invalid schedule time format: " ++ scheduleTime config).

(** [Backup::getNextBackupTime] *)
Definition getNextBackupTime : M Chrono.time_point :=
  now <- now env ;;
  let nowT := Chrono.to_time_t now in
  let tmNow := Calendar.localtime env nowT in
  match parse_schedule_time (scheduleTime config) with
  | None => invalid_schedule_time
  | Some (hour, minute, second) =>
      if (hour <? 0) || (hour >? 23) || (minute <? 0) || (minute >? 59)
         || (second <? 0) || (second >? 59)
      then invalid_schedule_time
      else
        let tmNext := Calendar.with_hms hour minute second tmNow in
        let '(t0, tmNext) := Calendar.mktime env tmNext in
        let nextTime := Chrono.from_time_t t0 in
        logMessage ("Debug: Initial next backup time: " ++ Calendar.show_tm tmNext) ;;
        if String.eqb (scheduleType config) "daily" then
          if nextTime <=? now then
            let tmNext := Calendar.with_mday (Calendar.tm_mday tmNext + 1) tmNext in
            let '(t1, tmNext) := Calendar.mktime env tmNext in
            let nextTime := Chrono.from_time_t t1 in
            logMessage ("Debug: Adjusted to next day: " ++ Calendar.show_tm tmNext) ;;
            ret nextTime
          else ret nextTime
        else if String.eqb (scheduleType config) "weekly" then
          match find dayMap (scheduleDayOfWeek config) with
          | None =>
              logError ("Invalid day of week: " ++ scheduleDayOfWeek config) ;;
              throw ("Invalid day of week: " ++ scheduleDayOfWeek config)
          | Some targetDay =>
              let currentDay := Calendar.tm_wday tmNow in
              let daysToAdd := Z.rem (targetDay - currentDay + 7) 7 in
              let daysToAdd :=
                if (daysToAdd =? 0) && (nextTime <=? now) then 7 else daysToAdd in
              let tmNext :=
                Calendar.with_mday (Calendar.tm_mday tmNext + daysToAdd) tmNext in
              let '(t1, tmNext) := Calendar.mktime env tmNext in
              let nextTime := Chrono.from_time_t t1 in
              logMessage ("Debug: Adjusted to next week: " ++ Calendar.show_tm tmNext) ;;
              ret nextTime
          end
        else if String.eqb (scheduleType config) "monthly" then
          let targetDay := scheduleDayOfMonth config in
          if (targetDay <? 1) || (targetDay >? 31) then
            logError ("Invalid day of month: " ++ CStr.show_long targetDay) ;;
            throw ("Invalid day of month: " ++ CStr.show_long targetDay)
          else
            let tmNext := Calendar.with_mday targetDay tmNext in
            if (Calendar.tm_mday tmNext <=? Calendar.tm_mday tmNow)
               && (nextTime <=? now) then
              let tmNext := Calendar.with_mon (Calendar.tm_mon tmNext + 1) tmNext in
              let tmNext :=
                if Calendar.tm_mon tmNext >? 11 then
                  Calendar.with_year (Calendar.tm_year tmNext + 1)
                    (Calendar.with_mon 0 tmNext)
                else tmNext in
              let tmNext := Calendar.with_mday targetDay tmNext in
              let '(t1, tmNext) := Calendar.mktime env tmNext in
              let nextTime := Chrono.from_time_t t1 in
              logMessage ("Debug: Adjusted to next month: " ++ Calendar.show_tm tmNext) ;;
              ret nextTime
            else ret nextTime
        else
          logError ("Invalid schedule type: " ++ scheduleType config) ;;
          throw ("Invalid schedule type: " ++ scheduleType config)
  end.

End Orchestrator.

End Backup.

(** ** Vocabulary of the properties *)

(** The marker file as an observer sees it: its content and how often it
    has been written. *)
Definition marker_state (w : World) : option string * nat :=
  (last_backup_file w, marker_writes w).

(** [c] leaves the component [proj] of the world as it found it, however
    it ends. *)
Definition keeps {B A : Type} (proj : World -> B) (c : M A) : Prop :=
  forall w, proj (snd (c w)) = proj w.

(** The paths of the headers written to an archive. *)
Fixpoint headers_of (ws : list archive_write) : list string :=
  match ws with
  | [] => []
  | write_header ae :: ws' => ae_pathname ae :: headers_of ws'
  | _ :: ws' => headers_of ws'
  end.

(** The selection policy, in the words of the specification but for the
    extension: a file is wanted when its extension is empty or is not in
    the exclusion set, and the run is full or the file was modified after
    the marker. *)
Definition wanted (excl : list string) (fullBackup : bool) (marker : Z)
    (ext : string) (modified : Z) : Prop :=
  (ext = EmptyString \/ ~ In ext excl) /\ (fullBackup = true \/ modified > marker).

(** A traversal all of whose regular files have no extension. *)
Definition extensionless (its : list DirStep) : Prop :=
  forall it, In (Visit it) its -> is_regular_file it = true ->
             Path.extension (path it) = EmptyString.

(** The time the program takes for a file last written at [modified]:
    the last write time moved by the gap between the two readings of the
    clock. *)
Definition file_time (env : Env) (pass : Pass) (p : string) (modified : Z) : Z :=
  modified + now_gap env pass p.

(** What retention keeps: everything but the regular files whose file
    time is before [threshold]. *)
Definition kept (env : Env) (threshold : Z) (a : Artifact) : bool :=
  negb (art_is_regular_file a
        && (file_time env cleaning (art_path a) (art_last_write_time a) <? threshold)).

(** "Now minus the retention window" when [cleanupOldBackups] starts in
    world [w]. *)
Definition cleanup_threshold (env : Env) (config : BackupConfig) (w : World) : Z :=
  clock env (steps w) - Chrono.hours (24 * retentionDays config).

(** The retention windows and the clock readings for which the threshold
    is computed without overflow: 106751 days are the most a 64-bit count
    of nanoseconds holds. *)
Definition window_fits (env : Env) (config : BackupConfig) (w : World) : Prop :=
  0 <= retentionDays config <= 106751
  /\ 0 <= clock env (steps w) <= Chrono.MAX.


(** Every way [c] can end satisfies [P]. *)
Definition ends_in {A : Type} (P : result A -> Prop) (c : M A) : Prop :=
  forall w, P (fst (c w)).


(** The bytes written to an archive, in order, headers left out. *)
Fixpoint data_of (ws : list archive_write) : list byte :=
  match ws with
  | [] => []
  | write_data buf :: ws' => (buf ++ data_of ws')%list
  | _ :: ws' => data_of ws'
  end.

(** The tests both loops apply to an entry, gathered in one boolean: a
    regular file, not excluded, whose time can be read and passes the
    incremental test. *)
Definition selects (env : Env) (pass : Pass) (excl : list string)
    (fullBackup : bool) (marker : Z) (it : DirEntry) : bool :=
  is_regular_file it
  && negb (TarGzFileBackupStrategy.isExcluded excl (Path.extension (path it)))
  && match last_write_time it with
     | Some modified =>
         fullBackup || (file_time env pass (path it) modified >? marker)
     | None => false
     end.






(** The statuses [fs::exists] asks for can be read: that of every source
    directory and, in a run that is not full, that of the marker file. *)
Definition statuses_readable (env : Env) (fullBackup : bool)
    (sourceDirs : list string) : Prop :=
  (fullBackup = false -> marker_status_error env = None)
  /\ forall dir, In dir sourceDirs -> status_error env dir = None.


(** [c] always returns: no exception leaves it. *)
Definition never_throws {A : Type} (c : M A) : Prop :=
  forall w, exists a, fst (c w) = Returns a.

(** ** Scenarios: concrete environments and worlds *)

Module Scenario.

(** 2024-03-15 10:00:00 UTC, a Friday, as a [time_t]. *)
Definition friday_10h : Z := 1710496800.

Definition day_ns : Z := 86400 * Chrono.nanos_per_second.

(** A clock that shows Friday 10:00:00 at step 0 and advances by one
    nanosecond per step. *)
Definition clock_from (t : Z) (n : nat) : Z :=
  Chrono.from_time_t t + Z.of_nat n.

(** An environment in which nothing fails: the signal, if any, arrives at
    step [sig]; the source directories are those of [ls]; in
    [now() - (now() - t)] the outer call reads the clock 100 nanoseconds
    after the inner one. *)
Definition calm (sig : option nat) (ls : string -> option (list DirStep)) : Env :=
  {| shutdown_at := sig;
     clock := clock_from friday_10h;
     now_gap := fun _ _ => 100;
     gmtoff := 0;
     status_error := fun _ => None;
     marker_status_error := None;
     listing := ls;
     create_directories_error := None;
     write_open_error := None;
     read_open_error := None;
     read_headers := [];
     db_execute := fun p => Value (p ++ ".sql.gz");
     chown_error := fun _ => None;
     transfer := fun _ _ => Value tt |}.

(** A world at step 0 whose marker file holds [marker], with no archive at
    the output path and the two retention folders as given. *)
Definition start (marker : option string) (sys db : option (list Artifact)) : World :=
  {| steps := 0;
     last_backup_file := marker;
     marker_writes := 0;
     output_file := None;
     processedFiles := 0;
     sys_folder := sys;
     db_folder := db;
     log_lines := [];
     error_lines := [];
     notifications := [];
     transfers := [];
     chowned := [] |}.

(** Three files of [/srv]: a text file written at second 5, an
    extension-less file written at second 1, a temporary file. *)
Definition a_txt : DirEntry :=
  {| path := "/srv/a.txt"; is_regular_file := true;
     last_write_time := Some (Chrono.from_time_t 5);
     file_size := Some 2; content := Some [x61; x62] |}.

Definition readme : DirEntry :=
  {| path := "/srv/README"; is_regular_file := true;
     last_write_time := Some (Chrono.from_time_t 1);
     file_size := Some 1; content := Some [x61] |}.

Definition b_tmp : DirEntry :=
  {| path := "/srv/b.tmp"; is_regular_file := true;
     last_write_time := Some (Chrono.from_time_t 9);
     file_size := Some 1; content := Some [x61] |}.

Definition srv (its : list DirStep) (dir : string) : option (list DirStep) :=
  if String.eqb dir "/srv" then Some its else None.

Definition config (type time : string) (day : Z) : BackupConfig :=
  {| sysBackupFolder := "/backups/sys/";
     dbBackupFolder := "/backups/db/";
     backupDirs := ["/srv"];
     excludeExtensions := [".tmp"];
     retentionDays := 7;
     scheduleType := type;
     scheduleTime := time;
     scheduleDayOfWeek := "monday";
     scheduleDayOfMonth := day;
     username := "root";
     transferStrategy := false;
     notificationStrategy := true |}.

(** The configuration [c] with a retention window of [days] days. *)
Definition retaining (days : Z) (c : BackupConfig) : BackupConfig :=
  {| sysBackupFolder := sysBackupFolder c;
     dbBackupFolder := dbBackupFolder c;
     backupDirs := backupDirs c;
     excludeExtensions := excludeExtensions c;
     retentionDays := days;
     scheduleType := scheduleType c;
     scheduleTime := scheduleTime c;
     scheduleDayOfWeek := scheduleDayOfWeek c;
     scheduleDayOfMonth := scheduleDayOfMonth c;
     username := username c;
     transferStrategy := transferStrategy c;
     notificationStrategy := notificationStrategy c |}.

(** An artifact of a retention folder, [age] days old on Friday 10:00:00. *)
Definition artifact (name : string) (age : Z) (err : option string) : Artifact :=
  {| art_path := name;
     art_status_error := None;
     art_is_regular_file := true;
     art_time_error := None;
     art_last_write_time := Chrono.from_time_t friday_10h - age * day_ns;
     remove_error := err |}.


(** The environment [e] with a reader that gives the statuses [hs]. *)
Definition decoding (hs : list Z) (e : Env) : Env :=
  {| shutdown_at := shutdown_at e; clock := clock e; now_gap := now_gap e;
     gmtoff := gmtoff e;
     status_error := status_error e; marker_status_error := marker_status_error e;
     listing := listing e;
     create_directories_error := create_directories_error e;
     write_open_error := write_open_error e;
     read_open_error := read_open_error e;
     read_headers := hs;
     db_execute := db_execute e; chown_error := chown_error e;
     transfer := transfer e |}.

(** The environment [e] with a database dump that fails with [why]. *)
Definition no_dump (why : string) (e : Env) : Env :=
  {| shutdown_at := shutdown_at e; clock := clock e; now_gap := now_gap e;
     gmtoff := gmtoff e;
     status_error := status_error e; marker_status_error := marker_status_error e;
     listing := listing e;
     create_directories_error := create_directories_error e;
     write_open_error := write_open_error e;
     read_open_error := read_open_error e;
     read_headers := read_headers e;
     db_execute := fun _ => Unexpected why; chown_error := chown_error e;
     transfer := transfer e |}.

(** A world in which an archive of one entry lies at the output path. *)
Definition archived (w : World) : World :=
  with_output
    (Some [write_header {| ae_pathname := "/srv/a.txt"; ae_size := 2; ae_perm := 420 |};
           write_data [x61; x62]; write_close]) w.

(** The local date and time [getNextBackupTime] returns on Friday
    2024-03-15 at 10:00:00, in the calm environment. *)
Definition next_run (config : BackupConfig) : string :=
  match fst (Backup.getNextBackupTime (calm None (srv [])) config
               (start None None None)) with
  | Returns t =>
      Calendar.show_tm (Calendar.localtime (calm None (srv [])) (Chrono.to_time_t t))
  | Throws what => "exception: " ++ what
  end.

End Scenario.

(** ** Files by path, and the copy loop of the dump and of the transfer *)

(** The regular files of a disk, by path. *)
Definition Files : Type := string -> option (list byte).

Definition write_file (p : string) (c : list byte) (fs : Files) : Files :=
  fun q => if String.eqb q p then Some c else fs q.

Definition remove_file (p : string) (fs : Files) : Files :=
  fun q => if String.eqb q p then None else fs q.

(** [while (in) { in.read(buf, sizeof(buf)); write(out, buf, in.gcount()); }]
    with [char buf[8192]]: a read that meets the end of the file leaves the
    stream failed, so the loop ends after the first block shorter than the
    buffer.  [written] is what the output holds so far. *)
Fixpoint copy_blocks (fuel : nat) (unread written : list byte) : list byte :=
  match fuel with
  | O => written
  | S fuel' =>
      let written := (written ++ firstn TarGzFileBackupStrategy.buf_size unread)%list in
      if (List.length unread <? TarGzFileBackupStrategy.buf_size)%nat then written
      else copy_blocks fuel' (skipn TarGzFileBackupStrategy.buf_size unread) written
  end.

(** The whole loop on a stream: nothing is written when the stream could
    not be opened. *)
Definition copy_stream (input : option (list byte)) : list byte :=
  match input with
  | Some bytes =>
      copy_blocks (TarGzFileBackupStrategy.reads_needed (List.length bytes)) bytes []
  | None => []
  end.

(** ** MySQLBackupStrategy and PostgreSQLBackupStrategy (database_backup.cpp) *)

Module DatabaseBackup.

(** What the strategies cannot decide. *)
Record Host : Type := {
  (** [fs::path::parent_path] *)
  parent_path : string -> string;
  (** the message of the exception [fs::create_directories] throws on a
      path, if it throws *)
  mkdir_error : string -> option string;
  (** [std::system(command)]: the exit status, and the files as the shell
      and the command leave them *)
  system : string -> Files -> Z * Files;
  (** whether [gzopen(path, "wb")] returns a null handle *)
  gzopen_fails : string -> bool;
  (** the message of the exception [fs::remove] throws on a path, if it
      throws *)
  unlink_error : string -> option string
}.

(** What the strategies change.  The content of a [.gz] file is the
    sequence of bytes handed to [gzwrite]. *)
Record Disk : Type := {
  files : Files;
  (** the paths handed to [fs::create_directories], oldest first *)
  made_directories : list string;
  (** the command lines handed to [std::system], oldest first *)
  commands : list string
}.

Section Strategies.

Variable host : Host.

(** [fs::remove(p)] *)
Definition fs_remove (p : string) (d : Disk) : result unit * Disk :=
  match unlink_error host p with
  | Some what => (Throws what, d)
  | None =>
      (Returns tt,
       {| files := remove_file p (files d);
          made_directories := made_directories d;
          commands := commands d |})
  end.

(** The statements the two [execute] functions share, from
    [fs::create_directories] on: [command] is the command line built by
    the caller and [failed] the error of a dump that exits with a status
    other than zero. *)
Definition dump_and_compress (command failed outputPath : string) (d : Disk)
  : result (expected string) * Disk :=
  match mkdir_error host (parent_path host outputPath) with
  | Some what => (Throws what, d)
  | None =>
      let tempSql := outputPath ++ ".sql" in
      let '(status, fs1) := system host command (files d) in
      let d1 := {| files := fs1;
                   made_directories :=
                     (made_directories d ++ [parent_path host outputPath])%list;
                   commands := (commands d ++ [command])%list |} in
      if negb (status =? 0) then (Returns (Unexpected failed), d1)
      else
        let dbBackupFileGz := outputPath ++ ".sql.gz" in
        (* std::ifstream inFile(tempSql, std::ios::binary); *)
        let inFile := fs1 tempSql in
        if gzopen_fails host dbBackupFileGz then
          match fs_remove tempSql d1 with
          | (Throws what, d2) => (Throws what, d2)
          | (Returns _, d2) =>
              (Returns (Unexpected "Failed to open gzip file for writing"), d2)
          end
        else
          (* while (inFile) { inFile.read(buf, sizeof(buf));
                              gzwrite(outFile, buf, inFile.gcount()); } *)
          let d2 := {| files := write_file dbBackupFileGz (copy_stream inFile) fs1;
                       made_directories := made_directories d1;
                       commands := commands d1 |} in
          match fs_remove tempSql d2 with
          | (Throws what, d3) => (Throws what, d3)
          | (Returns _, d3) => (Returns (Value dbBackupFileGz), d3)
          end
  end.

(** [password && password->empty()] *)
Definition present_and_empty (password : option string) : bool :=
  match password with
  | Some p => String.eqb p ""
  | None => false
  end.

(** [password && !password->empty()] *)
Definition present_and_filled (password : option string) : option string :=
  match password with
  | Some p => if negb (String.eqb p "") then Some p else None
  | None => None
  end.

Definition mysql_command (user : string) (password : option string)
    (tempSql : string) : string :=
  match present_and_filled password with
  | Some p => "mysqldump -u " ++ user ++ " -p" ++ p ++ " --all-databases > " ++ tempSql
  | None => "mysqldump -u " ++ user ++ " --all-databases > " ++ tempSql
  end.

(** [MySQLBackupStrategy::execute] *)
Definition mysql_execute (user : string) (password : option string)
    (outputPath : string) (d : Disk) : result (expected string) * Disk :=
  if String.eqb user "" || present_and_empty password then
    (Returns (Unexpected "Invalid MySQL credentials: user or password missing"), d)
  else
    dump_and_compress (mysql_command user password (outputPath ++ ".sql"))
      "Failed to execute mysqldump" outputPath d.

Definition postgresql_command (user : string) (password : option string)
    (pg_host : string) (port : Z) (tempSql : string) : string :=
  match present_and_filled password with
  | Some p =>
      "PGPASSWORD=" ++ p ++ " pg_dumpall -U " ++ user ++ " -h " ++ pg_host
      ++ " -p " ++ CStr.show_long port ++ " > " ++ tempSql
  | None =>
      "pg_dumpall -U " ++ user ++ " -h " ++ pg_host
      ++ " -p " ++ CStr.show_long port ++ " > " ++ tempSql
  end.

(** [PostgreSQLBackupStrategy::execute] *)
Definition postgresql_execute (user : string) (password : option string)
    (pg_host : string) (port : Z) (outputPath : string) (d : Disk)
  : result (expected string) * Disk :=
  if String.eqb user "" || present_and_empty password || String.eqb pg_host ""
     || (port <=? 0) then
    (Returns (Unexpected
                "Invalid PostgreSQL credentials: user, password, host, or port missing"),
     d)
  else
    dump_and_compress
      (postgresql_command user password pg_host port (outputPath ++ ".sql"))
      "Failed to execute pg_dumpall" outputPath d.

End Strategies.

(** [struct DatabaseConfig] (backup_config.hpp) *)
Record DatabaseConfig : Type := {
  db_type : string;
  db_user : string;
  db_password : option string;
  db_host : string;
  db_port : Z
}.

(** The object behind [std::unique_ptr<DatabaseBackupStrategy>]. *)
Inductive Strategy : Type :=
| MySQL (user : string) (password : option string)
| PostgreSQL (user : string) (password : option string) (pg_host : string) (port : Z).

(** [dbStrategy->execute(outputPath)] *)
Definition execute (host : Host) (s : Strategy) (outputPath : string) (d : Disk)
  : result (expected string) * Disk :=
  match s with
  | MySQL user password => mysql_execute host user password outputPath d
  | PostgreSQL user password pg_host port =>
      postgresql_execute host user password pg_host port outputPath d
  end.

(** The first statement of the constructor of [Backup]: the strategy is
    made from the first database of the configuration. *)
Definition make_strategy (databases : list DatabaseConfig) : result Strategy :=
  match databases with
  | db :: _ =>
      if String.eqb (db_type db) "mysql" then
        Returns (MySQL (db_user db) (db_password db))
      else if String.eqb (db_type db) "postgresql" then
        Returns (PostgreSQL (db_user db) (db_password db) (db_host db) (db_port db))
      else Throws ("Unsupported database type: " ++ db_type db)
  | [] => Throws "No database configuration provided"
  end.

End DatabaseBackup.

(** ** SFTPTransferStrategy (remote_transfer.cpp) *)

Module SFTPTransferStrategy.

(** What libssh answers. *)
Record Server : Type := {
  (** [ssh_new()] returns a null session *)
  ssh_new_fails : bool;
  (** [ssh_connect(ssh) == SSH_OK] *)
  ssh_connect_ok : bool;
  (** [ssh_userauth_publickey_auto(...) == SSH_AUTH_SUCCESS] *)
  publickey_ok : bool;
  (** [ssh_userauth_password(ssh, nullptr, password) == SSH_AUTH_SUCCESS] *)
  password_ok : string -> bool;
  (** [sftp_new(ssh)] is not null and [sftp_init(sftp) == SSH_OK] *)
  sftp_ok : bool;
  (** [sftp_open(sftp, path, O_WRONLY | O_CREAT | O_TRUNC, 0644)] is not null *)
  remote_opens : string -> bool
}.

Section Transfer.

Variable server : Server.
(** The member [password_]. *)
Variable password_ : string.
(** The local disk. *)
Variable local : Files.

(** [remote_path + "/" + fs::path(local_file).filename().string()] *)
Definition remote_file (local_file remote_path : string) : string :=
  remote_path ++ "/" ++ Path.filename local_file.

(** [SFTPTransferStrategy::transfer]: the result, and the files of the
    server as the call leaves them.  The status of [sftp_write] is not
    looked at by the source: the content of a remote file is the sequence
    of bytes handed to [sftp_write]. *)
Definition transfer (local_file remote_path : string) (remote : Files)
  : expected unit * Files :=
  if ssh_new_fails server then (Unexpected "Failed to create SSH session", remote)
  else if negb (ssh_connect_ok server) then (Unexpected "SSH connection failed", remote)
  else
    let auth_error :=
      if String.eqb password_ "" then
        if negb (publickey_ok server) then Some "SSH authentication failed" else None
      else
        if negb (password_ok server password_)
        then Some "SSH password authentication failed" else None in
    match auth_error with
    | Some e => (Unexpected e, remote)
    | None =>
        if negb (sftp_ok server) then (Unexpected "SFTP initialization failed", remote)
        else
          let remote_file := remote_file local_file remote_path in
          if negb (remote_opens server remote_file) then
            (Unexpected "Failed to open remote file", remote)
          else
            (* O_CREAT | O_TRUNC: the remote file exists and is empty *)
            let remote1 := write_file remote_file [] remote in
            match local local_file with
            | None => (Unexpected "Failed to open local file", remote1)
            | Some bytes =>
                (Value tt, write_file remote_file (copy_stream (Some bytes)) remote1)
            end
    end.

End Transfer.

End SFTPTransferStrategy.

(** ** The constructor of Backup, runDaemon and main (backup.cpp);
       BackupAPI::startBackup (backup_api.cpp) *)

(** What the constructor of [BackupConfig] gives for a configuration
    file: the settings, and the members only the constructor of [Backup]
    reads.  The two strategy fields of [settings] are set by the
    constructor of [Backup]. *)
Record LoadedConfig : Type := {
  settings : BackupConfig;
  databases : list DatabaseBackup.DatabaseConfig;
  (** [sftpConfig.empty()], [telegramConfig.empty()], [emailConfig.empty()] *)
  sftpConfig_empty : bool;
  telegramConfig_empty : bool;
  emailConfig_empty : bool
}.

Definition with_strategies (transfer notification : bool) (c : BackupConfig)
  : BackupConfig :=
  {| sysBackupFolder := sysBackupFolder c;
     dbBackupFolder := dbBackupFolder c;
     backupDirs := backupDirs c;
     excludeExtensions := excludeExtensions c;
     retentionDays := retentionDays c;
     scheduleType := scheduleType c;
     scheduleTime := scheduleTime c;
     scheduleDayOfWeek := scheduleDayOfWeek c;
     scheduleDayOfMonth := scheduleDayOfMonth c;
     username := username c;
     transferStrategy := transfer;
     notificationStrategy := notification |}.

(** [Backup::Backup]: the object, or the exception that leaves the
    constructor. *)
Definition Backup_new (c : LoadedConfig)
  : result (BackupConfig * DatabaseBackup.Strategy) :=
  match DatabaseBackup.make_strategy (databases c) with
  | Throws what => Throws what
  | Returns dbStrategy =>
      Returns
        (with_strategies (negb (sftpConfig_empty c))
           (negb (telegramConfig_empty c) || negb (emailConfig_empty c))
           (settings c),
         dbStrategy)
  end.

Module Daemon.

Section Loop.

Variable env : Env.
Variable config : BackupConfig.

(** [while (remaining > 0 && !gShutdownFlag) { sleep_for(1 s); remaining -= 1; }]:
    [std::min(remaining, 1)] is one second as long as the loop runs. *)
Fixpoint sleep_loop (remaining : nat) : M unit :=
  match remaining with
  | O => ret tt
  | S remaining' =>
      flag <- gShutdownFlag env ;;
      if flag then ret tt
      else tick ;; sleep_loop remaining'
  end.

(** The branch of the [try] block that sleeps until the next backup. *)
Definition sleep_until (sleepDuration : Z) (ss : string) : M bool :=
  Backup.logMessage ("Next backup scheduled at " ++ ss) ;;
  sleep_loop (Z.to_nat sleepDuration) ;;
  ret true.

(** The branch of the [try] block that runs the backup. *)
Definition backup_now : M bool :=
  Backup.logMessage
    "Debug: Sleep duration is zero or negative, proceeding to backup immediately" ;;
  result <- Backup.execute env config (scheduleType config) false ;;
  match result with
  | Unexpected e =>
      Backup.logError ("Backup failed: " ++ e) ;;
      Backup.notify config e ;;
      ret true
  | Value _ =>
      Backup.logMessage "Backup completed successfully" ;;
      ret true
  end.

(** The statements of the [try] block that follow the computation of the
    next backup time.  The result tells whether the loop goes on ([true])
    or is left by [break]. *)
Definition pace (nextBackup : Chrono.time_point) : M bool :=
  tick ;;
  now <- now env ;;
  (* duration_cast<seconds>: truncation toward zero *)
  let sleepDuration := Z.quot (nextBackup - now) Chrono.nanos_per_second in
  let ss := Calendar.show_tm (Calendar.localtime env (Chrono.to_time_t nextBackup)) in
  let ssNow := Calendar.show_tm (Calendar.localtime env (Chrono.to_time_t now)) in
  Backup.logMessage ("Debug: Current time: " ++ ssNow) ;;
  Backup.logMessage ("Debug: Calculated next backup at " ++ ss) ;;
  Backup.logMessage ("Debug: Sleep duration: " ++ CStr.show_long sleepDuration
                     ++ " seconds") ;;
  flag <- gShutdownFlag env ;;
  if (sleepDuration >? 0) && negb flag then sleep_until sleepDuration ss
  else
    flag <- gShutdownFlag env ;;
    if negb flag then backup_now
    else ret false                                                 (* break *).

(** The [try] block of the loop of [runDaemon]. *)
Definition attempt : M bool :=
  nextBackup <- Backup.getNextBackupTime env config ;;
  pace nextBackup.

(** The handler of the loop: the error is logged, the daemon sleeps sixty
    seconds and leaves the loop if the flag is set by then. *)
Definition recover (what : string) : M bool :=
  Backup.logError ("Daemon error: " ++ what) ;;
  tick ;;
  flag <- gShutdownFlag env ;;
  ret (negb flag).

(** One round of the loop: the [try] block and its handler. *)
Definition round : M bool := try_catch attempt recover.

(** [while (!gShutdownFlag) { ... }], for at most [fuel] rounds; [false]
    when the loop is still running after them. *)
Fixpoint loop (fuel : nat) : M bool :=
  match fuel with
  | O => ret false
  | S fuel' =>
      flag <- gShutdownFlag env ;;
      if flag then ret true
      else
        go_on <- round ;;
        if go_on then loop fuel' else ret true
  end.

(** [Backup::runDaemon].  [log_directory_error] is the message of the
    exception [fs::create_directories] throws on the directory of the log
    file, if it throws, and [log_opens] tells whether the log file can be
    opened for appending. *)
Definition runDaemon (log_directory_error : option string) (log_opens : bool)
    (fuel : nat) : M bool :=
  tick ;;
  match log_directory_error with
  | Some what => throw what
  | None =>
      if negb log_opens then ret true       (* Error: Cannot open log file *)
      else
        (* the handlers of SIGINT and SIGTERM are installed *)
        left <- loop fuel ;;
        if left then
          Backup.logMessage "Daemon shutting down gracefully" ;;
          ret true
        else ret false
  end.

End Loop.

End Daemon.

Module BackupAPI.

Section API.

(** What the constructor of [BackupConfig] does with a path: the object,
    or the exception. *)
Variable load : string -> result LoadedConfig.
Variable env : Env.

(** [Backup backup(configFile)] *)
Definition construct (configFile : string) : M BackupConfig :=
  match load configFile with
  | Throws what => throw what
  | Returns c =>
      match Backup_new c with
      | Throws what => throw what
      | Returns (config, _) => ret config
      end
  end.

(** [BackupAPI::startBackup] *)
Definition startBackup (type : string) (fullBackup : bool) : M (expected unit) :=
  try_catch
    (config <- construct "backup_config.json" ;;
     Backup.execute env config type fullBackup)
    (fun what => ret (Unexpected ("Failed to start backup: " ++ what))).

End API.

End BackupAPI.

Module Main.

(** The variables the argument loop of [main] sets. *)
Record Options : Type := {
  daemonMode : bool;
  fullBackup : bool;
  backupType : string;
  configFile : string
}.

Definition defaults : Options :=
  {| daemonMode := false; fullBackup := false; backupType := "";
     configFile := "backup_config.json" |}.

(** [for (int i = 1; i < argc; ++i)]: [args] is [argv] from index 1 on. *)
Fixpoint parse (args : list string) (o : Options) : Options :=
  match args with
  | [] => o
  | arg :: rest =>
      if String.eqb arg "--daemon" then
        parse rest {| daemonMode := true; fullBackup := fullBackup o;
                      backupType := backupType o; configFile := configFile o |}
      else if String.eqb arg "--full" then
        parse rest {| daemonMode := daemonMode o; fullBackup := true;
                      backupType := backupType o; configFile := configFile o |}
      else
        match String.eqb arg "--config", rest with
        | true, value :: rest' =>                       (* i + 1 < argc *)
            parse rest' {| daemonMode := daemonMode o; fullBackup := fullBackup o;
                           backupType := backupType o; configFile := value |}
        | _, _ =>
            parse rest {| daemonMode := daemonMode o; fullBackup := fullBackup o;
                          backupType := arg; configFile := configFile o |}
        end
  end.

Section Program.

Variable load : string -> result LoadedConfig.
Variable env : Env.
Variable log_directory_error : option string.
Variable log_opens : bool.

(** The statements of [main] that follow the argument loop and the two
    tests of [backupType], for a type that is not empty.  The result is
    the exit status; [None] when the daemon is still running after [fuel]
    rounds. *)
Definition run (o : Options) (type : string) (fuel : nat) : M (option Z) :=
  if negb (daemonMode o) then
    result <- BackupAPI.startBackup load env type (fullBackup o) ;;
    match result with
    | Unexpected _ => ret (Some 1)
    | Value _ => ret (Some 0)                 (* Backup completed successfully. *)
    end
  else
    try_catch
      (config <- BackupAPI.construct load (configFile o) ;;
       left <- Daemon.runDaemon env config log_directory_error log_opens fuel ;;
       ret (if left then Some 0 else None))
      (fun _ => ret (Some 1)).             (* Error: Daemon failed to start *)

(** [main].  In daemon mode without a type the configuration file is read
    twice, by [BackupConfig config(configFile)] and by the constructor of
    [Backup]; [load] gives the same answer both times. *)
Definition main (args : list string) (fuel : nat) : M (option Z) :=
  let o := parse args defaults in
  if daemonMode o && String.eqb (backupType o) "" then
    match load (configFile o) with
    | Throws _ => ret (Some 1)                 (* Error: Failed to load config *)
    | Returns c =>
        let type := scheduleType (settings c) in
        if String.eqb type "" then ret (Some 1)                     (* Usage *)
        else run o type fuel
    end
  else if String.eqb (backupType o) "" then ret (Some 1)            (* Usage *)
  else run o (backupType o) fuel.

End Program.

End Main.

(** ** Vocabulary of the further properties *)

(** The seconds of a local time of day. *)
Definition time_of_day (h m s : Z) : Z := h * 3600 + m * 60 + s.

(** What a run leaves behind on disk and at the remote end: the marker
    file, the archive, the two retention folders, the transfers and the
    ownership changes.  Clocks, logs and notifications are left out. *)
Definition durable (w : World)
  : option string * nat * option (list archive_write)
    * option (list Artifact) * option (list Artifact)
    * list (string * string) * list string :=
  (last_backup_file w, marker_writes w, output_file w, sys_folder w, db_folder w,
   transfers w, chowned w).

(** Every way [c] can end, and the world it ends in, satisfy [Q]. *)
Definition ensures {A : Type} (Q : result A -> World -> Prop) (c : M A) : Prop :=
  forall w, Q (fst (c w)) (snd (c w)).

(** The error [e] is the last line of the error log and, when a notifier
    is configured, the last notification. *)
Definition reported (config : BackupConfig) (e : string) (w : World) : Prop :=
  (exists l, error_lines w = (l ++ [e])%list)
  /\ (notificationStrategy config = true ->
      exists l, notifications w = (l ++ [e])%list).

(** [c] only adds entries and data to an open archive: it never closes
    it, and never removes what was written. *)
Definition only_appends {A : Type} (c : M A) : Prop :=
  forall w ws,
    output_file w = Some ws ->
    exists added,
      output_file (snd (c w)) = Some (ws ++ added)%list /\ ~ In write_close added.


(** The errors [TarGzFileBackupStrategy::execute] returns: the
    interruption by a signal and the archive that cannot be opened.
    Nothing is said of a call that ends by an exception. *)
Definition file_backup_outcome (env : Env) (outputFile : string)
    (r : result (expected unit)) : Prop :=
  match r with
  | Returns (Unexpected e) =>
      e = "Backup interrupted by signal"
      \/ exists why,
           write_open_error env = Some why
           /\ e = "Failed to open archive file: " ++ outputFile
                  ++ " (error: " ++ why ++ ")"
  | Returns (Value _) => True
  | Throws _ => True
  end.

(** The errors [Backup::execute] returns.  Nothing is said of a call that
    ends by an exception. *)
Definition run_outcome (r : result (expected unit)) : Prop :=
  match r with
  | Returns (Unexpected e) =>
      e = "Invalid backup type. Use daily, monthly, or yearly."
      \/ (exists m, e = "File backup failed: " ++ m)
      \/ (exists m, e = "Backup verification failed: " ++ m)
      \/ (exists m, e = "Failed to change ownership: " ++ m)
  | Returns (Value _) => True
  | Throws _ => True
  end.

(** ** Scenarios of the database dump, the transfer and the command line *)

Module Site.

(** A host on which nothing fails, and whose dump command leaves [dump]
    in [/backups/db/all.sql]. *)
Definition host (dump : list byte) : DatabaseBackup.Host :=
  {| DatabaseBackup.parent_path := fun _ => "/backups/db";
     DatabaseBackup.mkdir_error := fun _ => None;
     DatabaseBackup.system := fun _ fs => (0, write_file "/backups/db/all.sql" dump fs);
     DatabaseBackup.gzopen_fails := fun _ => false;
     DatabaseBackup.unlink_error := fun _ => None |}.

(** A disk without files. *)
Definition blank : DatabaseBackup.Disk :=
  {| DatabaseBackup.files := fun _ => None;
     DatabaseBackup.made_directories := [];
     DatabaseBackup.commands := [] |}.

(** A MySQL database whose user is missing. *)
Definition anonymous : DatabaseBackup.DatabaseConfig :=
  {| DatabaseBackup.db_type := "mysql";
     DatabaseBackup.db_user := "";
     DatabaseBackup.db_password := None;
     DatabaseBackup.db_host := "localhost";
     DatabaseBackup.db_port := 3306 |}.

(** A machine without configuration file. *)
Definition no_config (p : string) : result LoadedConfig :=
  Throws ("Cannot open config file: " ++ p).

End Site.

(* ===================================================================== *)
(** * Part II.  Properties                                               *)
(* ===================================================================== *)

(** ** Decimal digits and [std::stol] *)

Lemma digit_char_is_digit (d : Z) :
  0 <= d < 10 ->
  CStr.isdigit (CStr.digit_char d) = true
  /\ CStr.digit_value (CStr.digit_char d) = d
  /\ CStr.isspace (CStr.digit_char d) = false
  /\ (CStr.code (CStr.digit_char d) =? 10) = false.
Proof.
  intros Hd.
  assert (Hcases : d = 0 \/ d = 1 \/ d = 2 \/ d = 3 \/ d = 4 \/ d = 5
                   \/ d = 6 \/ d = 7 \/ d = 8 \/ d = 9) by lia.
  repeat (destruct Hcases as [-> | Hcases]; [repeat split | ]).
  subst d. repeat split.
Qed.

(** Scanning what [show_digits] produced gives the number back, and goes
    on with whatever followed. *)
Lemma scan_show_digits (fuel : nat) :
  forall (n : Z) (sfx : string),
    0 <= n < 10 ^ Z.of_nat fuel ->
    CStr.scan_digits (CStr.show_digits fuel n sfx) 0 = CStr.scan_digits sfx n.
Proof.
  induction fuel as [| fuel IH]; intros n sfx Hn.
  - simpl in *. replace n with 0 by lia. reflexivity.
  - cbn [CStr.show_digits].
    assert (Hmod : 0 <= n mod 10 < 10) by (apply Z.mod_pos_bound; lia).
    destruct (digit_char_is_digit _ Hmod) as (Hdig & Hval & _ & _).
    destruct (Z.ltb_spec n 10) as [Hlt | Hge].
    + cbn [CStr.scan_digits]. rewrite Hdig, Hval.
      rewrite Z.mod_small by lia. f_equal.
    + rewrite IH.
      * cbn [CStr.scan_digits]. rewrite Hdig, Hval.
        f_equal. pose proof (Z.div_mod n 10). lia.
      * rewrite Nat2Z.inj_succ, Z.pow_succ_r in Hn by lia.
        split; [apply Z.div_pos; lia | apply Z.div_lt_upper_bound; lia].
Qed.

(** What [show_digits] produces starts with a digit, unless it is just the
    suffix it was given. *)
Lemma show_digits_head (fuel : nat) :
  forall (n : Z) (sfx : string),
    exists d r, 0 <= d < 10
                /\ CStr.show_digits (S fuel) n sfx = String (CStr.digit_char d) r.
Proof.
  induction fuel as [| fuel IH]; intros n sfx.
  - exists (n mod 10), sfx. split; [apply Z.mod_pos_bound; lia |].
    cbn. destruct (n <? 10); reflexivity.
  - change (CStr.show_digits (S (S fuel)) n sfx)
      with (let acc' := String (CStr.digit_char (n mod 10)) sfx in
            if n <? 10 then acc' else CStr.show_digits (S fuel) (n / 10) acc').
    cbv zeta. destruct (n <? 10).
    + exists (n mod 10), sfx. split; [apply Z.mod_pos_bound; lia | reflexivity].
    + apply IH.
Qed.

(** It holds on one line. *)
Lemma show_digits_one_line (fuel : nat) :
  forall (n : Z) (sfx : string),
    CStr.first_line sfx = sfx ->
    CStr.first_line (CStr.show_digits fuel n sfx) = CStr.show_digits fuel n sfx.
Proof.
  induction fuel as [| fuel IH]; intros n sfx Hs; [exact Hs |].
  cbn [CStr.show_digits].
  assert (Hmod : 0 <= n mod 10 < 10) by (apply Z.mod_pos_bound; lia).
  destruct (digit_char_is_digit _ Hmod) as (_ & _ & _ & Hlf).
  assert (Hacc : CStr.first_line (String (CStr.digit_char (n mod 10)) sfx)
                 = String (CStr.digit_char (n mod 10)) sfx).
  { cbn [CStr.first_line]. rewrite Hlf, Hs. reflexivity. }
  destruct (n <? 10); [exact Hacc | apply IH; exact Hacc].
Qed.

Lemma long_fits_twenty_digits (t : Z) :
  CStr.LONG_MIN <= t <= CStr.LONG_MAX -> Z.abs t < 10 ^ Z.of_nat 20.
Proof.
  unfold CStr.LONG_MIN, CStr.LONG_MAX. intros H.
  change (10 ^ Z.of_nat 20) with 100000000000000000000.
  change (2 ^ 63) with 9223372036854775808 in H. lia.
Qed.

(** [std::stol] reads back what [ostream << long] wrote. *)
Lemma stol_show_long (t : Z) :
  CStr.LONG_MIN <= t <= CStr.LONG_MAX ->
  CStr.stol (CStr.show_long t) = inl t.
Proof.
  intros Hrange. pose proof (long_fits_twenty_digits t Hrange) as Hfit.
  assert (Hin : (CStr.LONG_MIN <=? t) && (t <=? CStr.LONG_MAX) = true).
  { apply andb_true_iff. split; apply Z.leb_le; lia. }
  unfold CStr.stol, CStr.show_long.
  destruct (Z.ltb_spec t 0) as [Hneg | Hpos].
  - cbn [CStr.skip_space CStr.isspace]. cbn [CStr.take_sign].
    change (CStr.isspace "-") with false. cbv iota.
    cbn [CStr.take_sign].
    destruct (show_digits_head 19 (- t) EmptyString) as (d & r & Hd & Heq).
    destruct (digit_char_is_digit d Hd) as (Hdig & _ & _ & _).
    assert (Hstart : CStr.starts_with_digit (CStr.show_digits 20 (- t) EmptyString) = true).
    { rewrite Heq. exact Hdig. }
    rewrite Hstart, scan_show_digits by lia.
    cbn [CStr.scan_digits fst]. rewrite Z.opp_involutive, Hin. reflexivity.
  - destruct (show_digits_head 19 t EmptyString) as (d & r & Hd & Heq).
    destruct (digit_char_is_digit d Hd) as (Hdig & Hval & Hsp & _).
    assert (Hskip : CStr.skip_space (CStr.show_digits 20 t EmptyString)
                    = CStr.show_digits 20 t EmptyString).
    { rewrite Heq. cbn [CStr.skip_space]. rewrite Hsp. reflexivity. }
    assert (Hsign : CStr.take_sign (CStr.show_digits 20 t EmptyString)
                    = (false, CStr.show_digits 20 t EmptyString)).
    { rewrite Heq. unfold CStr.take_sign.
      assert (Hcases : d = 0 \/ d = 1 \/ d = 2 \/ d = 3 \/ d = 4 \/ d = 5
                       \/ d = 6 \/ d = 7 \/ d = 8 \/ d = 9) by lia.
      repeat (destruct Hcases as [-> | Hcases]; [reflexivity | ]).
      subst d. reflexivity. }
    rewrite Hskip, Hsign.
    assert (Hstart : CStr.starts_with_digit (CStr.show_digits 20 t EmptyString) = true).
    { rewrite Heq. exact Hdig. }
    rewrite Hstart, scan_show_digits by lia.
    cbn [CStr.scan_digits fst]. rewrite Hin. reflexivity.
Qed.

(** What [ostream << long] wrote is one non-empty line. *)
Lemma getline_show_long (t : Z) :
  CStr.getline (CStr.show_long t) = Some (CStr.show_long t)
  /\ CStr.show_long t <> EmptyString.
Proof.
  assert (Hline : CStr.first_line (CStr.show_long t) = CStr.show_long t).
  { unfold CStr.show_long. destruct (t <? 0).
    - cbn [CStr.first_line]. change (CStr.code "-" =? 10) with false. cbv iota.
      rewrite show_digits_one_line; reflexivity.
    - apply show_digits_one_line. reflexivity. }
  assert (Hne : CStr.show_long t <> EmptyString).
  { unfold CStr.show_long. destruct (t <? 0); [discriminate |].
    destruct (show_digits_head 19 t EmptyString) as (d & r & _ & Heq).
    rewrite Heq. discriminate. }
  split; [| exact Hne].
  unfold CStr.getline. rewrite Hline.
  destruct (CStr.show_long t); [contradiction | reflexivity].
Qed.

Lemma stol_empty : CStr.stol EmptyString = inr CStr.invalid_argument.
Proof. reflexivity. Qed.

Lemma eqb_empty_false (s : string) : s <> EmptyString -> String.eqb s EmptyString = false.
Proof. intros H. apply String.eqb_neq. exact H. Qed.

(** ** The incremental marker *)

Example read_marker_seconds :
  TarGzFileBackupStrategy.read_lastBackupTime false (Some "1710496800")
  = 1710496800000000000.
Proof. reflexivity. Qed.

Example read_marker_garbage :
  TarGzFileBackupStrategy.read_lastBackupTime false (Some "yesterday") = Chrono.epoch
  /\ TarGzFileBackupStrategy.read_lastBackupTime false
       (Some "99999999999999999999") = Chrono.epoch.
Proof. split; reflexivity. Qed.

(** A 64-bit count holds what fits in it. *)
Lemma wrap_exact (z : Z) : Chrono.MIN <= z <= Chrono.MAX -> Chrono.wrap z = z.
Proof.
  unfold Chrono.wrap, Chrono.MIN, Chrono.MAX.
  change (2 ^ 63) with 9223372036854775808.
  change (2 ^ 64) with 18446744073709551616.
  intros H. rewrite Z.mod_small; lia.
Qed.

(** The seconds whose count of nanoseconds fits in 64 bits. *)
Lemma marker_seconds_fit (t : Z) :
  - 9223372036 <= t <= 9223372036 ->
  Chrono.wrap (Chrono.from_time_t t) = Chrono.from_time_t t.
Proof.
  intros H. apply wrap_exact.
  unfold Chrono.from_time_t, Chrono.nanos_per_second, Chrono.MIN, Chrono.MAX.
  change (2 ^ 63) with 9223372036854775808. lia.
Qed.












(** ** Rules for the monad *)

Lemma bind_returns {A B : Type} (c : M A) (k : A -> M B) (w w' : World) (a : A) :
  c w = (Returns a, w') -> bind c k w = k a w'.
Proof. intros H. unfold bind. rewrite H. reflexivity. Qed.

Lemma bind_throws {A B : Type} (c : M A) (k : A -> M B) (w w' : World) (e : string) :
  c w = (Throws e, w') -> bind c k w = (Throws e, w').
Proof. intros H. unfold bind. rewrite H. reflexivity. Qed.

Lemma bind_ext {A B : Type} (c : M A) (k1 k2 : A -> M B) (w : World) :
  (forall a w', k1 a w' = k2 a w') -> bind c k1 w = bind c k2 w.
Proof.
  intros H. unfold bind. destruct (c w) as [[a | e] w']; [apply H | reflexivity].
Qed.

Section Frame.

Context {B : Type} (proj : World -> B).

Lemma keeps_ret {A : Type} (a : A) : keeps proj (ret a).
Proof. intros w. reflexivity. Qed.

Lemma keeps_throw {A : Type} (e : string) : keeps proj (@throw A e).
Proof. intros w. reflexivity. Qed.

Lemma keeps_gets {A : Type} (f : World -> A) : keeps proj (gets f).
Proof. intros w. reflexivity. Qed.

Lemma keeps_modify (f : World -> World) :
  (forall w, proj (f w) = proj w) -> keeps proj (modify f).
Proof. intros H w. apply H. Qed.

Lemma keeps_bind {A C : Type} (c : M A) (k : A -> M C) :
  keeps proj c -> (forall a, keeps proj (k a)) -> keeps proj (bind c k).
Proof.
  intros Hc Hk w. unfold bind. specialize (Hc w).
  destruct (c w) as [[a | e] w'].
  - rewrite Hk. exact Hc.
  - exact Hc.
Qed.

Lemma keeps_try_catch {A : Type} (c : M A) (h : string -> M A) :
  keeps proj c -> (forall e, keeps proj (h e)) -> keeps proj (try_catch c h).
Proof.
  intros Hc Hh w. unfold try_catch. specialize (Hc w).
  destruct (c w) as [[a | e] w'].
  - exact Hc.
  - rewrite Hh. exact Hc.
Qed.

Lemma keeps_for_each {A : Type} (xs : list A) (body : A -> M unit) :
  (forall x, keeps proj (body x)) -> keeps proj (for_each xs body).
Proof.
  intros Hb. induction xs as [| x xs IH]; cbn [for_each].
  - apply keeps_ret.
  - apply keeps_bind; [apply Hb | intros _; exact IH].
Qed.

End Frame.

(** Breaks a frame goal down along the structure of the code. *)
Ltac frame_step :=
  first
    [ assumption
    | apply keeps_ret
    | apply keeps_throw
    | apply keeps_gets
    | apply keeps_modify; intros ?w; reflexivity
    | apply keeps_bind; [ | intros ? ]
    | apply keeps_try_catch; [ | intros ? ]
    | apply keeps_for_each; intros ?
    | match goal with
      | |- keeps _ (if ?b then _ else _) => destruct b
      | |- keeps _ (match ?x with _ => _ end) => destruct x
      | |- keeps _ (let '(_, _) := ?x in _) => destruct x
      end ].

Ltac frame := repeat frame_step.

(** ** What the primitive steps leave alone *)

Lemma tick_keeps {B : Type} (proj : World -> B) :
  (forall n w, proj (with_steps n w) = proj w) -> keeps proj tick.
Proof. intros H. unfold tick. apply keeps_modify. intros w. apply H. Qed.

Lemma logFile_keeps {B : Type} (proj : World -> B) (msg : string) :
  (forall l w, proj (with_log l w) = proj w) -> keeps proj (logFile msg).
Proof. intros H. unfold logFile. apply keeps_modify. intros w. apply H. Qed.

Lemma tick_keeps_marker : keeps marker_state tick.
Proof. apply tick_keeps. reflexivity. Qed.

Lemma tick_keeps_output : keeps output_file tick.
Proof. apply tick_keeps. reflexivity. Qed.

Lemma logFile_keeps_marker (msg : string) : keeps marker_state (logFile msg).
Proof. apply logFile_keeps. reflexivity. Qed.

Lemma logFile_keeps_output (msg : string) : keeps output_file (logFile msg).
Proof. apply logFile_keeps. reflexivity. Qed.

Lemma flag_keeps {B : Type} (proj : World -> B) (env : Env) :
  keeps proj (gShutdownFlag env).
Proof. apply keeps_gets. Qed.

Lemma now_keeps {B : Type} (proj : World -> B) (env : Env) : keeps proj (now env).
Proof. apply keeps_gets. Qed.

Lemma now_inner_keeps {B : Type} (proj : World -> B) (env : Env) (pass : Pass)
    (p : string) :
  keeps proj (now_inner env pass p).
Proof. apply keeps_gets. Qed.

Lemma marker_exists_keeps {B : Type} (proj : World -> B) (env : Env)
    (fullBackup : bool) :
  keeps proj (TarGzFileBackupStrategy.marker_exists env fullBackup).
Proof.
  unfold TarGzFileBackupStrategy.marker_exists.
  destruct fullBackup; [apply keeps_ret |].
  destruct (marker_status_error env); [apply keeps_throw | apply keeps_ret].
Qed.

Lemma create_directories_keeps_marker (env : Env) :
  keeps marker_state (create_directories env).
Proof.
  unfold create_directories.
  apply keeps_bind; [apply tick_keeps_marker | intros _].
  destruct (create_directories_error env); [apply keeps_throw | apply keeps_ret].
Qed.

Lemma create_directories_keeps_output (env : Env) :
  keeps output_file (create_directories env).
Proof.
  unfold create_directories.
  apply keeps_bind; [apply tick_keeps_output | intros _].
  destruct (create_directories_error env); [apply keeps_throw | apply keeps_ret].
Qed.

Lemma archive_append_keeps_marker (x : archive_write) :
  keeps marker_state (TarGzFileBackupStrategy.archive_append x).
Proof.
  unfold TarGzFileBackupStrategy.archive_append. apply keeps_modify.
  intros w. destruct (output_file w); reflexivity.
Qed.

Create HintDb frame.

#[local] Hint Resolve tick_keeps_marker tick_keeps_output logFile_keeps_marker
  logFile_keeps_output flag_keeps now_keeps now_inner_keeps marker_exists_keeps
  create_directories_keeps_marker create_directories_keeps_output
  archive_append_keeps_marker : frame.

Ltac frame_auto := repeat first [ solve [auto with frame] | frame_step ].

(** ** The file strategy: what counting and archiving leave alone *)

(** The source computes a file's time from two readings of the clock: it
    is the file's last write time moved by the gap between the readings. *)
Lemma fileTime_gap (t gap lastWrite : Z) :
  TarGzFileBackupStrategy.fileTime t (t - gap) lastWrite = lastWrite + gap.
Proof. unfold TarGzFileBackupStrategy.fileTime. lia. Qed.

Section FileStrategyFrame.

Variable env : Env.
Variable excl : list string.

Lemma count_loop_keeps {B : Type} (proj : World -> B) :
  keeps proj tick ->
  forall fullBackup lastBackupTime its count,
    keeps proj (TarGzFileBackupStrategy.count_loop env excl fullBackup lastBackupTime
                  its count).
Proof.
  intros Htick fullBackup lastBackupTime its.
  induction its as [| [it | what] rest IH]; intros count;
    cbn [TarGzFileBackupStrategy.count_loop]; frame_auto.
Qed.

Lemma count_dirs_keeps {B : Type} (proj : World -> B) :
  keeps proj tick ->
  forall fullBackup lastBackupTime sourceDirs count,
    keeps proj (TarGzFileBackupStrategy.count_dirs env excl fullBackup lastBackupTime
                  sourceDirs count).
Proof.
  intros Htick fullBackup lastBackupTime sourceDirs.
  induction sourceDirs as [| dir rest IH]; intros count;
    cbn [TarGzFileBackupStrategy.count_dirs]; frame_auto.
  all: try apply count_loop_keeps; auto.
Qed.

Lemma countFiles_keeps {B : Type} (proj : World -> B) :
  keeps proj tick ->
  forall sourceDirs fullBackup,
    keeps proj (TarGzFileBackupStrategy.countFiles env excl sourceDirs fullBackup).
Proof.
  intros Htick sourceDirs fullBackup. unfold TarGzFileBackupStrategy.countFiles.
  apply keeps_bind; [apply marker_exists_keeps | intros _].
  apply keeps_bind; [apply keeps_gets | intros file].
  apply count_dirs_keeps. exact Htick.
Qed.

Lemma copy_loop_keeps_marker (fuel : nat) :
  forall unread, keeps marker_state (TarGzFileBackupStrategy.copy_loop env fuel unread).
Proof.
  induction fuel as [| fuel IH]; intros unread;
    cbn [TarGzFileBackupStrategy.copy_loop]; frame_auto.
Qed.

Lemma archive_file_keeps_marker (dir : string) (it : DirEntry) :
  keeps marker_state (TarGzFileBackupStrategy.archive_file env dir it).
Proof.
  unfold TarGzFileBackupStrategy.archive_file.
  pose proof copy_loop_keeps_marker as Hcopy.
  frame_auto.
Qed.

Lemma backup_loop_keeps_marker (dir : string) (fullBackup : bool) (lastBackupTime : Z) :
  forall its,
    keeps marker_state
      (TarGzFileBackupStrategy.backup_loop env excl dir fullBackup lastBackupTime its).
Proof.
  pose proof archive_file_keeps_marker as Harch.
  induction its as [| [it | what] rest IH];
    cbn [TarGzFileBackupStrategy.backup_loop]; frame_auto.
Qed.

Lemma backupDirectory_keeps_marker (dir : string) (fullBackup : bool) :
  keeps marker_state (TarGzFileBackupStrategy.backupDirectory env excl dir fullBackup).
Proof.
  unfold TarGzFileBackupStrategy.backupDirectory.
  pose proof backup_loop_keeps_marker as Hloop.
  frame_auto.
Qed.

Lemma run_threads_keeps_marker (sourceDirs : list string) (fullBackup : bool) :
  keeps marker_state (TarGzFileBackupStrategy.run_threads env excl sourceDirs fullBackup).
Proof.
  unfold TarGzFileBackupStrategy.run_threads.
  apply keeps_for_each. intros dir. apply backupDirectory_keeps_marker.
Qed.

Lemma archive_write_open_keeps_marker :
  keeps marker_state (TarGzFileBackupStrategy.archive_write_open_filename env).
Proof. unfold TarGzFileBackupStrategy.archive_write_open_filename. frame_auto. Qed.

(** Nothing in [execute] writes the marker before the threads are joined. *)
Lemma until_join_keeps_marker (sourceDirs : list string) (outputFile : string)
    (fullBackup : bool) :
  keeps marker_state
    (TarGzFileBackupStrategy.until_join env excl sourceDirs outputFile fullBackup).
Proof.
  unfold TarGzFileBackupStrategy.until_join.
  pose proof (countFiles_keeps marker_state tick_keeps_marker) as Hcount.
  pose proof run_threads_keeps_marker as Hrun.
  pose proof archive_write_open_keeps_marker as Hopen.
  frame_auto.
Qed.

End FileStrategyFrame.

(** ** The count depends only on the marker and the directories *)

Section Counting.

Variable env : Env.
Variable excl : list string.

Lemma count_loop_result_indep (fullBackup : bool) (lastBackupTime : Z) :
  forall its count w w',
    fst (TarGzFileBackupStrategy.count_loop env excl fullBackup lastBackupTime its count w)
    = fst (TarGzFileBackupStrategy.count_loop env excl fullBackup lastBackupTime its count w').
Proof.
  induction its as [| [it | what] rest IH]; intros count w w'; [reflexivity | | reflexivity].
  cbn [TarGzFileBackupStrategy.count_loop].
  unfold bind, tick, modify, now, now_inner, gets. cbn [fst snd].
  destruct (is_regular_file it); [| apply IH].
  destruct (TarGzFileBackupStrategy.isExcluded excl _); [apply IH |].
  destruct (last_write_time it) as [lastWrite |]; [| reflexivity].
  rewrite !fileTime_gap.
  destruct (fullBackup || (lastWrite + _ >? lastBackupTime)); apply IH.
Qed.

Lemma count_dirs_result_indep (fullBackup : bool) (lastBackupTime : Z) :
  forall sourceDirs count w w',
    fst (TarGzFileBackupStrategy.count_dirs env excl fullBackup lastBackupTime
           sourceDirs count w)
    = fst (TarGzFileBackupStrategy.count_dirs env excl fullBackup lastBackupTime
             sourceDirs count w').
Proof.
  induction sourceDirs as [| dir rest IH]; intros count w w'; [reflexivity |].
  cbn [TarGzFileBackupStrategy.count_dirs].
  destruct (status_error env dir); [reflexivity |].
  destruct (listing env dir) as [its |]; [| apply IH].
  unfold bind.
  pose proof (count_loop_result_indep fullBackup lastBackupTime its count w w') as Heq.
  destruct (TarGzFileBackupStrategy.count_loop env excl fullBackup lastBackupTime
              its count w) as [[r | e] w1];
    destruct (TarGzFileBackupStrategy.count_loop env excl fullBackup lastBackupTime
                its count w') as [[r' | e'] w1'];
    cbn [fst] in Heq; try discriminate.
  - injection Heq as ->. apply IH.
  - injection Heq as ->. reflexivity.
Qed.

(** Two worlds with the same marker file give the same count. *)
Lemma countFiles_result_indep (sourceDirs : list string) (fullBackup : bool)
    (w w' : World) :
  last_backup_file w = last_backup_file w' ->
  fst (TarGzFileBackupStrategy.countFiles env excl sourceDirs fullBackup w)
  = fst (TarGzFileBackupStrategy.countFiles env excl sourceDirs fullBackup w').
Proof.
  intros Hsame.
  unfold TarGzFileBackupStrategy.countFiles, TarGzFileBackupStrategy.marker_exists.
  destruct fullBackup; [| destruct (marker_status_error env); [reflexivity |]];
    unfold bind, gets, ret; rewrite Hsame; apply count_dirs_result_indep.
Qed.

(** The world in which [execute] counts, when the output directory could
    be created. *)
Lemma until_join_reaches_count (sourceDirs : list string) (outputFile : string)
    (fullBackup : bool) (w : World) :
  create_directories_error env = None ->
  exists w1,
    last_backup_file w1 = last_backup_file w
    /\ marker_writes w1 = marker_writes w
    /\ output_file w1 = output_file w
    /\ steps w1 = S (steps w)
    /\ TarGzFileBackupStrategy.until_join env excl sourceDirs outputFile fullBackup w
       = bind (TarGzFileBackupStrategy.countFiles env excl sourceDirs fullBackup)
           (fun totalFiles =>
              if (totalFiles =? 0)%nat then
                bind (logFile "Warning: No files to back up.")
                  (fun _ => ret (Some (Value tt)))
              else
                bind (modify (with_processed 0%nat))
                  (fun _ =>
                     bind (TarGzFileBackupStrategy.archive_write_open_filename env)
                       (fun opened =>
                          match opened with
                          | Some e =>
                              let errorMsg :=
                                "Failed to open archive file: " ++ outputFile
                                ++ " (error: " ++ e ++ ")" in
                              bind (logFile errorMsg)
                                (fun _ => ret (Some (Unexpected errorMsg)))
                          | None =>
                              bind (TarGzFileBackupStrategy.run_threads env excl
                                      sourceDirs fullBackup)
                                (fun _ => ret None)
                          end))) w1.
Proof.
  intros Hmk.
  refine (ex_intro _ _ (conj _ (conj _ (conj _ (conj _ _))))).
  5: { unfold TarGzFileBackupStrategy.until_join.
       unfold bind at 1. unfold logFile at 1. unfold modify at 1.
       unfold bind at 1. unfold create_directories, bind at 1, tick, modify.
       rewrite Hmk. unfold ret at 1.
       unfold bind at 1. unfold logFile at 1. unfold modify at 1.
       reflexivity. }
  all: reflexivity.
Qed.

End Counting.

(** ** Code that always returns *)

Lemma never_throws_ret {A : Type} (a : A) : never_throws (ret a).
Proof. intros w. exists a. reflexivity. Qed.

Lemma never_throws_gets {A : Type} (f : World -> A) : never_throws (gets f).
Proof. intros w. exists (f w). reflexivity. Qed.

Lemma never_throws_modify (f : World -> World) : never_throws (modify f).
Proof. intros w. exists tt. reflexivity. Qed.

Lemma never_throws_bind {A B : Type} (c : M A) (k : A -> M B) :
  never_throws c -> (forall a, never_throws (k a)) -> never_throws (bind c k).
Proof.
  intros Hc Hk w. unfold bind. destruct (Hc w) as [a Ha].
  destruct (c w) as [[a' | e] w']; cbn [fst] in Ha; [| discriminate].
  apply Hk.
Qed.

Lemma never_throws_for_each {A : Type} (xs : list A) (body : A -> M unit) :
  (forall x, never_throws (body x)) -> never_throws (for_each xs body).
Proof.
  intros Hb. induction xs as [| x xs IH]; cbn [for_each].
  - apply never_throws_ret.
  - apply never_throws_bind; [apply Hb | intros _; exact IH].
Qed.

Ltac total_step :=
  first
    [ solve [auto]
    | apply never_throws_ret
    | apply never_throws_gets
    | apply never_throws_modify
    | apply never_throws_bind; [ | intros ? ]
    | apply never_throws_for_each; intros ?
    | match goal with
      | |- never_throws (if ?b then _ else _) => destruct b
      | |- never_throws (match ?x with _ => _ end) => destruct x
      end ].

Ltac total := repeat total_step.

Section FileStrategyTotal.

Variable env : Env.
Variable excl : list string.

Lemma copy_loop_never_throws (fuel : nat) :
  forall unread, never_throws (TarGzFileBackupStrategy.copy_loop env fuel unread).
Proof.
  induction fuel as [| fuel IH]; intros unread;
    cbn [TarGzFileBackupStrategy.copy_loop];
    unfold gShutdownFlag, tick, TarGzFileBackupStrategy.archive_append; total.
Qed.

Lemma archive_file_never_throws (dir : string) (it : DirEntry) :
  never_throws (TarGzFileBackupStrategy.archive_file env dir it).
Proof.
  pose proof copy_loop_never_throws as Hcopy.
  unfold TarGzFileBackupStrategy.archive_file, gShutdownFlag, tick, logFile,
    TarGzFileBackupStrategy.archive_append; total.
Qed.

Lemma backup_loop_never_throws (dir : string) (fullBackup : bool) (lastBackupTime : Z) :
  forall its,
    never_throws
      (TarGzFileBackupStrategy.backup_loop env excl dir fullBackup lastBackupTime its).
Proof.
  pose proof archive_file_never_throws as Harch.
  induction its as [| [it | what] rest IH];
    cbn [TarGzFileBackupStrategy.backup_loop];
    unfold gShutdownFlag, tick, logFile, now; total.
Qed.

Lemma count_loop_never_throws (fullBackup : bool) (lastBackupTime : Z) :
  forall its count,
    never_throws (TarGzFileBackupStrategy.count_loop env excl fullBackup lastBackupTime
                    its count).
Proof.
  induction its as [| [it | what] rest IH]; intros count;
    cbn [TarGzFileBackupStrategy.count_loop]; unfold tick, now, now_inner; total.
Qed.

Lemma marker_exists_never_throws (fullBackup : bool) :
  (fullBackup = false -> marker_status_error env = None) ->
  never_throws (TarGzFileBackupStrategy.marker_exists env fullBackup).
Proof.
  intros Hm. unfold TarGzFileBackupStrategy.marker_exists.
  destruct fullBackup; [apply never_throws_ret |].
  rewrite (Hm eq_refl). apply never_throws_ret.
Qed.

(** A thread whose two calls of [fs::exists] return absorbs every failure
    it meets afterwards. *)
Lemma backupDirectory_never_throws (dir : string) (fullBackup : bool) :
  status_error env dir = None ->
  (fullBackup = false -> marker_status_error env = None) ->
  never_throws (TarGzFileBackupStrategy.backupDirectory env excl dir fullBackup).
Proof.
  intros Hdir Hm.
  pose proof backup_loop_never_throws as Hloop.
  pose proof (marker_exists_never_throws fullBackup Hm) as Hmarker.
  unfold TarGzFileBackupStrategy.backupDirectory. rewrite Hdir.
  unfold logFile; total.
Qed.

(** So do the threads of a run. *)
Lemma run_threads_never_throws (sourceDirs : list string) (fullBackup : bool) :
  statuses_readable env fullBackup sourceDirs ->
  never_throws (TarGzFileBackupStrategy.run_threads env excl sourceDirs fullBackup).
Proof.
  intros [Hm Hdirs].
  unfold TarGzFileBackupStrategy.run_threads.
  induction sourceDirs as [| dir rest IH]; cbn [for_each].
  - apply never_throws_ret.
  - apply never_throws_bind.
    + apply backupDirectory_never_throws; [apply Hdirs; left; reflexivity | exact Hm].
    + intros _. apply IH. intros d Hd. apply Hdirs. right. exact Hd.
Qed.

(** A count that returns has read every status the threads will ask for. *)
Lemma count_dirs_returns_statuses (fullBackup : bool) (lastBackupTime : Z) :
  forall sourceDirs count w n,
    fst (TarGzFileBackupStrategy.count_dirs env excl fullBackup lastBackupTime
           sourceDirs count w) = Returns n ->
    forall dir, In dir sourceDirs -> status_error env dir = None.
Proof.
  induction sourceDirs as [| dir rest IH]; intros count w n Hret d Hd; [destruct Hd |].
  cbn [TarGzFileBackupStrategy.count_dirs] in Hret.
  destruct (status_error env dir) as [what |] eqn:Hst; [discriminate Hret |].
  destruct Hd as [<- | Hd]; [exact Hst |].
  destruct (listing env dir) as [its |].
  - unfold bind in Hret.
    destruct (count_loop_never_throws fullBackup lastBackupTime its count w) as [r Hr].
    destruct (TarGzFileBackupStrategy.count_loop env excl fullBackup lastBackupTime
                its count w) as [[r' | e] w1]; cbn [fst] in Hr; [| discriminate Hr].
    exact (IH _ _ _ Hret d Hd).
  - exact (IH _ _ _ Hret d Hd).
Qed.

Lemma countFiles_returns_statuses (sourceDirs : list string) (fullBackup : bool)
    (w : World) (n : nat) :
  fst (TarGzFileBackupStrategy.countFiles env excl sourceDirs fullBackup w) = Returns n ->
  statuses_readable env fullBackup sourceDirs.
Proof.
  unfold TarGzFileBackupStrategy.countFiles, TarGzFileBackupStrategy.marker_exists.
  intros Hret. split.
  - intros ->. destruct (marker_status_error env); [discriminate Hret | reflexivity].
  - destruct fullBackup; [| destruct (marker_status_error env); [discriminate Hret |]];
      unfold bind, gets, ret in Hret;
      exact (count_dirs_returns_statuses _ _ _ _ _ _ Hret).
Qed.

(** The threads are started and joined exactly when the output directory
    could be created, something was counted and the archive opened. *)
Lemma until_join_joins (sourceDirs : list string) (outputFile : string)
    (fullBackup : bool) (w : World) (n : nat) :
  create_directories_error env = None ->
  fst (TarGzFileBackupStrategy.countFiles env excl sourceDirs fullBackup w)
  = Returns (S n) ->
  write_open_error env = None ->
  fst (TarGzFileBackupStrategy.until_join env excl sourceDirs outputFile fullBackup w)
  = Returns None.
Proof.
  intros Hmk Hcount Hopen.
  destruct (until_join_reaches_count env excl sourceDirs outputFile fullBackup w Hmk)
    as (w1 & Hm & _ & _ & _ & ->).
  pose proof (countFiles_returns_statuses sourceDirs fullBackup w (S n) Hcount) as Hst.
  rewrite (countFiles_result_indep env excl sourceDirs fullBackup w w1) in Hcount
    by (symmetry; exact Hm).
  unfold bind at 1.
  destruct (TarGzFileBackupStrategy.countFiles env excl sourceDirs fullBackup w1)
    as [r w2]. cbn [fst] in Hcount. subst r. cbn [Nat.eqb].
  unfold bind at 1, modify at 1.
  unfold TarGzFileBackupStrategy.archive_write_open_filename.
  rewrite Hopen. unfold bind at 1. unfold bind at 1, tick at 1, modify at 1.
  unfold bind at 1, modify at 1, ret at 1.
  match goal with
  | |- fst (bind ?c _ ?w') = _ =>
      destruct (run_threads_never_throws sourceDirs fullBackup Hst w') as [[] Hrun];
      unfold bind; destruct (c w') as [[[] | e] w3]; cbn [fst] in Hrun;
      [reflexivity | discriminate]
  end.
Qed.

End FileStrategyTotal.

(** ** Runs of the file strategy *)

Example run_counts_nothing :
  fst (TarGzFileBackupStrategy.countFiles
         (Scenario.calm None (Scenario.srv [Visit Scenario.b_tmp])) [".tmp"]
         ["/srv"] false (Scenario.start (Some "3") None None))
  = Returns 0%nat.
Proof. reflexivity. Qed.

Example run_counts_one :
  fst (TarGzFileBackupStrategy.countFiles
         (Scenario.calm None
            (Scenario.srv [Visit Scenario.a_txt; Visit Scenario.readme;
                           Visit Scenario.b_tmp])) [".tmp"]
         ["/srv"; "/missing"] false (Scenario.start (Some "3") None None))
  = Returns 1%nat.
Proof. reflexivity. Qed.

(** With nothing counted, [execute] ends before any archive is opened. *)
Lemma until_join_zero (env : Env) (excl sourceDirs : list string) (outputFile : string)
    (fullBackup : bool) (w : World) :
  create_directories_error env = None ->
  fst (TarGzFileBackupStrategy.countFiles env excl sourceDirs fullBackup w)
  = Returns 0%nat ->
  exists w3,
    TarGzFileBackupStrategy.until_join env excl sourceDirs outputFile fullBackup w
    = (Returns (Some (Value tt)), w3)
    /\ output_file w3 = output_file w
    /\ marker_state w3 = marker_state w.
Proof.
  intros Hmk Hcount.
  destruct (until_join_reaches_count env excl sourceDirs outputFile fullBackup w Hmk)
    as (w1 & Hm & Hmw & Hout & _ & ->).
  rewrite (countFiles_result_indep env excl sourceDirs fullBackup w w1) in Hcount
    by (symmetry; exact Hm).
  pose proof (countFiles_keeps env excl output_file tick_keeps_output
                sourceDirs fullBackup w1) as Hko.
  pose proof (countFiles_keeps env excl marker_state tick_keeps_marker
                sourceDirs fullBackup w1) as Hkm.
  unfold bind at 1.
  destruct (TarGzFileBackupStrategy.countFiles env excl sourceDirs fullBackup w1)
    as [r w2]. cbn [fst snd] in Hcount, Hko, Hkm. subst r.
  cbn [Nat.eqb]. unfold bind, logFile, modify, ret.
  eexists. split; [reflexivity |]. split.
  - cbn. rewrite Hko. exact Hout.
  - unfold marker_state in *. cbn. rewrite Hkm, Hm, Hmw. reflexivity.
Qed.

(** C6.  When the output directory could be created and the count of
    eligible files is zero, [execute] returns success at once: the file at
    the output path is as it was (no archive is created or written) and so
    is the marker file. *)
Theorem execute_nothing_to_back_up :
  forall (env : Env) (excl sourceDirs : list string) (outputFile : string)
         (fullBackup : bool) (w : World),
    create_directories_error env = None ->
    fst (TarGzFileBackupStrategy.countFiles env excl sourceDirs fullBackup w)
    = Returns 0%nat ->
    fst (TarGzFileBackupStrategy.execute env excl sourceDirs outputFile fullBackup w)
    = Returns (Value tt)
    /\ output_file
         (snd (TarGzFileBackupStrategy.execute env excl sourceDirs outputFile fullBackup w))
       = output_file w
    /\ marker_state
         (snd (TarGzFileBackupStrategy.execute env excl sourceDirs outputFile fullBackup w))
       = marker_state w.
Proof.
  intros env excl sourceDirs outputFile fullBackup w Hmk Hcount.
  destruct (until_join_zero env excl sourceDirs outputFile fullBackup w Hmk Hcount)
    as (w3 & Hrun & Hout & Hmarker).
  unfold TarGzFileBackupStrategy.execute.
  rewrite (bind_returns _ _ _ _ _ Hrun). cbn [ret fst snd].
  repeat split; assumption.
Qed.

Lemma execute_nothing_to_back_up_witness :
  fst (TarGzFileBackupStrategy.execute
         (Scenario.calm None (Scenario.srv [Visit Scenario.b_tmp])) [".tmp"] ["/srv"]
         "/backups/sys/sys-daily-15-20240315-100000.tar.gz" false
         (Scenario.start (Some "3") None None))
  = Returns (Value tt)
  /\ output_file
       (snd (TarGzFileBackupStrategy.execute
               (Scenario.calm None (Scenario.srv [Visit Scenario.b_tmp])) [".tmp"]
               ["/srv"] "/backups/sys/sys-daily-15-20240315-100000.tar.gz" false
               (Scenario.start (Some "3") None None)))
     = output_file (Scenario.start (Some "3") None None)
  /\ marker_state
       (snd (TarGzFileBackupStrategy.execute
               (Scenario.calm None (Scenario.srv [Visit Scenario.b_tmp])) [".tmp"]
               ["/srv"] "/backups/sys/sys-daily-15-20240315-100000.tar.gz" false
               (Scenario.start (Some "3") None None)))
     = marker_state (Scenario.start (Some "3") None None).
Proof.
  apply (execute_nothing_to_back_up
           (Scenario.calm None (Scenario.srv [Visit Scenario.b_tmp])) [".tmp"] ["/srv"]
           "/backups/sys/sys-daily-15-20240315-100000.tar.gz" false
           (Scenario.start (Some "3") None None)).
  - reflexivity.
  - reflexivity.
Defined.

(** After the joins, a set flag ends [execute] with the interruption error
    and without a write to the marker file. *)
Lemma after_join_interrupted (env : Env) (outputFile : string) (wj : World) :
  flag_at env (steps wj) = true ->
  exists w',
    TarGzFileBackupStrategy.after_join env outputFile wj
    = (Returns (Unexpected "Backup interrupted by signal"), w')
    /\ marker_state w' = marker_state wj.
Proof.
  intros Hflag.
  unfold TarGzFileBackupStrategy.after_join.
  unfold bind at 1, gShutdownFlag, gets. rewrite Hflag.
  unfold TarGzFileBackupStrategy.archive_write_close,
    TarGzFileBackupStrategy.archive_append, logFile, tick, bind, modify, ret.
  eexists. split; [reflexivity |].
  cbn. destruct (output_file wj); reflexivity.
Qed.

(** After the joins, a clear flag ends [execute] with success and one write
    to the marker file, of the time read after the archive was closed. *)
Lemma after_join_completed (env : Env) (outputFile : string) (wj : World) :
  flag_at env (steps wj) = false ->
  exists w',
    TarGzFileBackupStrategy.after_join env outputFile wj = (Returns (Value tt), w')
    /\ marker_writes w' = S (marker_writes wj)
    /\ last_backup_file w'
       = Some (CStr.show_long (Chrono.to_time_t (clock env (steps w'))))
    /\ output_file w'
       = option_map (fun ws => (ws ++ [write_close])%list) (output_file wj).
Proof.
  intros Hflag.
  unfold TarGzFileBackupStrategy.after_join.
  unfold bind at 1, gShutdownFlag, gets. rewrite Hflag.
  unfold TarGzFileBackupStrategy.archive_write_close,
    TarGzFileBackupStrategy.archive_append, logFile, tick, now, gets, bind, modify, ret.
  eexists. split; [reflexivity |].
  cbn. destruct (output_file wj) eqn:Hout; cbn; rewrite ?Hout; repeat split; reflexivity.
Qed.

(** C5, as the code has it.  When the threads were started (the output
    directory was created, at least one file was counted, the archive
    opened) and the flag is set by the time [execute] tests it after the
    joins, [execute] returns the interruption error and the marker file is
    as it was before the run. *)
Theorem execute_interrupted :
  forall (env : Env) (excl sourceDirs : list string) (outputFile : string)
         (fullBackup : bool) (w : World) (n : nat),
    create_directories_error env = None ->
    fst (TarGzFileBackupStrategy.countFiles env excl sourceDirs fullBackup w)
    = Returns (S n) ->
    write_open_error env = None ->
    flag_at env
      (steps (snd (TarGzFileBackupStrategy.until_join env excl sourceDirs outputFile
                     fullBackup w))) = true ->
    fst (TarGzFileBackupStrategy.execute env excl sourceDirs outputFile fullBackup w)
    = Returns (Unexpected "Backup interrupted by signal")
    /\ marker_state
         (snd (TarGzFileBackupStrategy.execute env excl sourceDirs outputFile fullBackup w))
       = marker_state w.
Proof.
  intros env excl sourceDirs outputFile fullBackup w n Hmk Hcount Hopen Hflag.
  pose proof (until_join_joins env excl sourceDirs outputFile fullBackup w n
                Hmk Hcount Hopen) as Hjoin.
  pose proof (until_join_keeps_marker env excl sourceDirs outputFile fullBackup w)
    as Hkeep.
  destruct (TarGzFileBackupStrategy.until_join env excl sourceDirs outputFile
              fullBackup w) as [r wj] eqn:Huj.
  cbn [fst snd] in Hjoin, Hkeep, Hflag. subst r.
  destruct (after_join_interrupted env outputFile wj Hflag) as (w' & Hafter & Hm).
  unfold TarGzFileBackupStrategy.execute.
  rewrite (bind_returns _ _ _ _ _ Huj), Hafter. cbn [fst snd].
  split; [reflexivity | congruence].
Qed.

Lemma execute_interrupted_witness :
  fst (TarGzFileBackupStrategy.execute
         (Scenario.calm (Some 5%nat) (Scenario.srv [Visit Scenario.a_txt])) [".tmp"]
         ["/srv"] "/backups/sys/sys-daily-15-20240315-100000.tar.gz" false
         (Scenario.start (Some "3") None None))
  = Returns (Unexpected "Backup interrupted by signal")
  /\ marker_state
       (snd (TarGzFileBackupStrategy.execute
               (Scenario.calm (Some 5%nat) (Scenario.srv [Visit Scenario.a_txt]))
               [".tmp"] ["/srv"] "/backups/sys/sys-daily-15-20240315-100000.tar.gz"
               false (Scenario.start (Some "3") None None)))
     = marker_state (Scenario.start (Some "3") None None).
Proof.
  apply (execute_interrupted
           (Scenario.calm (Some 5%nat) (Scenario.srv [Visit Scenario.a_txt])) [".tmp"]
           ["/srv"] "/backups/sys/sys-daily-15-20240315-100000.tar.gz" false
           (Scenario.start (Some "3") None None) 0%nat).
  - reflexivity.
  - reflexivity.
  - reflexivity.
  - vm_compute. reflexivity.
Defined.

(** Two runs during which the flag becomes set and which end in success.
    In the first the signal arrives at step 1 of a run of 2 steps that finds
    nothing to back up.  In the second it arrives at step 7 of a run of 8
    steps, after the test that follows the joins (made at step 6): the run
    succeeds and the marker file goes from [3] to the time of the run. *)
Lemma execute_succeeds_though_signalled :
  (shutdown_at (Scenario.calm (Some 1%nat) (Scenario.srv [Visit Scenario.b_tmp]))
   = Some 1%nat
   /\ steps (Scenario.start (Some "3") None None) = 0%nat
   /\ steps (snd (TarGzFileBackupStrategy.execute
                    (Scenario.calm (Some 1%nat) (Scenario.srv [Visit Scenario.b_tmp]))
                    [".tmp"] ["/srv"] "/backups/sys/sys-daily-15-20240315-100000.tar.gz"
                    false (Scenario.start (Some "3") None None)))
      = 2%nat
   /\ fst (TarGzFileBackupStrategy.execute
             (Scenario.calm (Some 1%nat) (Scenario.srv [Visit Scenario.b_tmp]))
             [".tmp"] ["/srv"] "/backups/sys/sys-daily-15-20240315-100000.tar.gz"
             false (Scenario.start (Some "3") None None))
      = Returns (Value tt))
  /\ (shutdown_at (Scenario.calm (Some 7%nat) (Scenario.srv [Visit Scenario.a_txt]))
      = Some 7%nat
      /\ steps (snd (TarGzFileBackupStrategy.until_join
                       (Scenario.calm (Some 7%nat) (Scenario.srv [Visit Scenario.a_txt]))
                       [".tmp"] ["/srv"]
                       "/backups/sys/sys-daily-15-20240315-100000.tar.gz"
                       false (Scenario.start (Some "3") None None)))
         = 6%nat
      /\ steps (snd (TarGzFileBackupStrategy.execute
                       (Scenario.calm (Some 7%nat) (Scenario.srv [Visit Scenario.a_txt]))
                       [".tmp"] ["/srv"]
                       "/backups/sys/sys-daily-15-20240315-100000.tar.gz"
                       false (Scenario.start (Some "3") None None)))
         = 8%nat
      /\ fst (TarGzFileBackupStrategy.execute
                (Scenario.calm (Some 7%nat) (Scenario.srv [Visit Scenario.a_txt]))
                [".tmp"] ["/srv"] "/backups/sys/sys-daily-15-20240315-100000.tar.gz"
                false (Scenario.start (Some "3") None None))
         = Returns (Value tt)
      /\ marker_state
           (snd (TarGzFileBackupStrategy.execute
                   (Scenario.calm (Some 7%nat) (Scenario.srv [Visit Scenario.a_txt]))
                   [".tmp"] ["/srv"]
                   "/backups/sys/sys-daily-15-20240315-100000.tar.gz"
                   false (Scenario.start (Some "3") None None)))
         = (Some "1710496800", 1%nat)).
Proof. vm_compute. repeat split. Qed.

(** ** Selection: exclusion by extension, then the incremental test *)

Lemma contains_In (v : list string) (x : string) :
  CStr.contains v x = true <-> In x v.
Proof.
  unfold CStr.contains. rewrite existsb_exists. split.
  - intros (y & Hin & Heq). apply String.eqb_eq in Heq. subst y. exact Hin.
  - intros Hin. exists x. split; [exact Hin | apply String.eqb_refl].
Qed.

(** The lambda excludes an extension exactly when it is not empty and is in
    the set. *)
Lemma isExcluded_spec (excl : list string) (ext : string) :
  TarGzFileBackupStrategy.isExcluded excl ext = true
  <-> ext <> EmptyString /\ In ext excl.
Proof.
  unfold TarGzFileBackupStrategy.isExcluded.
  rewrite andb_true_iff, negb_true_iff, contains_In.
  split; intros [Hne Hin]; split; try exact Hin.
  - apply String.eqb_neq. exact Hne.
  - apply String.eqb_neq. exact Hne.
Qed.

Lemma isExcluded_false (excl : list string) (ext : string) :
  TarGzFileBackupStrategy.isExcluded excl ext = false
  <-> ext = EmptyString \/ ~ In ext excl.
Proof.
  split.
  - intros Hf. destruct (String.eqb_spec ext EmptyString) as [He | Hne]; [left; exact He |].
    right. intros Hin.
    assert (Ht : TarGzFileBackupStrategy.isExcluded excl ext = true)
      by (apply isExcluded_spec; split; assumption).
    congruence.
  - intros H. destruct (TarGzFileBackupStrategy.isExcluded excl ext) eqn:E; [| reflexivity].
    apply isExcluded_spec in E. destruct E as [Hne Hin].
    destruct H as [He | Hnin]; contradiction.
Qed.

(** Whether a file is wanted can be decided. *)
Lemma wanted_dec (excl : list string) (fullBackup : bool) (marker : Z)
    (ext : string) (modified : Z) :
  wanted excl fullBackup marker ext modified
  <-> negb (TarGzFileBackupStrategy.isExcluded excl ext)
      && (fullBackup || (modified >? marker)) = true.
Proof.
  unfold wanted.
  rewrite andb_true_iff, negb_true_iff, isExcluded_false, orb_true_iff.
  rewrite Z.gtb_gt. reflexivity.
Qed.

(** C10.  Whatever the exclusion set, the empty extension is not excluded,
    even when the empty string is a member of the set; so a traversal whose
    regular files have no extension is counted, and is archived, exactly as
    with an empty exclusion set. *)
Theorem empty_extension_never_excluded :
  forall excl : list string,
    TarGzFileBackupStrategy.isExcluded excl EmptyString = false
    /\ TarGzFileBackupStrategy.isExcluded (EmptyString :: excl) EmptyString = false
    /\ (forall env fullBackup lastBackupTime its count w,
           extensionless its ->
           TarGzFileBackupStrategy.count_loop env excl fullBackup lastBackupTime
             its count w
           = TarGzFileBackupStrategy.count_loop env [] fullBackup lastBackupTime
               its count w)
    /\ (forall env dir fullBackup lastBackupTime its w,
           extensionless its ->
           TarGzFileBackupStrategy.backup_loop env excl dir fullBackup lastBackupTime
             its w
           = TarGzFileBackupStrategy.backup_loop env [] dir fullBackup lastBackupTime
               its w).
Proof.
  intros excl. split; [reflexivity |]. split; [reflexivity |]. split.
  - intros env fullBackup lastBackupTime its.
    induction its as [| [it | what] rest IH]; intros count w Hext;
      [reflexivity | | reflexivity].
    assert (Hrest : extensionless rest).
    { intros it' Hin. apply Hext. right. exact Hin. }
    cbn [TarGzFileBackupStrategy.count_loop].
    apply bind_ext. intros _ w1.
    destruct (is_regular_file it) eqn:Hreg; [| apply IH; exact Hrest].
    rewrite (Hext it (or_introl eq_refl) Hreg).
    change (TarGzFileBackupStrategy.isExcluded excl EmptyString) with false.
    change (TarGzFileBackupStrategy.isExcluded [] EmptyString) with false.
    cbv iota.
    destruct (last_write_time it) as [lastWrite |]; [| reflexivity].
    apply bind_ext. intros now1 w2. apply bind_ext. intros now2 w3.
    destruct (fullBackup || _); apply IH; exact Hrest.
  - intros env dir fullBackup lastBackupTime its.
    induction its as [| [it | what] rest IH]; intros w Hext;
      [reflexivity | | reflexivity].
    assert (Hrest : extensionless rest).
    { intros it' Hin. apply Hext. right. exact Hin. }
    cbn [TarGzFileBackupStrategy.backup_loop].
    apply bind_ext. intros _ w1. apply bind_ext. intros flag w2.
    destruct flag; [reflexivity |].
    destruct (is_regular_file it) eqn:Hreg; cbn [negb]; [| apply IH; exact Hrest].
    rewrite (Hext it (or_introl eq_refl) Hreg).
    change (TarGzFileBackupStrategy.isExcluded excl EmptyString) with false.
    change (TarGzFileBackupStrategy.isExcluded [] EmptyString) with false.
    cbv iota.
    destruct (last_write_time it) as [lastWrite |]; [| reflexivity].
    apply bind_ext. intros now1 w3. apply bind_ext. intros now2 w4.
    destruct (negb fullBackup && _); [apply IH; exact Hrest |].
    apply bind_ext. intros go_on w5.
    destruct go_on; [apply IH; exact Hrest | reflexivity].
Qed.

Lemma empty_extension_never_excluded_witness :
  TarGzFileBackupStrategy.count_loop
    (Scenario.calm None (Scenario.srv [])) [EmptyString; ".tmp"] false
    (Chrono.from_time_t 0) [Visit Scenario.readme] 0%nat
    (Scenario.start None None None)
  = TarGzFileBackupStrategy.count_loop
      (Scenario.calm None (Scenario.srv [])) [] false
      (Chrono.from_time_t 0) [Visit Scenario.readme] 0%nat
      (Scenario.start None None None).
Proof.
  apply (proj1 (proj2 (proj2 (empty_extension_never_excluded [EmptyString; ".tmp"])))).
  intros it [Hin | []] _. injection Hin as <-. reflexivity.
Defined.

(** The step of [count_loop] on a regular file whose time can be read. *)
Lemma count_loop_step (env : Env) (excl : list string) (fullBackup : bool)
    (marker : Z) (it : DirEntry) (lastWrite : Z) (rest : list DirStep)
    (count : nat) (w : World) :
  is_regular_file it = true ->
  last_write_time it = Some lastWrite ->
  TarGzFileBackupStrategy.count_loop env excl fullBackup marker (Visit it :: rest) count w
  = TarGzFileBackupStrategy.count_loop env excl fullBackup marker rest
      (if negb (TarGzFileBackupStrategy.isExcluded excl (Path.extension (path it)))
          && (fullBackup || (file_time env counting (path it) lastWrite >? marker))
       then S count else count)
      (with_steps (S (steps w)) w).
Proof.
  intros Hreg Htime.
  cbn [TarGzFileBackupStrategy.count_loop].
  unfold bind at 1, tick, modify. rewrite Hreg, Htime.
  destruct (TarGzFileBackupStrategy.isExcluded excl _); cbn [negb andb]; [reflexivity |].
  unfold bind, now, now_inner, gets. rewrite fileTime_gap. unfold file_time.
  destruct (fullBackup || (lastWrite + _ >? marker)); reflexivity.
Qed.

(** The step of [backup_loop] on a regular file whose time can be read,
    met while the flag is clear. *)
Lemma backup_loop_step (env : Env) (excl : list string) (dir : string)
    (fullBackup : bool) (marker : Z) (it : DirEntry) (lastWrite : Z)
    (rest : list DirStep) (w : World) :
  is_regular_file it = true ->
  last_write_time it = Some lastWrite ->
  flag_at env (S (steps w)) = false ->
  TarGzFileBackupStrategy.backup_loop env excl dir fullBackup marker (Visit it :: rest) w
  = if negb (TarGzFileBackupStrategy.isExcluded excl (Path.extension (path it)))
       && (fullBackup || (file_time env archiving (path it) lastWrite >? marker))
    then
      bind (TarGzFileBackupStrategy.archive_file env dir it)
        (fun go_on =>
           if go_on
           then TarGzFileBackupStrategy.backup_loop env excl dir fullBackup marker rest
           else ret tt)
        (with_steps (S (steps w)) w)
    else
      TarGzFileBackupStrategy.backup_loop env excl dir fullBackup marker rest
        (with_steps (S (steps w)) w).
Proof.
  intros Hreg Htime Hflag.
  cbn [TarGzFileBackupStrategy.backup_loop].
  unfold bind at 1, tick, modify.
  unfold bind at 1, gShutdownFlag, gets. cbn [steps with_steps].
  rewrite Hflag, Hreg, Htime. cbn [negb].
  destruct (TarGzFileBackupStrategy.isExcluded excl _); cbn [negb andb]; [reflexivity |].
  unfold bind at 1 2, now, now_inner, gets. rewrite fileTime_gap. unfold file_time.
  destruct fullBackup; cbn [negb andb orb]; [reflexivity |].
  rewrite Z.gtb_ltb, Z.ltb_antisym.
  destruct (lastWrite + _ <=? marker); reflexivity.
Qed.

(** C4, as the code has it.  Take any regular file a traversal reaches and
    whose modification time can be read.  Each of the two passes takes for
    the file's time its modification time moved by the gap between the two
    readings of the clock of that pass.  If the file is wanted at that time
    (its extension is empty or not in the exclusion set, and the run is
    full or the time is strictly after the marker), counting goes on with
    the counter increased, and archiving, met with the flag clear, hands
    the file to the archive stage.  If it is not wanted, counting goes on
    with the counter as it was and archiving goes on with the next entry.
    So when the readings of a pass are at most [d] apart, the pass takes a
    file that is not excluded and was modified more than [d] after the
    marker, and a pass that is not full leaves a file modified [d] or more
    before it. *)
Theorem selection_policy :
  forall (env : Env) (excl : list string) (fullBackup : bool) (marker : Z)
         (it : DirEntry) (modified : Z) (rest : list DirStep),
    is_regular_file it = true ->
    last_write_time it = Some modified ->
    (wanted excl fullBackup marker (Path.extension (path it))
       (file_time env counting (path it) modified) ->
     forall count w,
       TarGzFileBackupStrategy.count_loop env excl fullBackup marker
         (Visit it :: rest) count w
       = TarGzFileBackupStrategy.count_loop env excl fullBackup marker rest
           (S count) (with_steps (S (steps w)) w))
    /\ (~ wanted excl fullBackup marker (Path.extension (path it))
            (file_time env counting (path it) modified) ->
        forall count w,
          TarGzFileBackupStrategy.count_loop env excl fullBackup marker
            (Visit it :: rest) count w
          = TarGzFileBackupStrategy.count_loop env excl fullBackup marker rest
              count (with_steps (S (steps w)) w))
    /\ (wanted excl fullBackup marker (Path.extension (path it))
          (file_time env archiving (path it) modified) ->
        forall dir w,
          flag_at env (S (steps w)) = false ->
          TarGzFileBackupStrategy.backup_loop env excl dir fullBackup marker
            (Visit it :: rest) w
          = bind (TarGzFileBackupStrategy.archive_file env dir it)
              (fun go_on =>
                 if go_on
                 then TarGzFileBackupStrategy.backup_loop env excl dir fullBackup
                        marker rest
                 else ret tt)
              (with_steps (S (steps w)) w))
    /\ (~ wanted excl fullBackup marker (Path.extension (path it))
            (file_time env archiving (path it) modified) ->
        forall dir w,
          flag_at env (S (steps w)) = false ->
          TarGzFileBackupStrategy.backup_loop env excl dir fullBackup marker
            (Visit it :: rest) w
          = TarGzFileBackupStrategy.backup_loop env excl dir fullBackup marker
              rest (with_steps (S (steps w)) w))
    /\ (forall pass d,
           - d <= now_gap env pass (path it) <= d ->
           (Path.extension (path it) = EmptyString
            \/ ~ In (Path.extension (path it)) excl ->
            modified > marker + d ->
            wanted excl fullBackup marker (Path.extension (path it))
              (file_time env pass (path it) modified))
           /\ (fullBackup = false ->
               modified <= marker - d ->
               ~ wanted excl fullBackup marker (Path.extension (path it))
                   (file_time env pass (path it) modified))).
Proof.
  intros env excl fullBackup marker it modified rest Hreg Htime.
  assert (Hnot : forall pass,
             ~ wanted excl fullBackup marker (Path.extension (path it))
                 (file_time env pass (path it) modified) ->
             negb (TarGzFileBackupStrategy.isExcluded excl (Path.extension (path it)))
             && (fullBackup || (file_time env pass (path it) modified >? marker))
             = false).
  { intros pass Hw. destruct (negb _ && _) eqn:E; [| reflexivity].
    exfalso. apply Hw, wanted_dec. exact E. }
  split; [| split; [| split; [| split]]].
  - intros Hw count w. apply wanted_dec in Hw.
    rewrite (count_loop_step _ _ _ _ _ _ _ _ _ Hreg Htime), Hw. reflexivity.
  - intros Hw count w.
    rewrite (count_loop_step _ _ _ _ _ _ _ _ _ Hreg Htime), (Hnot counting Hw).
    reflexivity.
  - intros Hw dir w Hflag. apply wanted_dec in Hw.
    rewrite (backup_loop_step _ _ _ _ _ _ _ _ _ Hreg Htime Hflag), Hw. reflexivity.
  - intros Hw dir w Hflag.
    rewrite (backup_loop_step _ _ _ _ _ _ _ _ _ Hreg Htime Hflag), (Hnot archiving Hw).
    reflexivity.
  - intros pass d Hgap. unfold wanted, file_time. split.
    + intros Hext Hafter. split; [exact Hext | right; lia].
    + intros -> Hbefore [_ [Hfull | Hafter]]; [discriminate Hfull | lia].
Qed.

Lemma selection_policy_witness :
  TarGzFileBackupStrategy.count_loop (Scenario.calm None (Scenario.srv [])) [".tmp"]
    false (Chrono.from_time_t 3) [Visit Scenario.a_txt] 0%nat
    (Scenario.start (Some "3") None None)
  = TarGzFileBackupStrategy.count_loop (Scenario.calm None (Scenario.srv [])) [".tmp"]
      false (Chrono.from_time_t 3) [] 1%nat
      (with_steps 1%nat (Scenario.start (Some "3") None None)).
Proof.
  refine (proj1 (selection_policy (Scenario.calm None (Scenario.srv []))
                   [".tmp"] false (Chrono.from_time_t 3) Scenario.a_txt
                   (Chrono.from_time_t 5) [] eq_refl eq_refl) _ 0%nat
            (Scenario.start (Some "3") None None)).
  split.
  - right. intros [H | []]. discriminate H.
  - right. vm_compute. reflexivity.
Defined.

(** A full run whose exclusion set holds the empty string, over a directory
    holding one file without extension: the extension is in the set, and
    the file is counted and archived. *)
Lemma excluded_extension_yet_included :
  In (Path.extension (path Scenario.readme)) [EmptyString; ".tmp"]
  /\ fst (TarGzFileBackupStrategy.countFiles
            (Scenario.calm None (Scenario.srv [Visit Scenario.readme]))
            [EmptyString; ".tmp"] ["/srv"] true (Scenario.start None None None))
     = Returns 1%nat
  /\ option_map headers_of
       (output_file
          (snd (TarGzFileBackupStrategy.execute
                  (Scenario.calm None (Scenario.srv [Visit Scenario.readme]))
                  [EmptyString; ".tmp"] ["/srv"]
                  "/backups/sys/sys-daily-15-20240315-100000.tar.gz" true
                  (Scenario.start None None None))))
     = Some ["/srv/README"].
Proof. split; [left; reflexivity | split; vm_compute; reflexivity]. Qed.

(** A file last written in the very second of the marker is counted by
    an incremental run when the outer reading of the clock is later than
    the inner one. *)
Example file_written_at_marker_is_counted :
  last_write_time Scenario.a_txt = Some (Chrono.from_time_t 5)
  /\ TarGzFileBackupStrategy.read_lastBackupTime false (Some "5") = Chrono.from_time_t 5
  /\ fst (TarGzFileBackupStrategy.countFiles
            (Scenario.calm None (Scenario.srv [Visit Scenario.a_txt]))
            [".tmp"] ["/srv"] false (Scenario.start (Some "5") None None))
     = Returns 1%nat.
Proof. repeat split. Qed.

(** ** A marker that reads as the epoch: the scan of a full run *)

Section EpochMarker.

Variable env : Env.
Variable excl : list string.







End EpochMarker.



(** ** Whole traversals: what is counted and what is archived *)


Section Traversals.

Variable env : Env.
Variable excl : list string.


Lemma buf_size_pos : (0 < TarGzFileBackupStrategy.buf_size)%nat.
Proof. unfold TarGzFileBackupStrategy.buf_size. lia. Qed.

(** The reads planned for a file suffice to meet its end. *)
Lemma reads_needed_enough (n : nat) :
  (n < TarGzFileBackupStrategy.reads_needed n * TarGzFileBackupStrategy.buf_size)%nat.
Proof.
  unfold TarGzFileBackupStrategy.reads_needed.
  pose proof buf_size_pos as Hpos.
  pose proof (Nat.div_mod_eq n TarGzFileBackupStrategy.buf_size) as Hdiv.
  pose proof (Nat.mod_upper_bound n TarGzFileBackupStrategy.buf_size) as Hmod.
  nia.
Qed.

Lemma data_of_blocks (blocks : list (list byte)) :
  data_of (map write_data blocks) = List.concat blocks.
Proof.
  induction blocks as [| b blocks IH]; [reflexivity |].
  cbn [map data_of List.concat]. rewrite IH. reflexivity.
Qed.


(** While no signal arrives, the copy loop writes the whole file, as a
    sequence of data blocks and nothing else: blocks of the size of the
    buffer, then a last, shorter one. *)
Lemma copy_loop_writes_all (fuel : nat) :
  shutdown_at env = None ->
  forall unread w ws,
    output_file w = Some ws ->
    (List.length unread < fuel * TarGzFileBackupStrategy.buf_size)%nat ->
    exists w' full last,
      TarGzFileBackupStrategy.copy_loop env fuel unread w = (Returns tt, w')
      /\ output_file w' = Some (ws ++ map write_data (full ++ [last]))%list
      /\ List.concat (full ++ [last]) = unread
      /\ Forall (fun b => List.length b = TarGzFileBackupStrategy.buf_size) full
      /\ (List.length last < TarGzFileBackupStrategy.buf_size)%nat.
Proof.
  intros Hquiet.
  induction fuel as [| fuel IH]; intros unread w ws Hout Hlen; [lia |].
  cbn [TarGzFileBackupStrategy.copy_loop].
  unfold bind at 1, gShutdownFlag, gets, flag_at. rewrite Hquiet.
  unfold bind at 1, TarGzFileBackupStrategy.archive_append at 1, modify at 1.
  rewrite Hout.
  unfold bind at 1, tick at 1, modify at 1.
  destruct (Nat.ltb_spec (List.length unread) TarGzFileBackupStrategy.buf_size)
    as [Hshort | Hlong].
  - eexists. exists [], unread.
    rewrite firstn_all2 by lia.
    split; [reflexivity |]. split; [reflexivity |].
    split; [cbn; apply app_nil_r |]. split; [constructor | exact Hshort].
  - destruct (IH (skipn TarGzFileBackupStrategy.buf_size unread)
                (with_steps
                   (S (steps (with_output
                                (Some (ws ++ [write_data
                                                (firstn TarGzFileBackupStrategy.buf_size
                                                   unread)])%list) w)))
                   (with_output
                      (Some (ws ++ [write_data
                                      (firstn TarGzFileBackupStrategy.buf_size
                                         unread)])%list) w))
                (ws ++ [write_data (firstn TarGzFileBackupStrategy.buf_size unread)])%list
                eq_refl)
      as (w' & full & last & Hrun & Hout' & Hdata & Hfull & Hlast).
    { rewrite length_skipn. cbn [Nat.mul] in Hlen. lia. }
    exists w', (firstn TarGzFileBackupStrategy.buf_size unread :: full), last.
    split; [exact Hrun |]. split.
    + rewrite Hout', <- app_assoc. reflexivity.
    + split; [| split; [| exact Hlast]].
      * cbn [app List.concat]. rewrite Hdata. apply firstn_skipn.
      * constructor; [| exact Hfull]. rewrite length_firstn. lia.
Qed.

(** While no signal arrives, a file that can be opened and whose size can
    be read, handed to the archive stage, is archived in full: its header,
    then its bytes in blocks, and the loop goes on. *)
Lemma archive_file_quiet (dir : string) (it : DirEntry) (bytes : list byte)
    (size : Z) (w : World) (ws : list archive_write) :
  shutdown_at env = None ->
  content it = Some bytes ->
  file_size it = Some size ->
  output_file w = Some ws ->
  exists w' full last,
    TarGzFileBackupStrategy.archive_file env dir it w = (Returns true, w')
    /\ output_file w'
       = Some (ws ++ write_header {| ae_pathname := path it; ae_size := size;
                                     ae_perm := 420 |}
                     :: map write_data (full ++ [last]))%list
    /\ List.concat (full ++ [last]) = bytes
    /\ Forall (fun b => List.length b = TarGzFileBackupStrategy.buf_size) full
    /\ (List.length last < TarGzFileBackupStrategy.buf_size)%nat.
Proof.
  intros Hquiet Hcontent Hsize Hout.
  unfold TarGzFileBackupStrategy.archive_file. rewrite Hsize, Hcontent.
  unfold bind at 1, tick at 1, modify at 1.
  unfold bind at 1, gShutdownFlag at 1, gets at 1, flag_at. rewrite Hquiet.
  unfold bind at 1, TarGzFileBackupStrategy.archive_append at 1, modify at 1.
  cbn [output_file with_steps]. rewrite Hout.
  match goal with
  | |- context [TarGzFileBackupStrategy.copy_loop env ?f bytes] =>
      match goal with
      | |- exists _ _ _, bind _ _ ?w1 = _ /\ _ =>
          destruct (copy_loop_writes_all f Hquiet bytes w1 _ eq_refl
                      (reads_needed_enough (List.length bytes)))
            as (w2 & full & last & Hcopy & Hout2 & Hdata & Hfull & Hlast)
      end
  end.
  rewrite (bind_returns _ _ _ _ _ Hcopy).
  unfold bind at 1, gShutdownFlag, gets, flag_at. rewrite Hquiet.
  unfold bind, modify, logFile, ret.
  eexists. exists full, last.
  split; [reflexivity |]. split; [| auto].
  cbn. rewrite Hout2, <- app_assoc. reflexivity.
Qed.


End Traversals.

(** ** Quiet runs: no signal, no filesystem error *)

Section QuietRuns.

Variable env : Env.
Variable excl : list string.







End QuietRuns.

(** ** Verification *)

Example header_loop_stops_at_first_failure :
  Backup.header_loop [ARCHIVE_OK; ARCHIVE_OK; ARCHIVE_EOF] = 2%nat
  /\ Backup.header_loop [ARCHIVE_OK; ARCHIVE_FATAL; ARCHIVE_OK] = 1%nat
  /\ Backup.header_loop [ARCHIVE_WARN] = 0%nat.
Proof. repeat split. Qed.

(** Once the archive could be opened, [verifyBackup] answers [true],
    whatever statuses the reader then gives: the loop stops at the first
    status that is not [ARCHIVE_OK] without telling the end of the stream
    from a failure, and [success] is never assigned again. *)
Lemma verifyBackup_after_open (env : Env) (backupFile : string) (w : World)
    (ws : list archive_write) :
  output_file w = Some ws ->
  read_open_error env = None ->
  fst (Backup.verifyBackup env backupFile w) = Returns (Value true).
Proof.
  intros Hfile Hopen.
  unfold Backup.verifyBackup, bind, tick, modify, gets, ret. cbn.
  rewrite Hfile, Hopen. reflexivity.
Qed.

(** A missing file, or one the reader cannot open, is reported. *)
Lemma verifyBackup_cannot_open (env : Env) (backupFile : string) (w : World) :
  output_file w = None \/ read_open_error env <> None ->
  exists e, fst (Backup.verifyBackup env backupFile w) = Returns (Unexpected e).
Proof.
  intros H.
  unfold Backup.verifyBackup, bind, tick, modify, gets, ret, Backup.logError. cbn.
  destruct (output_file w) as [ws |].
  - destruct H as [H | H]; [discriminate |].
    destruct (read_open_error env) as [e |]; [| contradiction].
    eexists. reflexivity.
  - eexists. reflexivity.
Qed.

(** C2, at an archive whose second header does not decode.  The stream
    opens, the first header is read, the second call of
    [archive_read_next_header] answers [ARCHIVE_FATAL] before the end of the
    stream: [verifyBackup] returns the value [true]. *)
Theorem verifyBackup_accepts_undecodable_header :
  Backup.header_loop (read_headers
                        (Scenario.decoding [ARCHIVE_OK; ARCHIVE_FATAL]
                           (Scenario.calm None (Scenario.srv []))))
  = 1%nat
  /\ fst (Backup.verifyBackup
            (Scenario.decoding [ARCHIVE_OK; ARCHIVE_FATAL]
               (Scenario.calm None (Scenario.srv [])))
            "/backups/sys/sys-daily-15-20240315-100000.tar.gz"
            (Scenario.archived (Scenario.start (Some "3") None None)))
     = Returns (Value true).
Proof. split; reflexivity. Qed.

(** ** Retention cleanup *)

Section Cleanup.

Variable env : Env.

Lemma clean_entries_keeps {B : Type} (proj : World -> B) (threshold : Z) :
  (forall n w, proj (with_steps n w) = proj w) ->
  (forall l w, proj (with_log l w) = proj w) ->
  (forall l w, proj (with_errors l w) = proj w) ->
  forall entries, keeps proj (Backup.clean_entries env threshold entries).
Proof.
  intros Hs Hl He.
  assert (Htick : keeps proj tick) by (apply tick_keeps; exact Hs).
  assert (Hlog : forall m, keeps proj (Backup.logMessage m)).
  { intros m. apply keeps_modify. intros w. apply Hl. }
  assert (Herr : forall m, keeps proj (Backup.logError m)).
  { intros m. apply keeps_modify. intros w. apply He. }
  induction entries as [| entry rest IH];
    cbn [Backup.clean_entries]; frame_auto.
Qed.

(** The loop never ends by an exception of its own: what an entry throws
    is handed to [clean_folder] with the folder as it is by then. *)
Lemma clean_entries_returns (threshold : Z) :
  forall entries w,
    exists left ending w',
      Backup.clean_entries env threshold entries w = (Returns (left, ending), w').
Proof.
  induction entries as [| entry rest IH]; intros w; [repeat eexists |].
  cbn [Backup.clean_entries].
  unfold bind at 1, tick, modify.
  assert (Hgo : forall w1,
             exists left ending w',
               bind (Backup.clean_entries env threshold rest)
                 (fun r => ret (entry :: fst r, snd r)) w1
               = (Returns (left, ending), w')).
  { intros w1. destruct (IH w1) as (left & ending & w' & Hrun).
    unfold bind. rewrite Hrun. repeat eexists. }
  destruct (art_status_error entry); [repeat eexists |].
  destruct (art_is_regular_file entry); [| apply Hgo].
  destruct (art_time_error entry); [repeat eexists |].
  unfold bind at 1 2, now, now_inner, gets.
  destruct (_ <? threshold); [| apply Hgo].
  destruct (remove_error entry).
  - unfold bind, Backup.logError, modify, ret. repeat eexists.
  - unfold bind at 1, Backup.logMessage, modify. apply IH.
Qed.


End Cleanup.

(** A window that fits is computed without overflow: the threshold is now
    minus the window. *)
Lemma threshold_exact (env : Env) (config : BackupConfig) (w : World) :
  window_fits env config w ->
  Backup.threshold_at config (clock env (steps w)) = cleanup_threshold env config w.
Proof.
  unfold window_fits, Backup.threshold_at, cleanup_threshold, Chrono.MAX.
  change (2 ^ 63) with 9223372036854775808.
  intros [Hdays Hclock].
  assert (Hint : CStr.wrap_int (24 * retentionDays config) = 24 * retentionDays config).
  { unfold CStr.wrap_int.
    change (2 ^ 31) with 2147483648. change (2 ^ 32) with 4294967296.
    rewrite Z.mod_small; lia. }
  rewrite Hint.
  assert (Hhours : 0 <= Chrono.hours (24 * retentionDays config)
                   <= 9223286400000000000).
  { unfold Chrono.hours, Chrono.nanos_per_second. lia. }
  rewrite (wrap_exact (Chrono.hours _)).
  - apply wrap_exact. unfold Chrono.MIN, Chrono.MAX.
    change (2 ^ 63) with 9223372036854775808. lia.
  - unfold Chrono.MIN, Chrono.MAX. change (2 ^ 63) with 9223372036854775808. lia.
Qed.







(** A retention window that does not fit the 64-bit count.  With
    [retentionDays] 999999 the hours wrap to a negative count of
    nanoseconds, the threshold lies 185 years after the time of the
    cleanup, and an archive three days old is deleted. *)
Example cleanup_window_overflow :
  Backup.threshold_at
    (Scenario.retaining 999999 (Scenario.config "daily" "15:25:00" 1))
    (Chrono.from_time_t Scenario.friday_10h)
  = Chrono.from_time_t Scenario.friday_10h + 5833806768547758080
  /\ fst (Backup.cleanupOldBackups (Scenario.calm None (Scenario.srv []))
            (Scenario.retaining 999999 (Scenario.config "daily" "15:25:00" 1))
            (Scenario.start None
               (Some [Scenario.artifact "/backups/sys/three.tar.gz" 3 None])
               (Some [])))
     = Returns (Value tt)
  /\ sys_folder
       (snd (Backup.cleanupOldBackups (Scenario.calm None (Scenario.srv []))
               (Scenario.retaining 999999 (Scenario.config "daily" "15:25:00" 1))
               (Scenario.start None
                  (Some [Scenario.artifact "/backups/sys/three.tar.gz" 3 None])
                  (Some []))))
     = Some [].
Proof. repeat split. Qed.

(** ** Cleanup failures and the result of the run *)

(** A removal that fails is reported by [cleanupOldBackups] as an error,
    which [execute] logs and notifies: the run still returns success. *)
Example run_survives_failed_removal :
  fst (Backup.execute (Scenario.calm None (Scenario.srv [Visit Scenario.a_txt]))
         (Scenario.config "daily" "15:25:00" 1) "daily" false
         (Scenario.start (Some "3")
            (Some [Scenario.artifact "/backups/sys/old1.tar.gz" 10
                     (Some "Permission denied")])
            (Some [])))
  = Returns (Value tt)
  /\ error_lines
       (snd (Backup.execute (Scenario.calm None (Scenario.srv [Visit Scenario.a_txt]))
               (Scenario.config "daily" "15:25:00" 1) "daily" false
               (Scenario.start (Some "3")
                  (Some [Scenario.artifact "/backups/sys/old1.tar.gz" 10
                           (Some "Permission denied")])
                  (Some []))))
     = ["Failed to remove old backup: /backups/sys/old1.tar.gz (error: Permission denied)";
        "Cleanup failed: Failed to remove old backup: Permission denied"].
Proof. vm_compute. split; reflexivity. Qed.

(** C9, at a run whose database folder does not exist.  The dump fails
    before creating its folder, the file backup succeeds, is verified and
    has written the marker; then [cleanupOldBackups] cannot list the
    database folder, [fs::directory_iterator] throws, nothing in [execute]
    catches it, and the run ends by that exception instead of returning
    success. *)
Theorem run_lost_to_cleanup_exception :
  fst (Backup.execute
         (Scenario.no_dump "Invalid MySQL credentials: user or password missing"
            (Scenario.calm None (Scenario.srv [Visit Scenario.a_txt])))
         (Scenario.config "daily" "15:25:00" 1) "daily" false
         (Scenario.start (Some "3") (Some []) None))
  = Throws "filesystem error: directory iterator cannot open directory"
  /\ marker_state
       (snd (Backup.execute
               (Scenario.no_dump "Invalid MySQL credentials: user or password missing"
                  (Scenario.calm None (Scenario.srv [Visit Scenario.a_txt])))
               (Scenario.config "daily" "15:25:00" 1) "daily" false
               (Scenario.start (Some "3") (Some []) None)))
     = (Some "1710496800", 1%nat)
  /\ chowned
       (snd (Backup.execute
               (Scenario.no_dump "Invalid MySQL credentials: user or password missing"
                  (Scenario.calm None (Scenario.srv [Visit Scenario.a_txt])))
               (Scenario.config "daily" "15:25:00" 1) "daily" false
               (Scenario.start (Some "3") (Some []) None)))
     = ["/backups/sys/sys-daily-15-20240315-100000.tar.gz"].
Proof. vm_compute. repeat split. Qed.

(** ** When the file strategy writes the marker *)

Section FileStrategyMarker.

Variable env : Env.
Variable excl : list string.

(** [execute] ends before the joins only with success on a zero count,
    the output file untouched, or with an error. *)
Lemma until_join_early (sourceDirs : list string) (outputFile : string)
    (fullBackup : bool) (w wj : World) (early : expected unit) :
  TarGzFileBackupStrategy.until_join env excl sourceDirs outputFile fullBackup w
  = (Returns (Some early), wj) ->
  (early = Value tt /\ output_file wj = output_file w)
  \/ (exists e, early = Unexpected e).
Proof.
  destruct (create_directories_error env) as [what |] eqn:Hmk.
  - unfold TarGzFileBackupStrategy.until_join, bind, logFile, create_directories,
      tick, modify, throw.
    rewrite Hmk. intros H. discriminate H.
  - destruct (until_join_reaches_count env excl sourceDirs outputFile fullBackup w Hmk)
      as (w1 & _ & _ & Hout & _ & ->).
    pose proof (countFiles_keeps env excl output_file tick_keeps_output
                  sourceDirs fullBackup w1) as Hko.
    unfold bind at 1.
    destruct (TarGzFileBackupStrategy.countFiles env excl sourceDirs fullBackup w1)
      as [[n | e] w2]; [| intros H; discriminate H].
    cbn [fst snd] in Hko.
    destruct n as [| n]; cbn [Nat.eqb].
    + unfold bind, logFile, modify, ret. intros H. injection H as <- <-.
      left. split; [reflexivity |]. cbn. congruence.
    + unfold TarGzFileBackupStrategy.archive_write_open_filename,
        bind, tick, modify, ret, logFile.
      destruct (write_open_error env) as [e |].
      * intros H. injection H as <- <-. right. eexists. reflexivity.
      * match goal with
        | |- context [TarGzFileBackupStrategy.run_threads env excl sourceDirs
                        fullBackup ?w3] =>
            destruct (TarGzFileBackupStrategy.run_threads env excl sourceDirs
                        fullBackup w3) as [[[] | e] w4]
        end; intros H; discriminate H.
Qed.

(** The four ways [execute] can end, and what each does to the marker. *)
Lemma execute_marker_cases (sourceDirs : list string) (outputFile : string)
    (fullBackup : bool) (w : World) :
  (fst (TarGzFileBackupStrategy.execute env excl sourceDirs outputFile fullBackup w)
   = Returns (Value tt)
   /\ marker_writes
        (snd (TarGzFileBackupStrategy.execute env excl sourceDirs outputFile fullBackup w))
      = S (marker_writes w))
  \/ (fst (TarGzFileBackupStrategy.execute env excl sourceDirs outputFile fullBackup w)
      = Returns (Value tt)
      /\ marker_state
           (snd (TarGzFileBackupStrategy.execute env excl sourceDirs outputFile
                   fullBackup w))
         = marker_state w
      /\ output_file
           (snd (TarGzFileBackupStrategy.execute env excl sourceDirs outputFile
                   fullBackup w))
         = output_file w)
  \/ ((exists e,
          fst (TarGzFileBackupStrategy.execute env excl sourceDirs outputFile
                 fullBackup w)
          = Returns (Unexpected e))
      /\ marker_state
           (snd (TarGzFileBackupStrategy.execute env excl sourceDirs outputFile
                   fullBackup w))
         = marker_state w)
  \/ ((exists e,
          fst (TarGzFileBackupStrategy.execute env excl sourceDirs outputFile
                 fullBackup w)
          = Throws e)
      /\ marker_state
           (snd (TarGzFileBackupStrategy.execute env excl sourceDirs outputFile
                   fullBackup w))
         = marker_state w).
Proof.
  pose proof (until_join_keeps_marker env excl sourceDirs outputFile fullBackup w)
    as Hkeep.
  unfold TarGzFileBackupStrategy.execute.
  destruct (TarGzFileBackupStrategy.until_join env excl sourceDirs outputFile
              fullBackup w) as [[[early |] | e] wj] eqn:Huj; cbn [snd] in Hkeep.
  - rewrite (bind_returns _ _ _ _ _ Huj). cbn [ret fst snd].
    destruct (until_join_early _ _ _ _ _ _ Huj) as [[-> Hout] | [e ->]].
    + right. left. auto.
    + right. right. left. split; [eexists; reflexivity | exact Hkeep].
  - rewrite (bind_returns _ _ _ _ _ Huj).
    destruct (flag_at env (steps wj)) eqn:Hflag.
    + destruct (after_join_interrupted env outputFile wj Hflag) as (w' & -> & Hm).
      cbn [fst snd]. right. right. left.
      split; [eexists; reflexivity | congruence].
    + destruct (after_join_completed env outputFile wj Hflag) as (w' & -> & Hm & _ & _).
      cbn [fst snd]. left. split; [reflexivity |].
      rewrite Hm. unfold marker_state in Hkeep. congruence.
  - rewrite (bind_throws _ _ _ _ _ Huj). cbn [fst snd].
    right. right. right. split; [eexists; reflexivity | exact Hkeep].
Qed.

End FileStrategyMarker.

(** ** The orchestrator and the marker *)

Lemma ends_in_ret {A : Type} (P : result A -> Prop) (a : A) :
  P (Returns a) -> ends_in P (ret a).
Proof. intros H w. exact H. Qed.


Section OrchestratorFrame.

Variable env : Env.
Variable config : BackupConfig.

Lemma logMessage_keeps_marker (msg : string) : keeps marker_state (Backup.logMessage msg).
Proof. apply keeps_modify. reflexivity. Qed.

Lemma logError_keeps_marker (msg : string) : keeps marker_state (Backup.logError msg).
Proof. apply keeps_modify. reflexivity. Qed.

Lemma notify_keeps_marker (msg : string) : keeps marker_state (Backup.notify config msg).
Proof.
  unfold Backup.notify. destruct (notificationStrategy config).
  - apply keeps_modify. reflexivity.
  - apply keeps_ret.
Qed.

Lemma logError_keeps_output (msg : string) : keeps output_file (Backup.logError msg).
Proof. apply keeps_modify. reflexivity. Qed.

Lemma notify_keeps_output (msg : string) : keeps output_file (Backup.notify config msg).
Proof.
  unfold Backup.notify. destruct (notificationStrategy config).
  - apply keeps_modify. reflexivity.
  - apply keeps_ret.
Qed.

Lemma changeOwnership_keeps_marker (p user groupName : string) :
  keeps marker_state (Backup.changeOwnership env p user groupName).
Proof.
  unfold Backup.changeOwnership. destruct (chown_error env p).
  - apply keeps_throw.
  - apply keeps_modify. reflexivity.
Qed.

Lemma do_transfer_keeps_marker (file dir : string) :
  keeps marker_state (Backup.do_transfer env file dir).
Proof.
  unfold Backup.do_transfer.
  apply keeps_bind; [apply keeps_modify; reflexivity | intros _; apply keeps_ret].
Qed.

Lemma verifyBackup_keeps_marker (backupFile : string) :
  keeps marker_state (Backup.verifyBackup env backupFile).
Proof.
  pose proof logError_keeps_marker as Herr.
  unfold Backup.verifyBackup. frame_auto.
Qed.

Lemma clean_folder_keeps_marker (get : World -> option (list Artifact))
    (set : option (list Artifact) -> World -> World) (threshold : Z) :
  (forall f w, marker_state (set f w) = marker_state w) ->
  keeps marker_state (Backup.clean_folder env get set threshold).
Proof.
  intros Hset.
  pose proof (clean_entries_keeps env marker_state threshold
                (fun _ _ => eq_refl) (fun _ _ => eq_refl) (fun _ _ => eq_refl))
    as Hloop.
  unfold Backup.clean_folder.
  apply keeps_bind; [apply keeps_gets | intros folder].
  destruct folder as [entries |]; [| apply keeps_throw].
  apply keeps_bind; [apply Hloop | intros r].
  apply keeps_bind; [apply keeps_modify; intros w; apply Hset | intros _].
  destruct (snd r); [apply keeps_ret | apply keeps_ret | apply keeps_throw].
Qed.

Lemma cleanupOldBackups_keeps_marker :
  keeps marker_state (Backup.cleanupOldBackups env config).
Proof.
  pose proof clean_folder_keeps_marker as Hfolder.
  unfold Backup.cleanupOldBackups.
  apply keeps_bind; [apply now_keeps | intros t].
  apply keeps_bind; [apply Hfolder; reflexivity | intros r].
  destruct r; [apply keeps_ret |].
  apply keeps_bind; [apply Hfolder; reflexivity | intros r].
  destruct r; apply keeps_ret.
Qed.

(** Nothing that follows the file backup touches the marker file:
    neither verification, nor the ownership change, the transfers or the
    cleanup, whatever their outcome. *)
Lemma after_file_backup_keeps_marker (targetPath dbBackupFile : string) :
  keeps marker_state (Backup.after_file_backup env config targetPath dbBackupFile).
Proof.
  pose proof verifyBackup_keeps_marker as Hverify.
  pose proof logError_keeps_marker as Herr.
  pose proof logMessage_keeps_marker as Hlog.
  pose proof notify_keeps_marker as Hnotify.
  pose proof changeOwnership_keeps_marker as Hchown.
  pose proof do_transfer_keeps_marker as Htransfer.
  pose proof cleanupOldBackups_keeps_marker as Hcleanup.
  unfold Backup.after_file_backup. frame_auto.
Qed.



End OrchestratorFrame.


Section OrchestratorMarker.

Variable env : Env.
Variable config : BackupConfig.


End OrchestratorMarker.




(** ** The schedule *)

Example now_is_friday_10h :
  Calendar.show_tm
    (Calendar.localtime (Scenario.calm None (Scenario.srv []))
       (Chrono.to_time_t (clock (Scenario.calm None (Scenario.srv [])) 0)))
  = "2024-03-15 10:00:00"
  /\ Calendar.tm_wday
       (Calendar.localtime (Scenario.calm None (Scenario.srv []))
          (Chrono.to_time_t (clock (Scenario.calm None (Scenario.srv [])) 0)))
     = 5.
Proof. split; vm_compute; reflexivity. Qed.

Example schedule_time_out_of_range :
  Scenario.next_run (Scenario.config "monthly" "25:00:00" 1)
  = "exception: Invalid schedule time format: 25:00:00".
Proof. vm_compute. reflexivity. Qed.

(** In the monthly branch [tmNext.tm_mday] is set to the configured day, but
    [nextTime] is computed from it only inside the roll-over test.  When the
    test fails the function returns the [nextTime] it computed first:
    today's date at the configured time, whatever the configured day. *)
Lemma monthly_without_roll_over (env : Env) (config : BackupConfig) (w : World)
    (hour minute second : Z) :
  scheduleType config = "monthly" ->
  Backup.parse_schedule_time (scheduleTime config) = Some (hour, minute, second) ->
  0 <= hour <= 23 -> 0 <= minute <= 59 -> 0 <= second <= 59 ->
  1 <= scheduleDayOfMonth config <= 31 ->
  (scheduleDayOfMonth config
   <=? Calendar.tm_mday (Calendar.localtime env (Chrono.to_time_t (clock env (steps w)))))
  && (Chrono.from_time_t
        (fst (Calendar.mktime env
                (Calendar.with_hms hour minute second
                   (Calendar.localtime env (Chrono.to_time_t (clock env (steps w)))))))
      <=? clock env (steps w)) = false ->
  fst (Backup.getNextBackupTime env config w)
  = Returns
      (Chrono.from_time_t
         (fst (Calendar.mktime env
                 (Calendar.with_hms hour minute second
                    (Calendar.localtime env (Chrono.to_time_t (clock env (steps w)))))))).
Proof.
  intros Htype Hparse Hh Hm Hs Hday Hroll.
  assert (Hvalid : (hour <? 0) || (hour >? 23) || (minute <? 0) || (minute >? 59)
                   || (second <? 0) || (second >? 59) = false).
  { rewrite !orb_false_iff. rewrite !Z.ltb_ge, !Z.gtb_ltb, !Z.ltb_ge. lia. }
  assert (Hrange : (scheduleDayOfMonth config <? 1) || (scheduleDayOfMonth config >? 31)
                   = false).
  { rewrite orb_false_iff, Z.ltb_ge, Z.gtb_ltb, Z.ltb_ge. lia. }
  unfold Backup.getNextBackupTime.
  unfold bind at 1, now, gets.
  rewrite Hparse, Hvalid.
  destruct (Calendar.mktime env _) as [t0 tmNext].
  cbn [fst] in Hroll |- *.
  unfold bind, Backup.logMessage, modify.
  rewrite Htype.
  change (String.eqb "monthly" "daily") with false.
  change (String.eqb "monthly" "weekly") with false.
  change (String.eqb "monthly" "monthly") with true.
  cbv iota. rewrite Hrange.
  change (Calendar.tm_mday (Calendar.with_mday (scheduleDayOfMonth config) tmNext))
    with (scheduleDayOfMonth config).
  rewrite Hroll. reflexivity.
Qed.

(** C3, at two schedules read on Friday 2024-03-15 at 10:00:00.  With day 1
    and time 00:00:00 the test of the monthly branch holds and the next run
    is 2024-04-01 00:00:00, as the specification gives it.  With day 20 and
    time 00:00:00 the test fails (20 is after the 15th) and the function
    returns 2024-03-15 00:00:00, ten hours in the past, not 2024-03-20
    00:00:00.  With day 1 and time 23:00:00 the test fails too (23:00:00 is
    not yet passed today) and the function returns 2024-03-15 23:00:00, not
    2024-04-01 23:00:00. *)
Theorem monthly_returns_today_when_not_rolling :
  Scenario.next_run (Scenario.config "monthly" "00:00:00" 1) = "2024-04-01 00:00:00"
  /\ Scenario.next_run (Scenario.config "monthly" "00:00:00" 20) = "2024-03-15 00:00:00"
  /\ Scenario.next_run (Scenario.config "monthly" "23:00:00" 1) = "2024-03-15 23:00:00"
  /\ fst (Backup.getNextBackupTime (Scenario.calm None (Scenario.srv []))
            (Scenario.config "monthly" "00:00:00" 20) (Scenario.start None None None))
     = Returns (Chrono.from_time_t (Scenario.friday_10h - 36000)).
Proof. vm_compute. repeat split. Qed.

(** The scenarios of the specification for the daily and weekly branches,
    read on Friday 2024-03-15 at 10:00:00: a daily time still to come is
    today's, a daily time already passed is tomorrow's, and Monday 09:00:00
    is three days ahead. *)
Theorem daily_and_weekly_scenarios :
  Scenario.next_run (Scenario.config "daily" "15:25:00" 1) = "2024-03-15 15:25:00"
  /\ Scenario.next_run (Scenario.config "daily" "08:00:00" 1) = "2024-03-16 08:00:00"
  /\ Scenario.next_run (Scenario.config "weekly" "09:00:00" 1) = "2024-03-18 09:00:00".
Proof. vm_compute. repeat split. Qed.

(** ** Further properties of the file strategy and of the orchestrator *)







(** While no signal arrives, a file that can be opened, whose size can be
    read and that is handed to the archive stage is archived in full: the
    archive gains the header of the file, with its path and its size, and
    after the header the bytes of the file, in blocks of 8192 bytes
    followed by a last, shorter block; then the loop goes on with the next
    entry. *)
Theorem archive_stage_copies_whole_file :
  forall (env : Env) (dir : string) (it : DirEntry) (bytes : list byte) (size : Z)
         (w : World) (ws : list archive_write),
    shutdown_at env = None ->
    content it = Some bytes ->
    file_size it = Some size ->
    output_file w = Some ws ->
    exists w' full last,
      TarGzFileBackupStrategy.archive_file env dir it w = (Returns true, w')
      /\ output_file w'
         = Some (ws ++ write_header {| ae_pathname := path it; ae_size := size;
                                       ae_perm := 420 |}
                       :: map write_data (full ++ [last]))%list
      /\ List.concat (full ++ [last]) = bytes
      /\ Forall (fun b => List.length b = Z.to_nat 8192) full
      /\ (List.length last < Z.to_nat 8192)%nat.
Proof. intros env. exact (archive_file_quiet env). Qed.

Lemma archive_stage_copies_whole_file_witness :
  exists w' full last,
    TarGzFileBackupStrategy.archive_file (Scenario.calm None (Scenario.srv []))
      "/srv" Scenario.a_txt (with_output (Some []) (Scenario.start None None None))
    = (Returns true, w')
    /\ output_file w'
       = Some ([] ++ write_header {| ae_pathname := path Scenario.a_txt; ae_size := 2;
                                     ae_perm := 420 |}
                     :: map write_data (full ++ [last]))%list
    /\ List.concat (full ++ [last]) = [x61; x62]
    /\ Forall (fun b => List.length b = Z.to_nat 8192) full
    /\ (List.length last < Z.to_nat 8192)%nat.
Proof.
  apply (archive_stage_copies_whole_file (Scenario.calm None (Scenario.srv []))
           "/srv" Scenario.a_txt [x61; x62] 2
           (with_output (Some []) (Scenario.start None None None)) []);
    reflexivity.
Defined.

(** [verifyBackup] reports an error when there is no file at the path or
    the reader cannot open it. *)
Theorem verification_reports_open_failure :
  forall (env : Env) (backupFile : string) (w : World),
    output_file w = None \/ read_open_error env <> None ->
    exists e, fst (Backup.verifyBackup env backupFile w) = Returns (Unexpected e).
Proof. exact verifyBackup_cannot_open. Qed.

Lemma verification_reports_open_failure_witness :
  exists e,
    fst (Backup.verifyBackup (Scenario.calm None (Scenario.srv []))
           "/backups/sys/sys-daily-15-20240315-100000.tar.gz"
           (Scenario.start None None None))
    = Returns (Unexpected e).
Proof.
  apply (verification_reports_open_failure (Scenario.calm None (Scenario.srv []))
           "/backups/sys/sys-daily-15-20240315-100000.tar.gz"
           (Scenario.start None None None)).
  left. reflexivity.
Defined.


(** The file strategy writes the marker file only when it returns success:
    whenever [execute] returns an error or ends by an exception, the marker
    file is as it was. *)
Theorem failed_file_backup_keeps_marker :
  forall (env : Env) (excl sourceDirs : list string) (outputFile : string)
         (fullBackup : bool) (w : World),
    fst (TarGzFileBackupStrategy.execute env excl sourceDirs outputFile fullBackup w)
    <> Returns (Value tt) ->
    marker_state
      (snd (TarGzFileBackupStrategy.execute env excl sourceDirs outputFile fullBackup w))
    = marker_state w.
Proof.
  intros env excl sourceDirs outputFile fullBackup w Hfail.
  destruct (execute_marker_cases env excl sourceDirs outputFile fullBackup w)
    as [[Hok _] | [(Hok & _) | [(_ & Hm) | (_ & Hm)]]];
    try contradiction; exact Hm.
Qed.

Lemma failed_file_backup_keeps_marker_witness :
  marker_state
    (snd (TarGzFileBackupStrategy.execute
            (Scenario.calm (Some 0%nat) (Scenario.srv [Visit Scenario.a_txt]))
            [".tmp"] ["/srv"] "/backups/sys/sys-daily-15-20240315-100000.tar.gz"
            false (Scenario.start (Some "3") None None)))
  = marker_state (Scenario.start (Some "3") None None).
Proof.
  apply (failed_file_backup_keeps_marker
           (Scenario.calm (Some 0%nat) (Scenario.srv [Visit Scenario.a_txt]))
           [".tmp"] ["/srv"] "/backups/sys/sys-daily-15-20240315-100000.tar.gz"
           false (Scenario.start (Some "3") None None)).
  vm_compute. discriminate.
Defined.

(** ** Further rules, and two runs that end early *)

Lemma eqb_neq_false (a b : string) : a <> b -> String.eqb a b = false.
Proof. intros H. apply String.eqb_neq. exact H. Qed.

(** A run of the file strategy that counts no file. *)
Lemma zero_count_run (env : Env) (excl sourceDirs : list string) (outputFile : string)
    (fullBackup : bool) (w : World) :
  create_directories_error env = None ->
  fst (TarGzFileBackupStrategy.countFiles env excl sourceDirs fullBackup w)
  = Returns 0%nat ->
  fst (TarGzFileBackupStrategy.execute env excl sourceDirs outputFile fullBackup w)
  = Returns (Value tt)
  /\ output_file
       (snd (TarGzFileBackupStrategy.execute env excl sourceDirs outputFile fullBackup w))
     = output_file w
  /\ marker_state
       (snd (TarGzFileBackupStrategy.execute env excl sourceDirs outputFile fullBackup w))
     = marker_state w.
Proof.
  intros Hmk Hcount.
  destruct (until_join_zero env excl sourceDirs outputFile fullBackup w Hmk Hcount)
    as (w3 & Hrun & Hout & Hmarker).
  unfold TarGzFileBackupStrategy.execute.
  rewrite (bind_returns _ _ _ _ _ Hrun). cbn [ret fst snd].
  repeat split; assumption.
Qed.

(** A type [Backup::execute] does not know. *)
Lemma execute_refuses (env : Env) (config : BackupConfig) (type : string)
    (fullBackup : bool) (w : World) :
  type <> "daily" -> type <> "monthly" -> type <> "yearly" ->
  Backup.execute env config type fullBackup w
  = (Returns (Unexpected "Invalid backup type. Use daily, monthly, or yearly."),
     with_errors (error_lines w ++ ["Invalid backup type: " ++ type]) w).
Proof.
  intros Hd Hm Hy.
  unfold Backup.execute, Backup.dateFormat_of.
  rewrite (eqb_neq_false _ _ Hd), (eqb_neq_false _ _ Hm), (eqb_neq_false _ _ Hy).
  reflexivity.
Qed.


(** Breaks a frame goal down by the shape of the code alone, so that no
    step has to look inside the calendar computations. *)
Ltac frame_by_syntax :=
  repeat match goal with
         | |- keeps _ (bind _ _) => apply keeps_bind; [ | intros ? ]
         | |- keeps _ (try_catch _ _) => apply keeps_try_catch; [ | intros ? ]
         | |- keeps _ (ret _) => apply keeps_ret
         | |- keeps _ (throw _) => apply keeps_throw
         | |- keeps _ (now _) => apply now_keeps
         | |- keeps _ (gShutdownFlag _) => apply flag_keeps
         | |- keeps _ (let '(_, _) := ?x in _) => destruct x
         | |- keeps _ (match ?x with _ => _ end) => destruct x
         | |- keeps _ (if ?b then _ else _) => destruct b
         | |- keeps _ _ => solve [auto]
         end.

(** ** The calendar *)

(** A day number and the civil date computed from it determine each other. *)
Lemma days_from_civil_from_days (z : Z) :
  let '(y, m, d) := Calendar.civil_from_days z in
  Calendar.days_from_civil y m d = z /\ 1 <= m <= 12 /\ 1 <= d <= 31.
Proof.
  unfold Calendar.civil_from_days, Calendar.days_from_civil.
  set (z' := z + 719468).
  set (era := z' / 146097).
  set (doe := z' - era * 146097).
  assert (Hdoe : 0 <= doe < 146097).
  { subst doe era. Z.div_mod_to_equations. lia. }
  set (yoe := (doe - doe / 1460 + doe / 36524 - doe / 146096) / 365).
  assert (Hyoe : 0 <= yoe < 400).
  { subst yoe. clearbody doe. clear z z' era. Z.div_mod_to_equations. lia. }
  set (doy := doe - (365 * yoe + yoe / 4 - yoe / 100)).
  assert (Hdoy : 0 <= doy < 366).
  { subst doy yoe. clearbody doe. clear z z' era Hyoe. Z.div_mod_to_equations. lia. }
  set (mp := (5 * doy + 2) / 153).
  assert (Hmp : 0 <= mp < 12).
  { subst mp. clearbody doy. Z.div_mod_to_equations. lia. }
  clearbody yoe.
  assert (Hd : 1 <= doy - (153 * mp + 2) / 5 + 1 <= 31).
  { subst mp. clearbody doy. Z.div_mod_to_equations. lia. }
  clearbody mp.
  set (m := if mp <? 10 then mp + 3 else mp - 9).
  assert (Hm : 1 <= m <= 12 /\ (m + 9) mod 12 = mp
               /\ (if m <=? 2
                   then (if m <=? 2 then yoe + era * 400 + 1 else yoe + era * 400) - 1
                   else (if m <=? 2 then yoe + era * 400 + 1 else yoe + era * 400))
                  = yoe + era * 400).
  { subst m. destruct (mp <? 10) eqn:E.
    - apply Z.ltb_lt in E. repeat split; try lia.
      + Z.div_mod_to_equations. lia.
      + destruct (mp + 3 <=? 2) eqn:E2; lia.
    - apply Z.ltb_ge in E. repeat split; try lia.
      + Z.div_mod_to_equations. lia.
      + destruct (mp - 9 <=? 2) eqn:E2; lia. }
  destruct Hm as (Hm1 & Hm2 & Hm3).
  clearbody m.
  rewrite Hm3, Hm2.
  assert (Hera : (yoe + era * 400) / 400 = era).
  { clearbody era. Z.div_mod_to_equations. lia. }
  rewrite Hera.
  replace (yoe + era * 400 - era * 400) with yoe by lia.
  repeat split; lia.
Qed.


(** The time of day [h:m:s] of day number [D], broken down. *)
Lemma tm_of_seconds_at (D h m s : Z) :
  0 <= h <= 23 -> 0 <= m <= 59 -> 0 <= s <= 59 ->
  Calendar.tm_of_seconds (D * 86400 + time_of_day h m s)
  = Calendar.with_hms h m s (Calendar.tm_of_seconds (D * 86400)).
Proof.
  intros Hh Hm Hs. unfold Calendar.tm_of_seconds, time_of_day.
  replace ((D * 86400 + (h * 3600 + m * 60 + s)) / 86400) with D
    by (Z.div_mod_to_equations; lia).
  replace (D * 86400 / 86400) with D by (Z.div_mod_to_equations; lia).
  destruct (Calendar.civil_from_days D) as [[y mo] d].
  unfold Calendar.with_hms.
  cbn [Calendar.tm_mday Calendar.tm_mon Calendar.tm_year Calendar.tm_wday].
  f_equal; Z.div_mod_to_equations; lia.
Qed.

Lemma tm_of_seconds_day (L : Z) :
  Calendar.tm_of_seconds (L / 86400 * 86400)
  = Calendar.with_hms 0 0 0 (Calendar.tm_of_seconds L).
Proof.
  unfold Calendar.tm_of_seconds.
  replace (L / 86400 * 86400 / 86400) with (L / 86400)
    by (Z.div_mod_to_equations; lia).
  destruct (Calendar.civil_from_days (L / 86400)) as [[y mo] d].
  unfold Calendar.with_hms.
  cbn [Calendar.tm_mday Calendar.tm_mon Calendar.tm_year Calendar.tm_wday].
  f_equal; Z.div_mod_to_equations; lia.
Qed.

Lemma with_hms_twice (h m s h' m' s' : Z) (t : Calendar.tm) :
  Calendar.with_hms h m s (Calendar.with_hms h' m' s' t) = Calendar.with_hms h m s t.
Proof. reflexivity. Qed.

(** The seconds of the local date of [L] at the time of day [h:m:s], plus
    [k] days. *)
Lemma seconds_of_days_later (L h m s k : Z) :
  Calendar.seconds_of_tm
    (Calendar.with_mday
       (Calendar.tm_mday (Calendar.with_hms h m s (Calendar.tm_of_seconds L)) + k)
       (Calendar.with_hms h m s (Calendar.tm_of_seconds L)))
  = (L / 86400 + k) * 86400 + time_of_day h m s.
Proof.
  unfold Calendar.tm_of_seconds.
  pose proof (days_from_civil_from_days (L / 86400)) as H.
  destruct (Calendar.civil_from_days (L / 86400)) as [[y mo] d].
  destruct H as (H & Hm & Hd).
  unfold Calendar.seconds_of_tm, Calendar.with_mday, Calendar.with_hms, time_of_day.
  cbn [Calendar.tm_year Calendar.tm_mon Calendar.tm_mday Calendar.tm_hour
       Calendar.tm_min Calendar.tm_sec].
  replace (1900 + (y - 1900) + (mo - 1) / 12) with y by (Z.div_mod_to_equations; lia).
  replace ((mo - 1) mod 12 + 1) with mo by (Z.div_mod_to_equations; lia).
  assert (Hlin : Calendar.days_from_civil y mo 1 + (d + k - 1)
                 = Calendar.days_from_civil y mo d + k).
  { unfold Calendar.days_from_civil. lia. }
  rewrite Hlin, H. lia.
Qed.

Lemma with_mday_same (t : Calendar.tm) :
  Calendar.with_mday (Calendar.tm_mday t + 0) t = t.
Proof.
  destruct t. unfold Calendar.with_mday. cbn. f_equal. lia.
Qed.

Section MkTime.

Variable env : Env.

(** [mktime] of today's local date at [h:m:s], [k] days later: the
    instant, and the broken-down time [mktime] leaves in the structure. *)
Lemma mktime_days_later (nowT h m s k : Z) :
  0 <= h <= 23 -> 0 <= m <= 59 -> 0 <= s <= 59 ->
  Calendar.mktime env
    (Calendar.with_mday
       (Calendar.tm_mday (Calendar.with_hms h m s (Calendar.localtime env nowT)) + k)
       (Calendar.with_hms h m s (Calendar.localtime env nowT)))
  = (((nowT + gmtoff env) / 86400 + k) * 86400 + time_of_day h m s - gmtoff env,
     Calendar.with_hms h m s
       (Calendar.tm_of_seconds (((nowT + gmtoff env) / 86400 + k) * 86400))).
Proof.
  intros Hh Hm Hs.
  unfold Calendar.mktime, Calendar.localtime.
  rewrite seconds_of_days_later.
  f_equal.
  replace (((nowT + gmtoff env) / 86400 + k) * 86400 + time_of_day h m s - gmtoff env
           + gmtoff env)
    with (((nowT + gmtoff env) / 86400 + k) * 86400 + time_of_day h m s) by lia.
  apply tm_of_seconds_at; assumption.
Qed.

Lemma mktime_today (nowT h m s : Z) :
  0 <= h <= 23 -> 0 <= m <= 59 -> 0 <= s <= 59 ->
  Calendar.mktime env (Calendar.with_hms h m s (Calendar.localtime env nowT))
  = ((nowT + gmtoff env) / 86400 * 86400 + time_of_day h m s - gmtoff env,
     Calendar.with_hms h m s (Calendar.localtime env nowT)).
Proof.
  intros Hh Hm Hs.
  pose proof (mktime_days_later nowT h m s 0 Hh Hm Hs) as H.
  rewrite with_mday_same in H. rewrite H.
  replace ((nowT + gmtoff env) / 86400 + 0) with ((nowT + gmtoff env) / 86400) by lia.
  f_equal. unfold Calendar.localtime.
  rewrite tm_of_seconds_day. apply with_hms_twice.
Qed.

(** The local time of day and the week day of an instant given by its
    local day number and time of day. *)
Lemma localtime_at (D h m s : Z) :
  0 <= h <= 23 -> 0 <= m <= 59 -> 0 <= s <= 59 ->
  Calendar.tm_hour (Calendar.localtime env (D * 86400 + time_of_day h m s - gmtoff env)) = h
  /\ Calendar.tm_min (Calendar.localtime env (D * 86400 + time_of_day h m s - gmtoff env)) = m
  /\ Calendar.tm_sec (Calendar.localtime env (D * 86400 + time_of_day h m s - gmtoff env)) = s
  /\ Calendar.tm_wday (Calendar.localtime env (D * 86400 + time_of_day h m s - gmtoff env))
     = (D + 4) mod 7.
Proof.
  intros Hh Hm Hs. unfold Calendar.localtime.
  replace (D * 86400 + time_of_day h m s - gmtoff env + gmtoff env)
    with (D * 86400 + time_of_day h m s) by lia.
  rewrite tm_of_seconds_at by assumption.
  unfold Calendar.with_hms, Calendar.tm_of_seconds.
  replace (D * 86400 / 86400) with D by (Z.div_mod_to_equations; lia).
  destruct (Calendar.civil_from_days D) as [[y mo] d].
  cbn [Calendar.tm_hour Calendar.tm_min Calendar.tm_sec Calendar.tm_wday].
  repeat split; reflexivity.
Qed.

End MkTime.

(** ** The schedule, for every instant and every zone *)

Lemma valid_time_test (hour minute second : Z) :
  0 <= hour <= 23 -> 0 <= minute <= 59 -> 0 <= second <= 59 ->
  (hour <? 0) || (hour >? 23) || (minute <? 0) || (minute >? 59)
  || (second <? 0) || (second >? 59) = false.
Proof.
  intros Hh Hm Hs.
  rewrite !orb_false_iff. rewrite !Z.ltb_ge, !Z.gtb_ltb, !Z.ltb_ge. lia.
Qed.

(** [to_time_t] is within a second of the instant. *)
Lemma to_time_t_near (t : Z) :
  t - Chrono.nanos_per_second < Chrono.to_time_t t * Chrono.nanos_per_second
  < t + Chrono.nanos_per_second.
Proof.
  unfold Chrono.to_time_t, Chrono.nanos_per_second.
  pose proof (Z.quot_rem' t 1000000000) as H.
  pose proof (Z.rem_bound_abs t 1000000000) as Hb.
  lia.
Qed.

Section NextBackupTime.

Variable env : Env.
Variable config : BackupConfig.

(** The start of the common part of [getNextBackupTime], for a valid time
    of day: today's local date at that time. *)
Lemma daily_next_time (w : World) (h m s : Z) :
  scheduleType config = "daily" ->
  Backup.parse_schedule_time (scheduleTime config) = Some (h, m, s) ->
  0 <= h <= 23 -> 0 <= m <= 59 -> 0 <= s <= 59 ->
  let D := (Chrono.to_time_t (clock env (steps w)) + gmtoff env) / 86400 in
  let t0 := D * 86400 + time_of_day h m s - gmtoff env in
  fst (Backup.getNextBackupTime env config w)
  = Returns (Chrono.from_time_t
               (if Chrono.from_time_t t0 <=? clock env (steps w)
                then (D + 1) * 86400 + time_of_day h m s - gmtoff env else t0)).
Proof.
  intros Htype Hparse Hh Hm Hs D t0.
  unfold Backup.getNextBackupTime.
  unfold bind at 1, now, gets.
  rewrite Hparse, (valid_time_test h m s Hh Hm Hs).
  rewrite (mktime_today env _ h m s Hh Hm Hs).
  fold D. fold t0.
  unfold bind at 1, Backup.logMessage at 1, modify.
  rewrite Htype.
  change (String.eqb "daily" "daily") with true. cbv iota.
  destruct (Chrono.from_time_t t0 <=? clock env (steps w)); [| reflexivity].
  rewrite (mktime_days_later env _ h m s 1 Hh Hm Hs).
  fold D. reflexivity.
Qed.

Lemma dayMap_range (day : string) (targetDay : Z) :
  Backup.find Backup.dayMap day = Some targetDay -> 0 <= targetDay <= 6.
Proof.
  unfold Backup.dayMap, Backup.find.
  repeat match goal with
         | |- context [String.eqb day ?k] => destruct (String.eqb day k)
         end;
    intros H; try discriminate H; injection H as <-; lia.
Qed.

Lemma localtime_wday (t : Z) :
  Calendar.tm_wday (Calendar.localtime env t) = ((t + gmtoff env) / 86400 + 4) mod 7.
Proof.
  unfold Calendar.localtime, Calendar.tm_of_seconds.
  destruct (Calendar.civil_from_days ((t + gmtoff env) / 86400)) as [[y mo] d].
  reflexivity.
Qed.

(** The weekly branch, for a valid time of day and a known day name. *)
Lemma weekly_next_time (w : World) (h m s targetDay : Z) :
  scheduleType config = "weekly" ->
  Backup.parse_schedule_time (scheduleTime config) = Some (h, m, s) ->
  0 <= h <= 23 -> 0 <= m <= 59 -> 0 <= s <= 59 ->
  Backup.find Backup.dayMap (scheduleDayOfWeek config) = Some targetDay ->
  let D := (Chrono.to_time_t (clock env (steps w)) + gmtoff env) / 86400 in
  let t0 := D * 86400 + time_of_day h m s - gmtoff env in
  let daysToAdd := Z.rem (targetDay - (D + 4) mod 7 + 7) 7 in
  fst (Backup.getNextBackupTime env config w)
  = Returns (Chrono.from_time_t
               ((D + (if (daysToAdd =? 0) && (Chrono.from_time_t t0 <=? clock env (steps w))
                      then 7 else daysToAdd)) * 86400
                + time_of_day h m s - gmtoff env)).
Proof.
  intros Htype Hparse Hh Hm Hs Hday D t0 daysToAdd.
  unfold Backup.getNextBackupTime.
  unfold bind at 1, now, gets.
  rewrite Hparse, (valid_time_test h m s Hh Hm Hs).
  rewrite (mktime_today env _ h m s Hh Hm Hs).
  fold D. fold t0.
  unfold bind at 1, Backup.logMessage at 1, modify.
  rewrite Htype.
  change (String.eqb "weekly" "daily") with false.
  change (String.eqb "weekly" "weekly") with true. cbv iota.
  rewrite Hday.
  rewrite localtime_wday. fold D. fold daysToAdd.
  rewrite (mktime_days_later env _ h m s _ Hh Hm Hs).
  fold D. reflexivity.
Qed.

End NextBackupTime.

(** A daily schedule with a valid time of day.  Whatever the instant and
    the zone, [getNextBackupTime] returns an instant that lies strictly
    after now and at most twenty-four hours after it, and whose local time
    of day is the configured one. *)
Theorem daily_schedule_is_next_occurrence :
  forall (env : Env) (config : BackupConfig) (w : World) (h m s : Z),
    scheduleType config = "daily" ->
    Backup.parse_schedule_time (scheduleTime config) = Some (h, m, s) ->
    0 <= h <= 23 -> 0 <= m <= 59 -> 0 <= s <= 59 ->
    exists t,
      fst (Backup.getNextBackupTime env config w) = Returns (Chrono.from_time_t t)
      /\ clock env (steps w) < Chrono.from_time_t t
         <= clock env (steps w) + Chrono.hours 24
      /\ Calendar.tm_hour (Calendar.localtime env t) = h
      /\ Calendar.tm_min (Calendar.localtime env t) = m
      /\ Calendar.tm_sec (Calendar.localtime env t) = s.
Proof.
  intros env config w h m s Htype Hparse Hh Hm Hs.
  pose proof (daily_next_time env config w h m s Htype Hparse Hh Hm Hs) as Hnext.
  cbv zeta in Hnext.
  set (now := clock env (steps w)) in *.
  set (D := (Chrono.to_time_t now + gmtoff env) / 86400) in *.
  pose proof (to_time_t_near now) as Hnear.
  assert (HD : D * 86400 <= Chrono.to_time_t now + gmtoff env < D * 86400 + 86400).
  { subst D. Z.div_mod_to_equations. lia. }
  assert (Htod : 0 <= time_of_day h m s < 86400) by (unfold time_of_day; lia).
  destruct (Chrono.from_time_t (D * 86400 + time_of_day h m s - gmtoff env) <=? now)
    eqn:Hpast.
  - apply Z.leb_le in Hpast.
    exists ((D + 1) * 86400 + time_of_day h m s - gmtoff env).
    split; [exact Hnext |].
    destruct (localtime_at env (D + 1) h m s Hh Hm Hs) as (H1 & H2 & H3 & _).
    split; [| repeat split; assumption].
    unfold Chrono.from_time_t, Chrono.hours, Chrono.nanos_per_second in *. lia.
  - apply Z.leb_gt in Hpast.
    exists (D * 86400 + time_of_day h m s - gmtoff env).
    split; [exact Hnext |].
    destruct (localtime_at env D h m s Hh Hm Hs) as (H1 & H2 & H3 & _).
    split; [| repeat split; assumption].
    unfold Chrono.from_time_t, Chrono.hours, Chrono.nanos_per_second in *. lia.
Qed.

Lemma daily_schedule_is_next_occurrence_witness :
  exists t,
    fst (Backup.getNextBackupTime (Scenario.calm None (Scenario.srv []))
           (Scenario.config "daily" "02:30:00" 1) (Scenario.start None None None))
    = Returns (Chrono.from_time_t t)
    /\ clock (Scenario.calm None (Scenario.srv []))
         (steps (Scenario.start None None None))
       < Chrono.from_time_t t
       <= clock (Scenario.calm None (Scenario.srv []))
            (steps (Scenario.start None None None)) + Chrono.hours 24
    /\ Calendar.tm_hour (Calendar.localtime (Scenario.calm None (Scenario.srv [])) t) = 2
    /\ Calendar.tm_min (Calendar.localtime (Scenario.calm None (Scenario.srv [])) t) = 30
    /\ Calendar.tm_sec (Calendar.localtime (Scenario.calm None (Scenario.srv [])) t) = 0.
Proof.
  apply (daily_schedule_is_next_occurrence (Scenario.calm None (Scenario.srv []))
           (Scenario.config "daily" "02:30:00" 1) (Scenario.start None None None)
           2 30 0); [reflexivity | reflexivity | lia | lia | lia].
Defined.

(** A weekly schedule with a valid time of day and a day name of the
    table.  Whatever the instant and the zone, [getNextBackupTime] returns
    an instant that lies strictly after now and at most seven days after
    it, that falls on the configured day of the week, and whose local time
    of day is the configured one. *)
Theorem weekly_schedule_is_next_occurrence :
  forall (env : Env) (config : BackupConfig) (w : World) (h m s targetDay : Z),
    scheduleType config = "weekly" ->
    Backup.parse_schedule_time (scheduleTime config) = Some (h, m, s) ->
    0 <= h <= 23 -> 0 <= m <= 59 -> 0 <= s <= 59 ->
    Backup.find Backup.dayMap (scheduleDayOfWeek config) = Some targetDay ->
    exists t,
      fst (Backup.getNextBackupTime env config w) = Returns (Chrono.from_time_t t)
      /\ clock env (steps w) < Chrono.from_time_t t
         <= clock env (steps w) + Chrono.hours (24 * 7)
      /\ Calendar.tm_wday (Calendar.localtime env t) = targetDay
      /\ Calendar.tm_hour (Calendar.localtime env t) = h
      /\ Calendar.tm_min (Calendar.localtime env t) = m
      /\ Calendar.tm_sec (Calendar.localtime env t) = s.
Proof.
  intros env config w h m s targetDay Htype Hparse Hh Hm Hs Hday.
  pose proof (weekly_next_time env config w h m s targetDay Htype Hparse Hh Hm Hs Hday)
    as Hnext.
  cbv zeta in Hnext.
  pose proof (dayMap_range _ _ Hday) as Htarget.
  set (now := clock env (steps w)) in *.
  set (D := (Chrono.to_time_t now + gmtoff env) / 86400) in *.
  pose proof (to_time_t_near now) as Hnear.
  assert (HD : D * 86400 <= Chrono.to_time_t now + gmtoff env < D * 86400 + 86400).
  { subst D. Z.div_mod_to_equations. lia. }
  assert (Htod : 0 <= time_of_day h m s < 86400) by (unfold time_of_day; lia).
  set (wday := (D + 4) mod 7) in *.
  assert (Hwday : 0 <= wday <= 6) by (subst wday; Z.div_mod_to_equations; lia).
  set (daysToAdd := Z.rem (targetDay - wday + 7) 7) in *.
  assert (Hadd : 0 <= daysToAdd <= 6 /\ (D + daysToAdd + 4) mod 7 = targetDay).
  { subst daysToAdd. rewrite Z.rem_mod_nonneg by lia.
    subst wday. Z.div_mod_to_equations. lia. }
  destruct Hadd as (Hadd & Hfalls).
  set (k := if (daysToAdd =? 0)
               && (Chrono.from_time_t (D * 86400 + time_of_day h m s - gmtoff env) <=? now)
            then 7 else daysToAdd) in *.
  exists ((D + k) * 86400 + time_of_day h m s - gmtoff env).
  split; [exact Hnext |].
  destruct (localtime_at env (D + k) h m s Hh Hm Hs) as (H1 & H2 & H3 & H4).
  assert (Hk : (D + k + 4) mod 7 = targetDay
               /\ now < Chrono.from_time_t ((D + k) * 86400 + time_of_day h m s - gmtoff env)
                  <= now + Chrono.hours (24 * 7)).
  { subst k.
    destruct (daysToAdd =? 0) eqn:Hzero; cbn [andb].
    - apply Z.eqb_eq in Hzero.
      destruct (Chrono.from_time_t (D * 86400 + time_of_day h m s - gmtoff env) <=? now)
        eqn:Hpast.
      + apply Z.leb_le in Hpast. split.
        * rewrite Hzero in Hfalls. rewrite <- Hfalls. Z.div_mod_to_equations. lia.
        * unfold Chrono.from_time_t, Chrono.hours, Chrono.nanos_per_second in *. lia.
      + apply Z.leb_gt in Hpast. rewrite Hzero in *. split.
        * exact Hfalls.
        * unfold Chrono.from_time_t, Chrono.hours, Chrono.nanos_per_second in *. lia.
    - apply Z.eqb_neq in Hzero. split.
      + exact Hfalls.
      + unfold Chrono.from_time_t, Chrono.hours, Chrono.nanos_per_second in *. lia. }
  destruct Hk as (Hk1 & Hk2).
  repeat split; try assumption; try apply Hk2.
  rewrite H4. exact Hk1.
Qed.

Lemma weekly_schedule_is_next_occurrence_witness :
  exists t,
    fst (Backup.getNextBackupTime (Scenario.calm None (Scenario.srv []))
           (Scenario.config "weekly" "02:30:00" 1) (Scenario.start None None None))
    = Returns (Chrono.from_time_t t)
    /\ clock (Scenario.calm None (Scenario.srv []))
         (steps (Scenario.start None None None))
       < Chrono.from_time_t t
       <= clock (Scenario.calm None (Scenario.srv []))
            (steps (Scenario.start None None None)) + Chrono.hours (24 * 7)
    /\ Calendar.tm_wday (Calendar.localtime (Scenario.calm None (Scenario.srv [])) t) = 1
    /\ Calendar.tm_hour (Calendar.localtime (Scenario.calm None (Scenario.srv [])) t) = 2
    /\ Calendar.tm_min (Calendar.localtime (Scenario.calm None (Scenario.srv [])) t) = 30
    /\ Calendar.tm_sec (Calendar.localtime (Scenario.calm None (Scenario.srv [])) t) = 0.
Proof.
  apply (weekly_schedule_is_next_occurrence (Scenario.calm None (Scenario.srv []))
           (Scenario.config "weekly" "02:30:00" 1) (Scenario.start None None None)
           2 30 0 1); [reflexivity | reflexivity | lia | lia | lia | reflexivity].
Defined.

(** ** Schedules that are refused *)

Section ScheduleChecks.

Variable env : Env.
Variable config : BackupConfig.




End ScheduleChecks.


(** ** The time of day, written and read *)

Lemma extract_int_two_digits (n : Z) (rest : string) :
  0 <= n <= 59 ->
  Backup.extract_int (Calendar.pad2 n ++ ":" ++ rest) = Some (n, ":" ++ rest)
  /\ Backup.extract_int (Calendar.pad2 n) = Some (n, "").
Proof.
  intros Hn.
  assert (Hk : exists k, (k < 60)%nat /\ n = Z.of_nat k).
  { exists (Z.to_nat n). split; lia. }
  destruct Hk as (k & Hk & ->). clear Hn.
  do 60 (destruct k as [| k]; [split; reflexivity |]).
  lia.
Qed.

(** The time of day round-trips.  A time of day written with two digits
    for each of the hour, the minute and the second and colons between
    them, as [std::put_time] writes it for the logs, is read back by the
    [std::get_time] of [getNextBackupTime] as the same three numbers. *)
Theorem schedule_time_round_trip :
  forall h m s : Z,
    0 <= h <= 23 -> 0 <= m <= 59 -> 0 <= s <= 59 ->
    Backup.parse_schedule_time
      (Calendar.pad2 h ++ ":" ++ Calendar.pad2 m ++ ":" ++ Calendar.pad2 s)
    = Some (h, m, s).
Proof.
  intros h m s Hh Hm Hs.
  unfold Backup.parse_schedule_time.
  destruct (extract_int_two_digits h (Calendar.pad2 m ++ ":" ++ Calendar.pad2 s))
    as [-> _]; [lia |].
  change (Backup.extract_char (":" ++ Calendar.pad2 m ++ ":" ++ Calendar.pad2 s))
    with (Some (":"%char, Calendar.pad2 m ++ ":" ++ Calendar.pad2 s)).
  destruct (extract_int_two_digits m (Calendar.pad2 s)) as [-> _]; [lia |].
  change (Backup.extract_char (":" ++ Calendar.pad2 s))
    with (Some (":"%char, Calendar.pad2 s)).
  destruct (extract_int_two_digits s "") as [_ ->]; [lia |].
  reflexivity.
Qed.

Lemma schedule_time_round_trip_witness :
  Backup.parse_schedule_time (Calendar.pad2 2 ++ ":" ++ Calendar.pad2 30 ++ ":"
                              ++ Calendar.pad2 0)
  = Some (2, 30, 0).
Proof. apply (schedule_time_round_trip 2 30 0); lia. Defined.

(** ** Postconditions *)

Lemma ensures_ret {A : Type} (Q : result A -> World -> Prop) (a : A) :
  (forall w, Q (Returns a) w) -> ensures Q (ret a).
Proof. intros H w. apply H. Qed.

Lemma ensures_throw {A : Type} (Q : result A -> World -> Prop) (e : string) :
  (forall w, Q (Throws e) w) -> ensures Q (throw e).
Proof. intros H w. apply H. Qed.

Lemma ensures_bind {A B : Type} (Q : result B -> World -> Prop) (c : M A)
    (k : A -> M B) :
  (forall e w, Q (Throws e) w) ->
  (forall a, ensures Q (k a)) ->
  ensures Q (bind c k).
Proof.
  intros Hthrow Hk w. unfold bind.
  destruct (c w) as [[a | e] w'].
  - apply Hk.
  - apply Hthrow.
Qed.


Section Reports.

Variable env : Env.
Variable config : BackupConfig.

(** The three statements with which [execute] gives up: the error is
    logged, notified and returned. *)
Lemma abandon_reports (errorMsg : string) :
  ensures (fun r w => forall e, r = Returns (Unexpected e) -> reported config e w)
    (Backup.logError errorMsg ;; Backup.notify config errorMsg ;;
     ret (Unexpected errorMsg : expected unit)).
Proof.
  intros w. unfold bind, Backup.logError, Backup.notify, modify, ret.
  destruct (notificationStrategy config) eqn:Hn; cbn [fst snd];
    intros e H; injection H as <-; split.
  - eexists. reflexivity.
  - intros _. eexists. reflexivity.
  - eexists. reflexivity.
  - intros H. rewrite Hn in H. discriminate H.
Qed.

Lemma after_file_backup_reports (targetPath dbBackupFile : string) :
  ensures (fun r w => forall e, r = Returns (Unexpected e) -> reported config e w)
    (Backup.after_file_backup env config targetPath dbBackupFile).
Proof.
  pose proof abandon_reports as Hgive.
  assert (Hthrow : forall (what : string) (w : World) (e : string),
             @Throws (expected unit) what = Returns (Unexpected e) -> reported config e w)
    by (intros what w e H; discriminate H).
  assert (Hvalue : forall (w : World) (e : string),
             Returns (Value tt) = Returns (Unexpected e) -> reported config e w)
    by (intros w e H; discriminate H).
  unfold Backup.after_file_backup.
  apply ensures_bind; [exact Hthrow | intros verifyResult].
  destruct (negb _); [apply Hgive |].
  apply ensures_bind; [exact Hthrow | intros owned].
  destruct owned as [what |]; [apply Hgive |].
  apply ensures_bind; [exact Hthrow | intros _].
  apply ensures_bind; [exact Hthrow | intros cleanupResult].
  apply ensures_bind; [exact Hthrow | intros _].
  apply ensures_bind; [exact Hthrow | intros _].
  apply ensures_bind; [exact Hthrow | intros _].
  apply ensures_ret. exact Hvalue.
Qed.

End Reports.

(** Errors are reported before they are returned.  Whenever
    [Backup::execute] returns an error for one of the three types it knows,
    that error is the last line of the error log and, when a notifier is
    configured, the last notification sent. *)
Theorem returned_errors_are_reported :
  forall (env : Env) (config : BackupConfig) (type : string) (fullBackup : bool)
         (w : World) (e : string),
    type = "daily" \/ type = "monthly" \/ type = "yearly" ->
    fst (Backup.execute env config type fullBackup w) = Returns (Unexpected e) ->
    reported config e (snd (Backup.execute env config type fullBackup w)).
Proof.
  intros env config type fullBackup w e Htype.
  assert (Hthrow : forall (what : string) (w : World) (e : string),
             @Throws (expected unit) what = Returns (Unexpected e) -> reported config e w)
    by (intros what w' e' H; discriminate H).
  pose proof (abandon_reports config) as Hgive.
  pose proof (after_file_backup_reports env config) as Hafter.
  assert (H : ensures (fun r w => forall e, r = Returns (Unexpected e) -> reported config e w)
                (Backup.execute env config type fullBackup)).
  { unfold Backup.execute.
    assert (Hfmt : exists f, Backup.dateFormat_of type = Some f).
    { unfold Backup.dateFormat_of.
      destruct Htype as [-> | [-> | ->]]; eexists; reflexivity. }
    destruct Hfmt as [f ->].
    apply ensures_bind; [exact Hthrow | intros t]. cbv zeta.
    apply ensures_bind; [exact Hthrow | intros _].
    apply ensures_bind; [exact Hthrow | intros dbBackupFile].
    apply ensures_bind; [exact Hthrow | intros fileResult].
    destruct fileResult as [u | e']; [apply Hafter | apply Hgive]. }
  apply H.
Qed.

Lemma returned_errors_are_reported_witness :
  reported (Scenario.config "daily" "02:30:00" 1)
    "Backup verification failed: Failed to open archive for verification: /backups/sys/sys-daily-15-20240315-100000.tar.gz (error: No such file or directory)"
    (snd (Backup.execute (Scenario.calm None (Scenario.srv []))
            (Scenario.config "daily" "02:30:00" 1) "daily" false
            (Scenario.start None None None))).
Proof.
  apply (returned_errors_are_reported (Scenario.calm None (Scenario.srv []))
           (Scenario.config "daily" "02:30:00" 1) "daily" false
           (Scenario.start None None None)).
  - left. reflexivity.
  - reflexivity.
Defined.

(** ** A run that finds nothing to back up *)

Section NothingNew.

Variable env : Env.
Variable config : BackupConfig.

(** [Backup::execute], for a type it knows, up to the file backup: the
    world [w0] in which the file strategy starts differs from the initial
    one by a step, and by the report of a failed database dump. *)
Lemma execute_reaches_file_backup (type : string) (fullBackup : bool) (w : World) :
  type = "daily" \/ type = "monthly" \/ type = "yearly" ->
  exists w0 targetPath dbBackupFile,
    last_backup_file w0 = last_backup_file w
    /\ marker_writes w0 = marker_writes w
    /\ output_file w0 = output_file w
    /\ Backup.execute env config type fullBackup w
       = bind (TarGzFileBackupStrategy.execute env (excludeExtensions config)
                 (backupDirs config) targetPath fullBackup)
           (fun fileResult =>
              match fileResult with
              | Unexpected e =>
                  let errorMsg := "File backup failed: " ++ e in
                  bind (Backup.logError errorMsg)
                    (fun _ => bind (Backup.notify config errorMsg)
                                (fun _ => ret (Unexpected errorMsg)))
              | Value _ => Backup.after_file_backup env config targetPath dbBackupFile
              end) w0.
Proof.
  intros Htype.
  assert (Hfmt : exists f, Backup.dateFormat_of type = Some f).
  { unfold Backup.dateFormat_of.
    destruct Htype as [-> | [-> | ->]]; eexists; reflexivity. }
  destruct Hfmt as [f Hf].
  unfold Backup.execute. rewrite Hf.
  rewrite (bind_returns (now env) _ w w (clock env (steps w)) eq_refl).
  cbv zeta.
  rewrite (bind_returns tick _ w (with_steps (S (steps w)) w) tt eq_refl).
  destruct (db_execute env _) as [dump | e].
  - erewrite (bind_returns (ret dump)); [| reflexivity].
    eexists. eexists. eexists. split; [| split; [| split; [| reflexivity]]];
      reflexivity.
  - unfold Backup.notify.
    destruct (notificationStrategy config).
    + erewrite bind_returns; [| reflexivity].
      eexists. eexists. eexists. split; [| split; [| split; [| reflexivity]]];
        reflexivity.
    + erewrite bind_returns; [| reflexivity].
      eexists. eexists. eexists. split; [| split; [| split; [| reflexivity]]];
        reflexivity.
Qed.

(** Without a file at the target path the part that follows the file
    backup ends with the verification error. *)
Lemma after_file_backup_cannot_verify (targetPath dbBackupFile : string) (w : World) :
  output_file w = None ->
  exists m,
    fst (Backup.after_file_backup env config targetPath dbBackupFile w)
    = Returns (Unexpected ("Backup verification failed: " ++ m)).
Proof.
  intros Hnone.
  unfold Backup.after_file_backup.
  unfold bind at 1.
  unfold Backup.verifyBackup at 1, bind at 1, tick, modify.
  unfold bind at 1, gets. cbn [output_file with_steps]. rewrite Hnone.
  unfold bind at 1, Backup.logError at 1, modify, ret. cbn [negb].
  unfold bind, Backup.logError, Backup.notify, modify, ret.
  destruct (notificationStrategy config); eexists; reflexivity.
Qed.

(** Nothing that follows the file backup touches the archive. *)
Lemma after_file_backup_keeps_output (targetPath dbBackupFile : string) :
  keeps output_file (Backup.after_file_backup env config targetPath dbBackupFile).
Proof.
  assert (Hlog : forall msg, keeps output_file (Backup.logMessage msg))
    by (intros msg; apply keeps_modify; reflexivity).
  pose proof logError_keeps_output as Herr.
  pose proof (notify_keeps_output config) as Hnotify.
  assert (Htick : keeps output_file tick) by (apply keeps_modify; reflexivity).
  assert (Hclean : forall threshold entries,
             keeps output_file (Backup.clean_entries env threshold entries)).
  { intros threshold.
    apply clean_entries_keeps; intros; reflexivity. }
  assert (Hmod : forall f : World -> World,
             (forall w, output_file (f w) = output_file w) ->
             keeps output_file (modify f))
    by (intros f Hf; apply keeps_modify; exact Hf).
  unfold Backup.after_file_backup, Backup.verifyBackup, Backup.changeOwnership,
    Backup.do_transfer, Backup.cleanupOldBackups, Backup.clean_folder.
  repeat match goal with
         | |- keeps _ (bind _ _) => apply keeps_bind; [ | intros ? ]
         | |- keeps _ (try_catch _ _) => apply keeps_try_catch; [ | intros ? ]
         | |- keeps _ (ret _) => apply keeps_ret
         | |- keeps _ (throw _) => apply keeps_throw
         | |- keeps _ (now _) => apply now_keeps
         | |- keeps _ (gets _) => apply keeps_gets
         | |- keeps _ (modify _) => apply Hmod; intros ?w; reflexivity
         | |- keeps _ (match ?x with _ => _ end) => destruct x
         | |- keeps _ (if ?b then _ else _) => destruct b
         | |- keeps _ _ => solve [auto]
         end.
Qed.

End NothingNew.

(** A run that finds nothing to back up fails at verification.  When the
    count of the file strategy is zero, the strategy returns success without
    creating the archive; [Backup::execute] then verifies the target path,
    where no file lies, and returns the verification error.  The marker
    file is left as it was. *)
Theorem nothing_to_back_up_fails_verification :
  forall (env : Env) (config : BackupConfig) (type : string) (fullBackup : bool)
         (w : World),
    type = "daily" \/ type = "monthly" \/ type = "yearly" ->
    create_directories_error env = None ->
    fst (TarGzFileBackupStrategy.countFiles env (excludeExtensions config)
           (backupDirs config) fullBackup w) = Returns 0%nat ->
    output_file w = None ->
    (exists m,
        fst (Backup.execute env config type fullBackup w)
        = Returns (Unexpected ("Backup verification failed: " ++ m)))
    /\ marker_state (snd (Backup.execute env config type fullBackup w)) = marker_state w
    /\ output_file (snd (Backup.execute env config type fullBackup w)) = None.
Proof.
  intros env config type fullBackup w Htype Hdir Hcount Hnone.
  destruct (execute_reaches_file_backup env config type fullBackup w Htype)
    as (w0 & targetPath & dbBackupFile & Hfile & Hwrites & Hout & Hrun).
  rewrite Hrun.
  assert (Hcount0 : fst (TarGzFileBackupStrategy.countFiles env (excludeExtensions config)
                           (backupDirs config) fullBackup w0) = Returns 0%nat).
  { rewrite <- Hcount. apply countFiles_result_indep. exact Hfile. }
  destruct (zero_count_run env (excludeExtensions config) (backupDirs config)
              targetPath fullBackup w0 Hdir Hcount0) as (Hr & Ho & Hm).
  destruct (TarGzFileBackupStrategy.execute env (excludeExtensions config)
              (backupDirs config) targetPath fullBackup w0) as [r1 w1] eqn:Hfile_run.
  cbn [fst snd] in Hr, Ho, Hm. subst r1.
  rewrite (bind_returns _ _ _ _ _ Hfile_run).
  assert (Hnone1 : output_file w1 = None) by congruence.
  pose proof (after_file_backup_cannot_verify env config targetPath dbBackupFile w1 Hnone1)
    as Hverify.
  pose proof (after_file_backup_keeps_marker env config targetPath dbBackupFile w1)
    as Hkeep.
  pose proof (after_file_backup_keeps_output env config targetPath dbBackupFile)
    as Hkeep_out.
  split; [exact Hverify |]. split.
  - rewrite Hkeep, Hm. unfold marker_state. congruence.
  - rewrite Hkeep_out. exact Hnone1.
Qed.

Lemma nothing_to_back_up_fails_verification_witness :
  (exists m,
      fst (Backup.execute (Scenario.calm None (Scenario.srv []))
             (Scenario.config "daily" "02:30:00" 1) "daily" false
             (Scenario.start None None None))
      = Returns (Unexpected ("Backup verification failed: " ++ m)))
  /\ marker_state
       (snd (Backup.execute (Scenario.calm None (Scenario.srv []))
               (Scenario.config "daily" "02:30:00" 1) "daily" false
               (Scenario.start None None None)))
     = marker_state (Scenario.start None None None)
  /\ output_file
       (snd (Backup.execute (Scenario.calm None (Scenario.srv []))
               (Scenario.config "daily" "02:30:00" 1) "daily" false
               (Scenario.start None None None)))
     = None.
Proof.
  apply (nothing_to_back_up_fails_verification (Scenario.calm None (Scenario.srv []))
           (Scenario.config "daily" "02:30:00" 1) "daily" false
           (Scenario.start None None None)).
  - left. reflexivity.
  - reflexivity.
  - reflexivity.
  - reflexivity.
Defined.

(** ** The errors a run can return *)

(** A property that every exception satisfies holds of a sequence when it
    holds of what follows the first call. *)
Lemma ends_in_bind_lenient {A B : Type} (P : result B -> Prop) (c : M A) (k : A -> M B) :
  (forall e, P (Throws e)) -> (forall a, ends_in P (k a)) -> ends_in P (bind c k).
Proof.
  intros Hthrow Hk w. unfold bind.
  destruct (c w) as [[a | e] w']; cbn [fst]; [apply Hk | apply Hthrow].
Qed.

Section FileBackupOutcome.

Variable env : Env.
Variable excl : list string.

Lemma until_join_outcome (sourceDirs : list string) (outputFile : string)
    (fullBackup : bool) (w : World) :
  match fst (TarGzFileBackupStrategy.until_join env excl sourceDirs outputFile
               fullBackup w) with
  | Returns (Some early) => file_backup_outcome env outputFile (Returns early)
  | Returns None => True
  | Throws _ => True
  end.
Proof.
  unfold TarGzFileBackupStrategy.until_join.
  rewrite (bind_returns (logFile _) _ w _ tt eq_refl).
  unfold create_directories.
  destruct (create_directories_error env) as [what |] eqn:Hmk.
  { cbn. exact I. }
  erewrite (bind_returns (bind tick _)); [| reflexivity].
  erewrite (bind_returns (logFile _)); [| reflexivity].
  match goal with
  | |- context [bind (TarGzFileBackupStrategy.countFiles env excl sourceDirs fullBackup)
                  _ ?w'] =>
      destruct (TarGzFileBackupStrategy.countFiles env excl sourceDirs fullBackup w')
        as [[n | e] w2] eqn:Hcount
  end.
  2: { rewrite (bind_throws _ _ _ _ _ Hcount). exact I. }
  rewrite (bind_returns _ _ _ _ _ Hcount).
  destruct (n =? 0)%nat; cbv iota.
  { unfold bind, logFile, modify, ret. cbn [fst]. exact I. }
  erewrite (bind_returns (modify _)); [| reflexivity].
  unfold TarGzFileBackupStrategy.archive_write_open_filename.
  destruct (write_open_error env) as [why |] eqn:Hopen.
  - erewrite (bind_returns (bind tick _)); [| reflexivity].
    cbv beta iota zeta. unfold bind, logFile, modify, ret. cbn [fst].
    cbn. right. exists why. split; [exact Hopen | reflexivity].
  - erewrite (bind_returns (bind tick _)); [| reflexivity].
    cbv beta iota.
    match goal with
    | |- context [bind (TarGzFileBackupStrategy.run_threads env excl sourceDirs fullBackup)
                    _ ?w'] =>
        destruct (TarGzFileBackupStrategy.run_threads env excl sourceDirs fullBackup w')
          as [[u | e] w3] eqn:Hthreads
    end.
    + rewrite (bind_returns _ _ _ _ _ Hthreads). exact I.
    + rewrite (bind_throws _ _ _ _ _ Hthreads). exact I.
Qed.

Lemma after_join_outcome (outputFile : string) (wj : World) :
  fst (TarGzFileBackupStrategy.after_join env outputFile wj) = Returns (Value tt)
  \/ fst (TarGzFileBackupStrategy.after_join env outputFile wj)
     = Returns (Unexpected "Backup interrupted by signal").
Proof.
  destruct (flag_at env (steps wj)) eqn:Hflag.
  - destruct (after_join_interrupted env outputFile wj Hflag) as (w' & Hrun & _).
    right. rewrite Hrun. reflexivity.
  - destruct (after_join_completed env outputFile wj Hflag) as (w' & Hrun & _).
    left. rewrite Hrun. reflexivity.
Qed.

Lemma execute_outcome (sourceDirs : list string) (outputFile : string)
    (fullBackup : bool) (w : World) :
  file_backup_outcome env outputFile
    (fst (TarGzFileBackupStrategy.execute env excl sourceDirs outputFile fullBackup w)).
Proof.
  pose proof (until_join_outcome sourceDirs outputFile fullBackup w) as Huj.
  unfold TarGzFileBackupStrategy.execute. unfold bind.
  destruct (TarGzFileBackupStrategy.until_join env excl sourceDirs outputFile
              fullBackup w) as [[[early |] | what] wj]; cbn [fst] in Huj |- *.
  - apply Huj.
  - destruct (after_join_outcome outputFile wj) as [-> | ->]; cbn; auto.
  - exact I.
Qed.

End FileBackupOutcome.

(** The errors the file strategy returns.  When
    [TarGzFileBackupStrategy::execute] returns an error, the error is the
    interruption by a signal, or the archive that cannot be opened, with
    the path of the archive and the message of the writer, which did fail
    to open it.  No error is returned for a source directory that is
    missing or cannot be traversed, nor for a file that cannot be read. *)
Theorem file_backup_fails_in_two_ways :
  forall (env : Env) (excl sourceDirs : list string) (outputFile : string)
         (fullBackup : bool) (w : World),
    file_backup_outcome env outputFile
      (fst (TarGzFileBackupStrategy.execute env excl sourceDirs outputFile fullBackup w)).
Proof. intros. apply execute_outcome. Qed.

Section RunOutcome.

Variable env : Env.
Variable config : BackupConfig.

Lemma lenient (e : string) : run_outcome (Throws e).
Proof. exact I. Qed.

Lemma after_file_backup_run_outcome (targetPath dbBackupFile : string) :
  ends_in run_outcome
    (Backup.after_file_backup env config targetPath dbBackupFile).
Proof.
  unfold Backup.after_file_backup.
  apply ends_in_bind_lenient; [exact lenient | intros verifyResult].
  destruct (negb _).
  { apply ends_in_bind_lenient; [exact lenient | intros _].
    apply ends_in_bind_lenient; [exact lenient | intros _].
    apply ends_in_ret. cbn. right. right. left. eexists. reflexivity. }
  apply ends_in_bind_lenient; [exact lenient | intros owned].
  destruct owned as [what |].
  { apply ends_in_bind_lenient; [exact lenient | intros _].
    apply ends_in_bind_lenient; [exact lenient | intros _].
    apply ends_in_ret. cbn. right. right. right. eexists. reflexivity. }
  apply ends_in_bind_lenient; [exact lenient | intros _].
  apply ends_in_bind_lenient; [exact lenient | intros cleanupResult].
  apply ends_in_bind_lenient; [exact lenient | intros _].
  apply ends_in_bind_lenient; [exact lenient | intros _].
  apply ends_in_bind_lenient; [exact lenient | intros _].
  apply ends_in_ret. exact I.
Qed.

Lemma run_outcome_holds (type : string) (fullBackup : bool) :
  ends_in run_outcome (Backup.execute env config type fullBackup).
Proof.
  unfold Backup.execute.
  destruct (Backup.dateFormat_of type) as [dateFormat |].
  - apply ends_in_bind_lenient; [exact lenient | intros t]. cbv zeta.
    apply ends_in_bind_lenient; [exact lenient | intros _].
    apply ends_in_bind_lenient; [exact lenient | intros dbBackupFile].
    apply ends_in_bind_lenient; [exact lenient | intros fileResult].
    destruct fileResult as [u | e].
    + apply after_file_backup_run_outcome.
    + cbv zeta.
      apply ends_in_bind_lenient; [exact lenient | intros _].
      apply ends_in_bind_lenient; [exact lenient | intros _].
      apply ends_in_ret. cbn. right. left. exists e. reflexivity.
  - apply ends_in_bind_lenient; [exact lenient | intros _].
    apply ends_in_ret. cbn. left. reflexivity.
Qed.

End RunOutcome.

(** The errors a run returns.  When [Backup::execute] returns an error,
    the error is one of four: the unknown type, the failed file backup,
    the failed verification and the failed ownership change, each under
    its own prefix.  The database dump, the transfer and the cleanup have
    no error of the run to their name. *)
Theorem run_returns_four_kinds_of_error :
  forall (env : Env) (config : BackupConfig) (type : string) (fullBackup : bool)
         (w : World),
    run_outcome (fst (Backup.execute env config type fullBackup w)).
Proof. intros env config type fullBackup w. apply run_outcome_holds. Qed.

(** ** Retention never deletes what it should keep *)

Section RetentionSafety.

Variable env : Env.

(** The loop over a folder, however it ends, leaves a part of what it
    found, with every entry retention keeps. *)
Lemma clean_entries_safe (threshold : Z) :
  forall entries w,
    exists left ending w',
      Backup.clean_entries env threshold entries w = (Returns (left, ending), w')
      /\ incl left entries
      /\ (forall e, In e entries -> kept env threshold e = true -> In e left).
Proof.
  induction entries as [| entry rest IH]; intros w.
  - exists [], Backup.finished, w. split; [reflexivity |]. split; [apply incl_refl |].
    intros e [].
  - cbn [Backup.clean_entries].
    unfold bind at 1, tick, modify.
    assert (Hstop : forall (ending : Backup.loop_end) (w1 : World),
               exists left ending' w',
                 (@Returns (list Artifact * Backup.loop_end) (entry :: rest, ending), w1)
                 = (Returns (left, ending'), w')
                 /\ incl left (entry :: rest)
                 /\ (forall e, In e (entry :: rest) -> kept env threshold e = true ->
                               In e left)).
    { intros ending w1. exists (entry :: rest), ending, w1.
      split; [reflexivity |]. split; [apply incl_refl |]. intros e He _. exact He. }
    assert (Hkeep_entry :
              forall w1, exists left ending w',
                bind (Backup.clean_entries env threshold rest)
                  (fun r => ret (entry :: fst r, snd r)) w1
                = (Returns (left, ending), w')
                /\ incl left (entry :: rest)
                /\ (forall e, In e (entry :: rest) -> kept env threshold e = true ->
                              In e left)).
    { intros w1. destruct (IH w1) as (left & ending & w' & Hrun & Hincl & Hkept).
      exists (entry :: left), ending, w'.
      rewrite (bind_returns _ _ _ _ _ Hrun). split; [reflexivity |]. split.
      - intros e [<- | He]; [left; reflexivity | right; apply Hincl; exact He].
      - intros e [<- | He] Hk; [left; reflexivity | right; apply Hkept; assumption]. }
    destruct (art_status_error entry); [apply Hstop |].
    destruct (art_is_regular_file entry) eqn:Hreg; [| apply Hkeep_entry].
    destruct (art_time_error entry); [apply Hstop |].
    unfold bind at 1 2, now, now_inner, gets. rewrite fileTime_gap.
    match goal with
    | |- context [if ?t <? threshold then _ else _] =>
        destruct (t <? threshold) eqn:Hold; [| apply Hkeep_entry]
    end.
    destruct (remove_error entry) as [what |].
    + unfold bind, Backup.logError, modify, ret. apply Hstop.
    + unfold bind at 1, Backup.logMessage, modify.
      match goal with
      | |- context [Backup.clean_entries env threshold rest ?w1] =>
          destruct (IH w1) as (left & ending & w' & Hrun & Hincl & Hkept)
      end.
      exists left, ending, w'. split; [exact Hrun |]. split.
      * intros e He. right. apply Hincl. exact He.
      * intros e [<- | He] Hk.
        -- unfold kept, file_time in Hk. rewrite Hreg in Hk.
           cbn [andb] in Hk. rewrite Hold in Hk. discriminate Hk.
        -- apply Hkept; assumption.
Qed.

End RetentionSafety.

Section RetentionFolders.

Variable env : Env.

(** One round of the outer loop, on a folder that exists: the round
    returns or throws as the loop ended, and the folder is the one the
    loop left. *)
Lemma clean_folder_safe (get : World -> option (list Artifact))
    (set : option (list Artifact) -> World -> World) (threshold : Z)
    (w : World) (entries : list Artifact) :
  (forall n w, get (with_steps n w) = get w) ->
  (forall l w, get (with_log l w) = get w) ->
  (forall l w, get (with_errors l w) = get w) ->
  (forall f w, get (set f w) = f) ->
  get w = Some entries ->
  exists left r w1,
    Backup.clean_folder env get set threshold w = (r, set (Some left) w1)
    /\ (forall (B : Type) (proj : World -> B),
           (forall n w, proj (with_steps n w) = proj w) ->
           (forall l w, proj (with_log l w) = proj w) ->
           (forall l w, proj (with_errors l w) = proj w) ->
           proj w1 = proj w)
    /\ incl left entries
    /\ (forall e, In e entries -> kept env threshold e = true -> In e left).
Proof.
  intros Hs Hl He Hset Hget.
  unfold Backup.clean_folder.
  rewrite (bind_returns (gets get) _ w w (get w) eq_refl).
  rewrite Hget.
  destruct (clean_entries_safe env threshold entries w)
    as (left & ending & w1 & Hrun & Hincl & Hkept).
  rewrite (bind_returns _ _ _ _ _ Hrun).
  exists left. cbn [fst snd].
  assert (Hframe : forall (B : Type) (proj : World -> B),
             (forall n w, proj (with_steps n w) = proj w) ->
             (forall l w, proj (with_log l w) = proj w) ->
             (forall l w, proj (with_errors l w) = proj w) ->
             proj w1 = proj w).
  { intros B proj Hps Hpl Hpe.
    pose proof (clean_entries_keeps env proj threshold Hps Hpl Hpe entries w) as Hk.
    rewrite Hrun in Hk. exact Hk. }
  destruct ending as [| e | what]; eexists; exists w1;
    (split; [reflexivity | split; [exact Hframe | split; assumption]]).
Qed.

(** A folder that cannot be listed is left as it is. *)
Lemma clean_folder_missing (get : World -> option (list Artifact))
    (set : option (list Artifact) -> World -> World) (threshold : Z) (w : World) :
  get w = None ->
  Backup.clean_folder env get set threshold w
  = (Throws "filesystem error: directory iterator cannot open directory", w).
Proof.
  intros Hget. unfold Backup.clean_folder.
  rewrite (bind_returns (gets get) _ w w (get w) eq_refl).
  rewrite Hget. reflexivity.
Qed.

Variable config : BackupConfig.

Lemma cleanup_spares (w : World) :
  let threshold := Backup.threshold_at config (clock env (steps w)) in
  (forall sys,
      sys_folder w = Some sys ->
      exists sys',
        sys_folder (snd (Backup.cleanupOldBackups env config w)) = Some sys'
        /\ incl sys' sys
        /\ (forall e, In e sys -> kept env threshold e = true -> In e sys'))
  /\ (forall db,
         db_folder w = Some db ->
         exists db',
           db_folder (snd (Backup.cleanupOldBackups env config w)) = Some db'
           /\ incl db' db
           /\ (forall e, In e db -> kept env threshold e = true -> In e db')).
Proof.
  intros threshold.
  assert (Hsame : forall (f : list Artifact), incl f f
                    /\ (forall e, In e f -> kept env threshold e = true -> In e f)).
  { intros f. split; [apply incl_refl | intros e He _; exact He]. }
  unfold Backup.cleanupOldBackups.
  rewrite (bind_returns (now env) _ w w (clock env (steps w)) eq_refl).
  cbv zeta. fold threshold.
  destruct (sys_folder w) as [sys |] eqn:Hsys.
  - destruct (clean_folder_safe sys_folder with_sys_folder threshold w sys
                (fun _ _ => eq_refl) (fun _ _ => eq_refl) (fun _ _ => eq_refl)
                (fun _ _ => eq_refl) Hsys)
      as (left & r & w1 & Hrun & Hframe & Hincl & Hkept).
    assert (Hdb1 : db_folder (with_sys_folder (Some left) w1) = db_folder w).
    { change (db_folder w1 = db_folder w).
      apply Hframe; intros; reflexivity. }
    assert (Hstop : forall w',
               w' = with_sys_folder (Some left) w1 ->
               (forall sys0, Some sys = Some sys0 ->
                  exists sys', sys_folder w' = Some sys'
                    /\ incl sys' sys0
                    /\ (forall e, In e sys0 -> kept env threshold e = true ->
                                  In e sys'))
               /\ (forall db, db_folder w = Some db ->
                     exists db', db_folder w' = Some db'
                       /\ incl db' db
                       /\ (forall e, In e db -> kept env threshold e = true ->
                                     In e db'))).
    { intros w' ->. split.
      - intros sys0 H. injection H as <-. exists left. repeat split; assumption.
      - intros db Hdb. exists db. split; [rewrite Hdb1; exact Hdb | apply Hsame]. }
    destruct r as [[e |] | what].
    + rewrite (bind_returns _ _ _ _ _ Hrun). apply Hstop. reflexivity.
    + rewrite (bind_returns _ _ _ _ _ Hrun).
      destruct (db_folder w) as [db |] eqn:Hdb.
      * destruct (clean_folder_safe db_folder with_db_folder threshold
                    (with_sys_folder (Some left) w1) db
                    (fun _ _ => eq_refl) (fun _ _ => eq_refl) (fun _ _ => eq_refl)
                    (fun _ _ => eq_refl) Hdb1)
          as (left2 & r2 & w2 & Hrun2 & Hframe2 & Hincl2 & Hkept2).
        assert (Hsys2 : sys_folder (with_db_folder (Some left2) w2) = Some left).
        { change (sys_folder w2 = Some left).
          rewrite (Hframe2 _ sys_folder); intros; reflexivity. }
        assert (Hend : snd (bind (Backup.clean_folder env db_folder with_db_folder
                                    threshold)
                              (fun r =>
                                 match r with
                                 | Some e => ret (Unexpected e)
                                 | None => ret (Value tt)
                                 end) (with_sys_folder (Some left) w1))
                       = with_db_folder (Some left2) w2).
        { unfold bind. rewrite Hrun2. destruct r2 as [[e |] |]; reflexivity. }
        rewrite Hend.
        split.
        -- intros sys0 H. injection H as <-. exists left.
           split; [exact Hsys2 | split; assumption].
        -- intros db0 H. injection H as <-. exists left2.
           split; [reflexivity | split; assumption].
      * rewrite (bind_throws _ _ _ _ _
                   (clean_folder_missing db_folder with_db_folder threshold _ Hdb1)).
        split.
        -- intros sys0 H. injection H as <-. exists left.
           split; [reflexivity | split; assumption].
        -- intros db H. discriminate H.
    + rewrite (bind_throws _ _ _ _ _ Hrun). apply Hstop. reflexivity.
  - split; [intros sys H; discriminate H |].
    intros db Hdb. exists db.
    split; [| apply Hsame].
    rewrite (bind_throws _ _ _ _ _
               (clean_folder_missing sys_folder with_sys_folder threshold w Hsys)).
    exact Hdb.
Qed.

End RetentionFolders.

(** Retention is safe.  Whatever happens during the cleanup (a removal
    that fails, a folder that cannot be listed, an entry whose status or
    time cannot be read), a backup folder never gains an entry, and every
    entry of it that is not a regular file, or whose file time is not
    before the threshold the program computes, is still there afterwards.
    The threshold is computed in 64-bit nanoseconds from an [int] number of
    hours; for a retention window of 0 to 106751 days it is the time the
    cleanup starts minus the window. *)
Theorem retention_spares_recent_files :
  forall (env : Env) (config : BackupConfig) (w : World),
    (forall sys,
        sys_folder w = Some sys ->
        exists sys',
          sys_folder (snd (Backup.cleanupOldBackups env config w)) = Some sys'
          /\ incl sys' sys
          /\ (forall e, In e sys ->
                        kept env (Backup.threshold_at config (clock env (steps w))) e
                        = true ->
                        In e sys'))
    /\ (forall db,
           db_folder w = Some db ->
           exists db',
             db_folder (snd (Backup.cleanupOldBackups env config w)) = Some db'
             /\ incl db' db
             /\ (forall e, In e db ->
                           kept env (Backup.threshold_at config (clock env (steps w))) e
                           = true ->
                           In e db'))
    /\ (window_fits env config w ->
        Backup.threshold_at config (clock env (steps w))
        = cleanup_threshold env config w).
Proof.
  intros env config w.
  destruct (cleanup_spares env config w) as [Hsys Hdb].
  split; [exact Hsys | split; [exact Hdb | apply threshold_exact]].
Qed.

(** ** The archive is closed, once *)

Lemma only_appends_keeps {A : Type} (c : M A) :
  keeps output_file c -> only_appends c.
Proof.
  intros Hk w ws Hout. exists []. rewrite Hk, app_nil_r. split; [exact Hout | intros []].
Qed.

Lemma only_appends_bind {A B : Type} (c : M A) (k : A -> M B) :
  only_appends c -> (forall a, only_appends (k a)) -> only_appends (bind c k).
Proof.
  intros Hc Hk w ws Hout. unfold bind.
  destruct (Hc w ws Hout) as (added1 & H1 & Hn1).
  destruct (c w) as [[a | e] w1]; cbn [snd] in H1 |- *.
  - destruct (Hk a w1 _ H1) as (added2 & H2 & Hn2).
    exists (added1 ++ added2)%list. rewrite app_assoc. split; [exact H2 |].
    intros Hin. apply in_app_or in Hin. tauto.
  - exists added1. split; assumption.
Qed.

Lemma only_appends_for_each {A : Type} (xs : list A) (body : A -> M unit) :
  (forall x, only_appends (body x)) -> only_appends (for_each xs body).
Proof.
  intros Hbody. induction xs as [| x xs IH]; cbn [for_each].
  - apply only_appends_keeps, keeps_ret.
  - apply only_appends_bind; [apply Hbody | intros _; exact IH].
Qed.

Lemma archive_append_only_appends (x : archive_write) :
  x <> write_close -> only_appends (TarGzFileBackupStrategy.archive_append x).
Proof.
  intros Hx w ws Hout.
  unfold TarGzFileBackupStrategy.archive_append, modify. cbn [snd].
  rewrite Hout. exists [x]. split; [reflexivity |].
  intros [H | []]. apply Hx. exact H.
Qed.

Ltac appends_by_syntax :=
  repeat match goal with
         | |- only_appends (bind _ _) => apply only_appends_bind; [ | intros ? ]
         | |- only_appends (for_each _ _) => apply only_appends_for_each; intros ?
         | |- only_appends (ret _) => apply only_appends_keeps, keeps_ret
         | |- only_appends (gets _) => apply only_appends_keeps, keeps_gets
         | |- only_appends (now _) => apply only_appends_keeps, now_keeps
         | |- only_appends (now_inner _ _ _) => apply only_appends_keeps, now_inner_keeps
         | |- only_appends (throw _) => apply only_appends_keeps, keeps_throw
         | |- only_appends (TarGzFileBackupStrategy.marker_exists _ _) =>
             apply only_appends_keeps, marker_exists_keeps
         | |- only_appends (gShutdownFlag _) => apply only_appends_keeps, flag_keeps
         | |- only_appends tick => apply only_appends_keeps, tick_keeps_output
         | |- only_appends (logFile _) => apply only_appends_keeps, logFile_keeps_output
         | |- only_appends (modify _) =>
             apply only_appends_keeps, keeps_modify; intros ?w; reflexivity
         | |- only_appends (TarGzFileBackupStrategy.archive_append _) =>
             apply archive_append_only_appends; discriminate
         | |- only_appends (match ?x with _ => _ end) => destruct x
         | |- only_appends (if ?b then _ else _) => destruct b
         | |- only_appends _ => solve [auto]
         end.

Section ArchiveWrites.

Variable env : Env.
Variable excl : list string.

Lemma copy_loop_only_appends (fuel : nat) :
  forall unread, only_appends (TarGzFileBackupStrategy.copy_loop env fuel unread).
Proof.
  induction fuel as [| fuel IH]; intros unread;
    cbn [TarGzFileBackupStrategy.copy_loop]; appends_by_syntax.
Qed.

Lemma archive_file_only_appends (dir : string) (it : DirEntry) :
  only_appends (TarGzFileBackupStrategy.archive_file env dir it).
Proof.
  pose proof copy_loop_only_appends as Hcopy.
  unfold TarGzFileBackupStrategy.archive_file. appends_by_syntax.
Qed.

Lemma backup_loop_only_appends (dir : string) (fullBackup : bool) (lastBackupTime : Z) :
  forall its,
    only_appends
      (TarGzFileBackupStrategy.backup_loop env excl dir fullBackup lastBackupTime its).
Proof.
  pose proof archive_file_only_appends as Hfile.
  induction its as [| [it | what] rest IH];
    cbn [TarGzFileBackupStrategy.backup_loop]; appends_by_syntax.
Qed.

Lemma run_threads_only_appends (sourceDirs : list string) (fullBackup : bool) :
  only_appends (TarGzFileBackupStrategy.run_threads env excl sourceDirs fullBackup).
Proof.
  pose proof backup_loop_only_appends as Hloop.
  unfold TarGzFileBackupStrategy.run_threads, TarGzFileBackupStrategy.backupDirectory.
  appends_by_syntax.
Qed.

(** Whatever the flag, the statements that follow the joins close the
    archive. *)
Lemma after_join_closes (outputFile : string) (wj : World) (ws : list archive_write) :
  output_file wj = Some ws ->
  output_file (snd (TarGzFileBackupStrategy.after_join env outputFile wj))
  = Some (ws ++ [write_close])%list.
Proof.
  intros Hout.
  unfold TarGzFileBackupStrategy.after_join.
  unfold bind at 1, gShutdownFlag, gets.
  destruct (flag_at env (steps wj)).
  - unfold TarGzFileBackupStrategy.archive_write_close,
      TarGzFileBackupStrategy.archive_append, logFile, tick, bind, modify, ret.
    cbn. rewrite Hout. reflexivity.
  - unfold TarGzFileBackupStrategy.archive_write_close,
      TarGzFileBackupStrategy.archive_append, logFile, tick, now, gets, bind, modify, ret.
    cbn. rewrite Hout. reflexivity.
Qed.

(** When at least one file is counted and the archive opens, the threads
    are started on an empty archive. *)
Lemma until_join_opens (sourceDirs : list string) (outputFile : string)
    (fullBackup : bool) (w : World) (n : nat) :
  create_directories_error env = None ->
  fst (TarGzFileBackupStrategy.countFiles env excl sourceDirs fullBackup w)
  = Returns (S n) ->
  write_open_error env = None ->
  exists wj added,
    TarGzFileBackupStrategy.until_join env excl sourceDirs outputFile fullBackup w
    = (Returns None, wj)
    /\ output_file wj = Some added
    /\ ~ In write_close added.
Proof.
  intros Hmk Hcount Hopen.
  pose proof Hcount as Hcount0.
  destruct (until_join_reaches_count env excl sourceDirs outputFile fullBackup w Hmk)
    as (w1 & Hm & _ & _ & _ & ->).
  rewrite (countFiles_result_indep env excl sourceDirs fullBackup w w1) in Hcount
    by (symmetry; exact Hm).
  destruct (TarGzFileBackupStrategy.countFiles env excl sourceDirs fullBackup w1)
    as [r w2] eqn:Hc. cbn [fst] in Hcount. subst r.
  rewrite (bind_returns _ _ _ _ _ Hc). cbn [Nat.eqb].
  erewrite (bind_returns (modify _)); [| reflexivity].
  assert (Hopened : TarGzFileBackupStrategy.archive_write_open_filename env
                      (with_processed 0 w2)
                    = (Returns None,
                       with_output (Some []) (with_steps (S (steps w2))
                                                (with_processed 0 w2)))).
  { unfold TarGzFileBackupStrategy.archive_write_open_filename.
    rewrite Hopen. reflexivity. }
  rewrite (bind_returns _ _ _ _ _ Hopened).
  match goal with
  | |- context [bind (TarGzFileBackupStrategy.run_threads env excl sourceDirs fullBackup)
                  _ ?w'] =>
      destruct (run_threads_never_throws env excl sourceDirs fullBackup
                  (countFiles_returns_statuses env excl sourceDirs fullBackup w (S n)
                     Hcount0) w') as [[] Hrun];
      destruct (run_threads_only_appends sourceDirs fullBackup w' [] eq_refl)
        as (added & Hadded & Hnone);
      destruct (TarGzFileBackupStrategy.run_threads env excl sourceDirs fullBackup w')
        as [r3 w3] eqn:Hthreads
  end.
  cbn [fst snd] in Hrun, Hadded. subst r3.
  rewrite (bind_returns _ _ _ _ _ Hthreads).
  exists w3, added. split; [reflexivity |]. split; [exact Hadded | exact Hnone].
Qed.

End ArchiveWrites.

(** The archive is always closed, and only once.  Whenever the threads
    were started (the output directory was created, at least one file was
    counted, the archive opened), [execute] leaves at the output path what
    the threads wrote followed by the closing of the archive; the threads
    never close it themselves.  This holds for a run that completes and for
    one that is interrupted. *)
Theorem archive_is_closed_once :
  forall (env : Env) (excl sourceDirs : list string) (outputFile : string)
         (fullBackup : bool) (w : World) (n : nat),
    create_directories_error env = None ->
    fst (TarGzFileBackupStrategy.countFiles env excl sourceDirs fullBackup w)
    = Returns (S n) ->
    write_open_error env = None ->
    exists body,
      output_file
        (snd (TarGzFileBackupStrategy.execute env excl sourceDirs outputFile fullBackup w))
      = Some (body ++ [write_close])%list
      /\ ~ In write_close body.
Proof.
  intros env excl sourceDirs outputFile fullBackup w n Hmk Hcount Hopen.
  destruct (until_join_opens env excl sourceDirs outputFile fullBackup w n
              Hmk Hcount Hopen) as (wj & body & Huj & Hout & Hnone).
  exists body. split; [| exact Hnone].
  unfold TarGzFileBackupStrategy.execute.
  rewrite (bind_returns _ _ _ _ _ Huj).
  apply after_join_closes. exact Hout.
Qed.

Lemma archive_is_closed_once_witness :
  exists body,
    output_file
      (snd (TarGzFileBackupStrategy.execute
              (Scenario.calm None (Scenario.srv [Visit Scenario.a_txt]))
              [".tmp"] ["/srv"] "/backups/sys/sys-daily-15-20240315-100000.tar.gz"
              false (Scenario.start (Some "3") None None)))
    = Some (body ++ [write_close])%list
    /\ ~ In write_close body.
Proof.
  apply (archive_is_closed_once
           (Scenario.calm None (Scenario.srv [Visit Scenario.a_txt]))
           [".tmp"] ["/srv"] "/backups/sys/sys-daily-15-20240315-100000.tar.gz"
           false (Scenario.start (Some "3") None None) 0%nat);
    reflexivity.
Defined.

(** ** An incremental run after a run *)

Lemma read_written_marker (t : Z) :
  - 9223372036 <= t <= 9223372036 ->
  TarGzFileBackupStrategy.read_lastBackupTime false (Some (CStr.show_long t))
  = Chrono.from_time_t t.
Proof.
  intros Hfit.
  assert (Hrange : CStr.LONG_MIN <= t <= CStr.LONG_MAX).
  { unfold CStr.LONG_MIN, CStr.LONG_MAX.
    change (2 ^ 63) with 9223372036854775808. lia. }
  unfold TarGzFileBackupStrategy.read_lastBackupTime. cbn [negb].
  destruct (getline_show_long t) as [Hline Hne].
  rewrite Hline, (eqb_empty_false _ Hne). cbn [negb].
  rewrite (stol_show_long t Hrange). apply marker_seconds_fit. exact Hfit.
Qed.

Section NothingSelected.

Variable env : Env.
Variable excl : list string.

(** A traversal none of whose entries passes the tests leaves the counter
    as it was, whether or not it meets a filesystem error. *)
Lemma count_loop_none_selected (fullBackup : bool) (marker : Z) :
  forall its count w,
    (forall it, In (Visit it) its ->
                selects env counting excl fullBackup marker it = false) ->
    exists err,
      fst (TarGzFileBackupStrategy.count_loop env excl fullBackup marker its count w)
      = Returns (count, err).
Proof.
  induction its as [| [it | what] rest IH]; intros count w Hnone.
  - exists None. reflexivity.
  - assert (Hrest : forall it', In (Visit it') rest ->
                                selects env counting excl fullBackup marker it' = false).
    { intros it' Hin. apply Hnone. right. exact Hin. }
    pose proof (Hnone it (or_introl eq_refl)) as Hit.
    unfold selects in Hit.
    destruct (is_regular_file it) eqn:Hreg; cbn [andb] in Hit.
    + destruct (last_write_time it) as [lastWrite |] eqn:Htime.
      * rewrite (count_loop_step env excl fullBackup marker it lastWrite rest count w
                   Hreg Htime).
        rewrite Hit. apply IH. exact Hrest.
      * cbn [TarGzFileBackupStrategy.count_loop].
        unfold bind at 1, tick, modify. rewrite Hreg, Htime.
        destruct (TarGzFileBackupStrategy.isExcluded excl (Path.extension (path it)));
          cbn [negb andb]; [apply IH; exact Hrest | eexists; reflexivity].
    + cbn [TarGzFileBackupStrategy.count_loop].
      unfold bind at 1, tick, modify. rewrite Hreg. cbn [andb].
      apply IH. exact Hrest.
  - eexists. reflexivity.
Qed.

Lemma count_dirs_none_selected (fullBackup : bool) (marker : Z) :
  forall sourceDirs count w,
    (forall dir, In dir sourceDirs -> status_error env dir = None) ->
    (forall dir its it,
        In dir sourceDirs -> listing env dir = Some its -> In (Visit it) its ->
        selects env counting excl fullBackup marker it = false) ->
    fst (TarGzFileBackupStrategy.count_dirs env excl fullBackup marker sourceDirs count w)
    = Returns count.
Proof.
  induction sourceDirs as [| dir rest IH]; intros count w Hst Hnone; [reflexivity |].
  assert (Hst_rest : forall d, In d rest -> status_error env d = None).
  { intros d Hd. apply Hst. right. exact Hd. }
  assert (Hrest : forall dir' its it,
             In dir' rest -> listing env dir' = Some its -> In (Visit it) its ->
             selects env counting excl fullBackup marker it = false).
  { intros dir' its it Hin. apply Hnone. right. exact Hin. }
  cbn [TarGzFileBackupStrategy.count_dirs].
  rewrite (Hst dir (or_introl eq_refl)).
  destruct (listing env dir) as [its |] eqn:Hls; [| apply IH; assumption].
  destruct (count_loop_none_selected fullBackup marker its count w) as [err Hloop].
  { intros it Hin. apply (Hnone dir its it); [left; reflexivity | exact Hls | exact Hin]. }
  destruct (TarGzFileBackupStrategy.count_loop env excl fullBackup marker its count w)
    as [r w1] eqn:Hrun.
  cbn [fst] in Hloop. subst r.
  rewrite (bind_returns _ _ _ _ _ Hrun). cbn [fst]. apply IH; assumption.
Qed.

End NothingSelected.

(** An incremental run that finds nothing newer than the marker.  When the
    marker file holds the second [M] that a completed run wrote into it
    (a second whose count of nanoseconds fits in 64 bits), the status of
    the marker file and of the source directories can be read, and the
    file time the program computes for every file of the source
    directories (its last-modified time plus the gap between the two
    readings of the clock) is not after that second, an incremental run
    counts no file and ends with success: it writes no archive and leaves
    the marker file as it is. *)
Theorem unchanged_files_are_not_backed_up_again :
  forall (env : Env) (excl sourceDirs : list string) (outputFile : string)
         (w : World) (M : Z),
    create_directories_error env = None ->
    statuses_readable env false sourceDirs ->
    - 9223372036 <= M <= 9223372036 ->
    last_backup_file w = Some (CStr.show_long M) ->
    (forall dir its it modified,
        In dir sourceDirs -> listing env dir = Some its -> In (Visit it) its ->
        last_write_time it = Some modified ->
        file_time env counting (path it) modified <= Chrono.from_time_t M) ->
    fst (TarGzFileBackupStrategy.countFiles env excl sourceDirs false w) = Returns 0%nat
    /\ fst (TarGzFileBackupStrategy.execute env excl sourceDirs outputFile false w)
       = Returns (Value tt)
    /\ output_file
         (snd (TarGzFileBackupStrategy.execute env excl sourceDirs outputFile false w))
       = output_file w
    /\ marker_state
         (snd (TarGzFileBackupStrategy.execute env excl sourceDirs outputFile false w))
       = marker_state w.
Proof.
  intros env excl sourceDirs outputFile w M Hmk [Hm Hst] Hrange Hmarker Hold.
  assert (Hcount : fst (TarGzFileBackupStrategy.countFiles env excl sourceDirs false w)
                   = Returns 0%nat).
  { unfold TarGzFileBackupStrategy.countFiles, TarGzFileBackupStrategy.marker_exists.
    rewrite (Hm eq_refl).
    rewrite (bind_returns (ret tt) _ w w tt eq_refl).
    rewrite (bind_returns (gets last_backup_file) _ w w (last_backup_file w) eq_refl).
    rewrite Hmarker, (read_written_marker M Hrange).
    apply count_dirs_none_selected; [exact Hst |].
    intros dir its it Hdir Hls Hin. unfold selects.
    destruct (last_write_time it) as [modified |] eqn:Htime.
    - pose proof (Hold dir its it modified Hdir Hls Hin Htime) as Hle.
      cbn [orb].
      replace (file_time env counting (path it) modified >? Chrono.from_time_t M)
        with false.
      + apply andb_false_r.
      + symmetry. rewrite Z.gtb_ltb. apply Z.ltb_ge. exact Hle.
    - apply andb_false_r. }
  split; [exact Hcount |].
  apply zero_count_run; assumption.
Qed.

Lemma unchanged_files_are_not_backed_up_again_witness :
  fst (TarGzFileBackupStrategy.countFiles
         (Scenario.calm None (Scenario.srv [Visit Scenario.a_txt; Visit Scenario.readme]))
         [".tmp"] ["/srv"] false (Scenario.start (Some "6") None None))
  = Returns 0%nat
  /\ fst (TarGzFileBackupStrategy.execute
            (Scenario.calm None
               (Scenario.srv [Visit Scenario.a_txt; Visit Scenario.readme]))
            [".tmp"] ["/srv"] "/backups/sys/sys-daily-15-20240315-100000.tar.gz"
            false (Scenario.start (Some "6") None None))
     = Returns (Value tt)
  /\ output_file
       (snd (TarGzFileBackupStrategy.execute
               (Scenario.calm None
                  (Scenario.srv [Visit Scenario.a_txt; Visit Scenario.readme]))
               [".tmp"] ["/srv"] "/backups/sys/sys-daily-15-20240315-100000.tar.gz"
               false (Scenario.start (Some "6") None None)))
     = output_file (Scenario.start (Some "6") None None)
  /\ marker_state
       (snd (TarGzFileBackupStrategy.execute
               (Scenario.calm None
                  (Scenario.srv [Visit Scenario.a_txt; Visit Scenario.readme]))
               [".tmp"] ["/srv"] "/backups/sys/sys-daily-15-20240315-100000.tar.gz"
               false (Scenario.start (Some "6") None None)))
     = marker_state (Scenario.start (Some "6") None None).
Proof.
  apply (unchanged_files_are_not_backed_up_again
           (Scenario.calm None
              (Scenario.srv [Visit Scenario.a_txt; Visit Scenario.readme]))
           [".tmp"] ["/srv"] "/backups/sys/sys-daily-15-20240315-100000.tar.gz"
           (Scenario.start (Some "6") None None) 6).
  - reflexivity.
  - split; [intros _; reflexivity | intros dir _; reflexivity].
  - lia.
  - reflexivity.
  - intros dir its it modified [<- | []] Hls Hin Hmod.
    vm_compute in Hls. injection Hls as <-.
    destruct Hin as [Hit | [Hit | []]]; injection Hit as <-;
      vm_compute in Hmod; injection Hmod as <-; vm_compute; discriminate.
Defined.

(** ** The database strategies *)

Lemma copy_blocks_appends (fuel : nat) :
  forall unread written,
    (List.length unread < fuel * TarGzFileBackupStrategy.buf_size)%nat ->
    copy_blocks fuel unread written = (written ++ unread)%list.
Proof.
  induction fuel as [| fuel IH]; intros unread written Hlen.
  - cbn in Hlen. lia.
  - cbn [copy_blocks].
    destruct (List.length unread <? TarGzFileBackupStrategy.buf_size)%nat eqn:Hshort.
    + apply Nat.ltb_lt in Hshort.
      rewrite firstn_all2 by lia. reflexivity.
    + apply Nat.ltb_ge in Hshort.
      rewrite IH.
      * rewrite <- app_assoc, firstn_skipn. reflexivity.
      * rewrite length_skipn. cbn [Nat.mul] in Hlen. lia.
Qed.

(** The loop copies the whole stream. *)
Lemma copy_stream_whole (input : option (list byte)) :
  copy_stream input = match input with
                      | Some bytes => bytes
                      | None => []
                      end.
Proof.
  destruct input as [bytes |]; [| reflexivity].
  unfold copy_stream. rewrite copy_blocks_appends; [reflexivity |].
  apply reads_needed_enough.
Qed.

Lemma sql_is_not_sql_gz (p : string) :
  String.eqb (p ++ ".sql.gz") (p ++ ".sql") = false.
Proof.
  induction p as [| c p IH].
  - reflexivity.
  - cbn [append String.eqb]. rewrite Ascii.eqb_refl. exact IH.
Qed.

Section Dumps.

Variable host : DatabaseBackup.Host.

Lemma dump_and_compress_value (command failed outputPath : string)
    (d d' : DatabaseBackup.Disk) (f : string) :
  DatabaseBackup.dump_and_compress host command failed outputPath d
  = (Returns (Value f), d') ->
  f = outputPath ++ ".sql.gz"
  /\ DatabaseBackup.files d' (outputPath ++ ".sql") = None
  /\ DatabaseBackup.commands d' = (DatabaseBackup.commands d ++ [command])%list
  /\ exists left,
       DatabaseBackup.system host command (DatabaseBackup.files d) = (0, left)
       /\ DatabaseBackup.files d' f
          = Some match left (outputPath ++ ".sql") with
                 | Some bytes => bytes
                 | None => []
                 end
       /\ forall q, String.eqb q f = false ->
                    String.eqb q (outputPath ++ ".sql") = false ->
                    DatabaseBackup.files d' q = left q.
Proof.
  unfold DatabaseBackup.dump_and_compress.
  destruct (DatabaseBackup.mkdir_error host _); [discriminate |].
  destruct (DatabaseBackup.system host command (DatabaseBackup.files d))
    as [status left] eqn:Hsys.
  destruct (status =? 0) eqn:Hstatus; cbn [negb]; [| discriminate].
  apply Z.eqb_eq in Hstatus. subst status.
  destruct (DatabaseBackup.gzopen_fails host _).
  - unfold DatabaseBackup.fs_remove.
    destruct (DatabaseBackup.unlink_error host _); discriminate.
  - rewrite copy_stream_whole.
    unfold DatabaseBackup.fs_remove.
    destruct (DatabaseBackup.unlink_error host _); [discriminate |].
    intros H. injection H as <- <-.
    cbn [DatabaseBackup.files DatabaseBackup.commands].
    unfold remove_file, write_file.
    rewrite String.eqb_refl, sql_is_not_sql_gz, String.eqb_refl.
    repeat split.
    exists left. split; [reflexivity |]. split.
    + reflexivity.
    + intros q Hq1 Hq2. rewrite Hq2, Hq1. reflexivity.
Qed.

End Dumps.

(** A dump that succeeds.  Whenever a strategy returns a path, the path is
    the output path followed by [.sql.gz]; exactly one command was run, it
    exited with status zero, and the archive holds every byte the command
    left in the temporary [.sql] file (nothing, when it left no such
    file); the temporary file is gone and no other file was touched by the
    strategy. *)
Theorem completed_dump_holds_whole_output :
  forall (host : DatabaseBackup.Host) (s : DatabaseBackup.Strategy)
         (outputPath : string) (d d' : DatabaseBackup.Disk) (f : string),
    DatabaseBackup.execute host s outputPath d = (Returns (Value f), d') ->
    f = outputPath ++ ".sql.gz"
    /\ DatabaseBackup.files d' (outputPath ++ ".sql") = None
    /\ exists command left,
         DatabaseBackup.commands d' = (DatabaseBackup.commands d ++ [command])%list
         /\ DatabaseBackup.system host command (DatabaseBackup.files d) = (0, left)
         /\ DatabaseBackup.files d' f
            = Some match left (outputPath ++ ".sql") with
                   | Some bytes => bytes
                   | None => []
                   end
         /\ forall q, String.eqb q f = false ->
                      String.eqb q (outputPath ++ ".sql") = false ->
                      DatabaseBackup.files d' q = left q.
Proof.
  intros host s outputPath d d' f Hrun.
  destruct s as [user password | user password pg_host port];
    cbn [DatabaseBackup.execute] in Hrun.
  - unfold DatabaseBackup.mysql_execute in Hrun.
    destruct (_ || _) in Hrun; [discriminate |].
    destruct (dump_and_compress_value host _ _ _ _ _ _ Hrun)
      as (Hf & Htemp & Hcmd & left & Hsys & Hgz & Hrest).
    repeat split; try assumption.
    eexists. exists left. repeat split; eassumption.
  - unfold DatabaseBackup.postgresql_execute in Hrun.
    destruct (_ || _) in Hrun; [discriminate |].
    destruct (dump_and_compress_value host _ _ _ _ _ _ Hrun)
      as (Hf & Htemp & Hcmd & left & Hsys & Hgz & Hrest).
    repeat split; try assumption.
    eexists. exists left. repeat split; eassumption.
Qed.

Lemma completed_dump_holds_whole_output_witness :
  "/backups/db/all.sql.gz" = "/backups/db/all" ++ ".sql.gz"
  /\ DatabaseBackup.files
       (snd (DatabaseBackup.execute (Site.host [x61; x62])
               (DatabaseBackup.MySQL "root" None) "/backups/db/all" Site.blank))
       ("/backups/db/all" ++ ".sql") = None
  /\ exists command left,
       DatabaseBackup.commands
         (snd (DatabaseBackup.execute (Site.host [x61; x62])
                 (DatabaseBackup.MySQL "root" None) "/backups/db/all" Site.blank))
       = (DatabaseBackup.commands Site.blank ++ [command])%list
       /\ DatabaseBackup.system (Site.host [x61; x62]) command
            (DatabaseBackup.files Site.blank) = (0, left)
       /\ DatabaseBackup.files
            (snd (DatabaseBackup.execute (Site.host [x61; x62])
                    (DatabaseBackup.MySQL "root" None) "/backups/db/all" Site.blank))
            "/backups/db/all.sql.gz"
          = Some match left ("/backups/db/all" ++ ".sql") with
                 | Some bytes => bytes
                 | None => []
                 end
       /\ forall q, String.eqb q "/backups/db/all.sql.gz" = false ->
                    String.eqb q ("/backups/db/all" ++ ".sql") = false ->
                    DatabaseBackup.files
                      (snd (DatabaseBackup.execute (Site.host [x61; x62])
                              (DatabaseBackup.MySQL "root" None) "/backups/db/all"
                              Site.blank)) q
                    = left q.
Proof.
  apply (completed_dump_holds_whole_output (Site.host [x61; x62])
           (DatabaseBackup.MySQL "root" None) "/backups/db/all" Site.blank
           (snd (DatabaseBackup.execute (Site.host [x61; x62])
                   (DatabaseBackup.MySQL "root" None) "/backups/db/all" Site.blank))
           "/backups/db/all.sql.gz").
  reflexivity.
Defined.

(** Credentials that are not complete.  When the first database of the
    configuration has an empty user, a password that is present and empty,
    or, for PostgreSQL, an empty host or a port that is not positive, the
    strategy made from it returns an error and leaves the disk as it was:
    no directory is created and no command is run. *)
Theorem incomplete_credentials_never_dump :
  forall (host : DatabaseBackup.Host) (db : DatabaseBackup.DatabaseConfig)
         (rest : list DatabaseBackup.DatabaseConfig) (s : DatabaseBackup.Strategy)
         (outputPath : string) (d : DatabaseBackup.Disk),
    DatabaseBackup.make_strategy (db :: rest) = Returns s ->
    DatabaseBackup.db_user db = ""
    \/ DatabaseBackup.db_password db = Some ""
    \/ (DatabaseBackup.db_type db = "postgresql"
        /\ (DatabaseBackup.db_host db = "" \/ DatabaseBackup.db_port db <= 0)) ->
    exists msg,
      DatabaseBackup.execute host s outputPath d = (Returns (Unexpected msg), d).
Proof.
  intros host db rest s outputPath d Hmake Hbad.
  cbn [DatabaseBackup.make_strategy] in Hmake.
  destruct (String.eqb (DatabaseBackup.db_type db) "mysql") eqn:Hmysql.
  - injection Hmake as <-. cbn [DatabaseBackup.execute].
    unfold DatabaseBackup.mysql_execute.
    destruct Hbad as [Hu | [Hp | [Ht _]]].
    + rewrite Hu. cbn. eexists. reflexivity.
    + rewrite Hp. cbn. rewrite orb_true_r. eexists. reflexivity.
    + rewrite Ht in Hmysql. discriminate Hmysql.
  - destruct (String.eqb (DatabaseBackup.db_type db) "postgresql"); [| discriminate].
    injection Hmake as <-. cbn [DatabaseBackup.execute].
    unfold DatabaseBackup.postgresql_execute.
    destruct Hbad as [Hu | [Hp | [_ [Hh | Hport]]]].
    + rewrite Hu. cbn. eexists. reflexivity.
    + rewrite Hp. cbn. rewrite orb_true_r. cbn. eexists. reflexivity.
    + rewrite Hh. cbn. rewrite orb_true_r. cbn. eexists. reflexivity.
    + apply Z.leb_le in Hport. rewrite Hport. rewrite orb_true_r. eexists. reflexivity.
Qed.

Lemma incomplete_credentials_never_dump_witness :
  exists msg,
    DatabaseBackup.execute (Site.host []) (DatabaseBackup.MySQL "" None)
      "/backups/db/all" Site.blank
    = (Returns (Unexpected msg), Site.blank).
Proof.
  apply (incomplete_credentials_never_dump (Site.host []) Site.anonymous []
           (DatabaseBackup.MySQL "" None) "/backups/db/all" Site.blank).
  - reflexivity.
  - left. reflexivity.
Defined.

(** ** The transfer *)

(** What a transfer leaves on the server.  A transfer that succeeds has
    handed every byte of the local file to the remote file, whose path is
    the remote path followed by [/] and the name of the local file, and has
    touched no other file of the server.  A transfer that fails leaves the
    server as it was, but for one failure: when the local file cannot be
    opened, the remote file has already been created, or emptied, and
    stays empty. *)
Theorem transfer_uploads_whole_file :
  forall (server : SFTPTransferStrategy.Server) (password_ : string) (local : Files)
         (local_file remote_path : string) (remote : Files),
    match SFTPTransferStrategy.transfer server password_ local local_file remote_path
            remote with
    | (Value _, remote') =>
        remote' (SFTPTransferStrategy.remote_file local_file remote_path)
        = local local_file
        /\ local local_file <> None
        /\ (forall q,
               String.eqb q (SFTPTransferStrategy.remote_file local_file remote_path)
               = false ->
               remote' q = remote q)
    | (Unexpected e, remote') =>
        (e = "Failed to open local file"
         /\ local local_file = None
         /\ remote' (SFTPTransferStrategy.remote_file local_file remote_path) = Some []
         /\ (forall q,
                String.eqb q (SFTPTransferStrategy.remote_file local_file remote_path)
                = false ->
                remote' q = remote q))
        \/ (e <> "Failed to open local file" /\ remote' = remote)
    end.
Proof.
  intros server password_ local local_file remote_path remote.
  unfold SFTPTransferStrategy.transfer.
  destruct (SFTPTransferStrategy.ssh_new_fails server).
  { right. split; [discriminate | reflexivity]. }
  destruct (SFTPTransferStrategy.ssh_connect_ok server); cbn [negb];
    [| right; split; [discriminate | reflexivity]].
  assert (Hauth : forall e : string,
             (if String.eqb password_ ""
              then if negb (SFTPTransferStrategy.publickey_ok server)
                   then Some "SSH authentication failed" else None
              else if negb (SFTPTransferStrategy.password_ok server password_)
                   then Some "SSH password authentication failed" else None)
             = Some e ->
             e <> "Failed to open local file").
  { intros e. destruct (String.eqb password_ ""), (negb _);
      intros H; try discriminate H; injection H as <-; discriminate. }
  destruct (if String.eqb password_ "" then _ else _) as [e |].
  { right. split; [apply Hauth; reflexivity | reflexivity]. }
  destruct (SFTPTransferStrategy.sftp_ok server); cbn [negb];
    [| right; split; [discriminate | reflexivity]].
  destruct (SFTPTransferStrategy.remote_opens server _); cbn [negb];
    [| right; split; [discriminate | reflexivity]].
  destruct (local local_file) as [bytes |] eqn:Hlocal.
  - rewrite copy_stream_whole. unfold write_file.
    rewrite String.eqb_refl. split; [reflexivity |]. split; [discriminate |].
    intros q Hq. rewrite Hq. reflexivity.
  - left. unfold write_file. rewrite String.eqb_refl.
    split; [reflexivity |]. split; [reflexivity |]. split; [reflexivity |].
    intros q Hq. rewrite Hq. reflexivity.
Qed.

(** ** An unknown backup type *)

(** [Backup::execute] refuses a type other than [daily], [monthly] and
    [yearly] before doing anything: it returns the usage error, and the
    only trace of the call is one line in the error log. *)
Theorem unknown_backup_type_is_refused :
  forall (env : Env) (config : BackupConfig) (type : string) (fullBackup : bool)
         (w : World),
    type <> "daily" -> type <> "monthly" -> type <> "yearly" ->
    Backup.execute env config type fullBackup w
    = (Returns (Unexpected "Invalid backup type. Use daily, monthly, or yearly."),
       with_errors (error_lines w ++ ["Invalid backup type: " ++ type]) w).
Proof.
  intros env config type fullBackup w Hd Hm Hy.
  apply execute_refuses; assumption.
Qed.

Lemma unknown_backup_type_is_refused_witness :
  Backup.execute (Scenario.calm None (Scenario.srv []))
    (Scenario.config "weekly" "02:30:00" 1) "weekly" false
    (Scenario.start None None None)
  = (Returns (Unexpected "Invalid backup type. Use daily, monthly, or yearly."),
     with_errors (error_lines (Scenario.start None None None)
                  ++ ["Invalid backup type: " ++ "weekly"])
       (Scenario.start None None None)).
Proof.
  apply (unknown_backup_type_is_refused (Scenario.calm None (Scenario.srv []))
           (Scenario.config "weekly" "02:30:00" 1) "weekly" false
           (Scenario.start None None None)); discriminate.
Defined.

(** ** The daemon *)

Section DaemonLoop.

Variable env : Env.
Variable config : BackupConfig.



(** Sleeping: one step per second, until the seconds are over or the flag
    is set.  Nothing but the step counter changes. *)
Lemma sleep_loop_run (remaining : nat) :
  forall w,
    exists n,
      Daemon.sleep_loop env remaining w = (Returns tt, with_steps (steps w + n) w)
      /\ (n <= remaining)%nat
      /\ (forall k, (k < n)%nat -> flag_at env (steps w + k) = false)
      /\ ((n < remaining)%nat -> flag_at env (steps w + n) = true).
Proof.
  induction remaining as [| remaining IH]; intros w.
  - exists 0%nat. cbn [Daemon.sleep_loop]. unfold ret.
    rewrite Nat.add_0_r. destruct w. repeat split; try lia.
  - cbn [Daemon.sleep_loop]. unfold bind at 1, gShutdownFlag, gets.
    destruct (flag_at env (steps w)) eqn:Hflag.
    + exists 0%nat. unfold ret. rewrite Nat.add_0_r. destruct w.
      repeat split; try lia. intros _. exact Hflag.
    + unfold bind at 1, tick, modify.
      destruct (IH (with_steps (S (steps w)) w)) as (n & Hrun & Hle & Hbefore & Hstop).
      exists (S n). rewrite Hrun. cbn [steps with_steps].
      repeat split.
      * f_equal. destruct w. unfold with_steps. cbn. f_equal. lia.
      * lia.
      * intros k Hk. destruct k as [| k].
        -- rewrite Nat.add_0_r. exact Hflag.
        -- replace (steps w + S k)%nat with (S (steps w) + k)%nat by lia.
           apply Hbefore. lia.
      * intros Hlt. replace (steps w + S n)%nat with (S (steps w) + n)%nat by lia.
        apply Hstop. lia.
Qed.

Lemma sleep_loop_keeps_durable (remaining : nat) :
  keeps durable (Daemon.sleep_loop env remaining).
Proof.
  intros w. destruct (sleep_loop_run remaining w) as (n & Hrun & _).
  rewrite Hrun. reflexivity.
Qed.

Lemma logMessage_keeps_durable (msg : string) : keeps durable (Backup.logMessage msg).
Proof. apply keeps_modify. reflexivity. Qed.

Lemma logError_keeps_durable (msg : string) : keeps durable (Backup.logError msg).
Proof. apply keeps_modify. reflexivity. Qed.

Lemma notify_keeps_durable (msg : string) : keeps durable (Backup.notify config msg).
Proof.
  unfold Backup.notify. destruct (notificationStrategy config).
  - apply keeps_modify. reflexivity.
  - apply keeps_ret.
Qed.

Lemma tick_keeps_durable : keeps durable tick.
Proof. apply keeps_modify. reflexivity. Qed.

(** Computing the next backup time touches nothing but the logs. *)
Lemma getNextBackupTime_keeps_durable :
  keeps durable (Backup.getNextBackupTime env config).
Proof.
  pose proof logMessage_keeps_durable as Hlog.
  pose proof logError_keeps_durable as Herr.
  unfold Backup.getNextBackupTime, Backup.invalid_schedule_time. frame_by_syntax.
Qed.

(** [getNextBackupTime] returns only for the three schedule types it
    knows. *)
Lemma getNextBackupTime_returns_known_type (w : World) (t : Chrono.time_point) :
  fst (Backup.getNextBackupTime env config w) = Returns t ->
  scheduleType config = "daily" \/ scheduleType config = "weekly"
  \/ scheduleType config = "monthly".
Proof.
  unfold Backup.getNextBackupTime.
  unfold bind at 1, now, gets.
  destruct (Backup.parse_schedule_time (scheduleTime config)) as [[[h m] s] |];
    [| intros H; discriminate H].
  destruct (_ || _); [intros H; discriminate H |].
  destruct (Calendar.mktime env _) as [t0 tmNext].
  unfold bind at 1, Backup.logMessage at 1, modify.
  destruct (String.eqb (scheduleType config) "daily") eqn:Hd.
  { intros _. left. apply String.eqb_eq. exact Hd. }
  destruct (String.eqb (scheduleType config) "weekly") eqn:Hw.
  { intros _. right. left. apply String.eqb_eq. exact Hw. }
  destruct (String.eqb (scheduleType config) "monthly") eqn:Hm.
  { intros _. right. right. apply String.eqb_eq. exact Hm. }
  intros H. discriminate H.
Qed.

(** A round of a daemon whose schedule type is neither [daily] nor
    [monthly]. *)
Lemma round_keeps_durable :
  scheduleType config <> "daily" -> scheduleType config <> "monthly" ->
  keeps durable (Daemon.round env config).
Proof.
  intros Hd Hm.
  pose proof logMessage_keeps_durable as Hlog.
  pose proof logError_keeps_durable as Herr.
  pose proof notify_keeps_durable as Hnotify.
  pose proof tick_keeps_durable as Htick.
  pose proof sleep_loop_keeps_durable as Hsleep.
  unfold Daemon.round.
  apply keeps_try_catch; [| intros e; unfold Daemon.recover; frame_by_syntax].
  intros w. unfold Daemon.attempt. unfold bind at 1.
  pose proof (getNextBackupTime_keeps_durable w) as Hnext.
  pose proof (getNextBackupTime_returns_known_type w) as Htype.
  destruct (Backup.getNextBackupTime env config w) as [[nextBackup | e] w1];
    cbn [fst snd] in Hnext, Htype |- *; [| exact Hnext].
  destruct (Htype nextBackup eq_refl) as [H | [H | H]]; [contradiction | | contradiction].
  rewrite <- Hnext.
  assert (Hexec : keeps durable (Backup.execute env config (scheduleType config) false)).
  { intros w'. rewrite H.
    rewrite execute_refuses by discriminate. reflexivity. }
  assert (Hrest : keeps durable (Daemon.pace env config nextBackup)).
  { unfold Daemon.pace, Daemon.sleep_until, Daemon.backup_now. frame_by_syntax. }
  apply Hrest.
Qed.

End DaemonLoop.


(** Sleeping is interruptible.  A sleep of [remaining] seconds takes one
    step per second and changes nothing else; it ends after [remaining]
    steps, or earlier at the first step at which the flag is set. *)
Theorem sleep_ends_with_signal :
  forall (env : Env) (remaining : nat) (w : World),
    exists n,
      Daemon.sleep_loop env remaining w = (Returns tt, with_steps (steps w + n) w)
      /\ (n <= remaining)%nat
      /\ (forall k, (k < n)%nat -> flag_at env (steps w + k) = false)
      /\ ((n < remaining)%nat -> flag_at env (steps w + n) = true).
Proof. intros env remaining w. apply sleep_loop_run. Qed.

(** A daemon whose schedule type is neither [daily] nor [monthly] never
    backs anything up.  For any other type [getNextBackupTime] throws
    or, for [weekly], [execute] refuses the type: whatever the number of
    rounds, the marker file, the archive, the retention folders, the
    transfers and the ownerships are as they were. *)
Theorem daemon_needs_daily_or_monthly :
  forall (env : Env) (config : BackupConfig) (log_directory_error : option string)
         (log_opens : bool) (fuel : nat) (w : World),
    scheduleType config <> "daily" ->
    scheduleType config <> "monthly" ->
    durable (snd (Daemon.runDaemon env config log_directory_error log_opens fuel w))
    = durable w.
Proof.
  intros env config log_directory_error log_opens fuel w Hd Hm.
  pose proof (round_keeps_durable env config Hd Hm) as Hround.
  pose proof (logMessage_keeps_durable) as Hlog.
  pose proof tick_keeps_durable as Htick.
  assert (Hloop : forall n, keeps durable (Daemon.loop env config n)).
  { induction n as [| n IH]; cbn [Daemon.loop]; frame_by_syntax. }
  assert (H : keeps durable
                (Daemon.runDaemon env config log_directory_error log_opens fuel)).
  { unfold Daemon.runDaemon. frame_by_syntax. }
  apply H.
Qed.

Lemma daemon_needs_daily_or_monthly_witness :
  durable
    (snd (Daemon.runDaemon (Scenario.calm None (Scenario.srv [Visit Scenario.a_txt]))
            (Scenario.config "weekly" "10:00:00" 1) None true 3
            (Scenario.start None None None)))
  = durable (Scenario.start None None None).
Proof.
  apply (daemon_needs_daily_or_monthly
           (Scenario.calm None (Scenario.srv [Visit Scenario.a_txt]))
           (Scenario.config "weekly" "10:00:00" 1) None true 3
           (Scenario.start None None None)); discriminate.
Defined.

Section DaemonRound.

Variable env : Env.
Variable config : BackupConfig.

(** The pacing of a round: the world [w2] in which it sleeps or starts the
    backup differs from the one it started in by one step and by log
    lines. *)
Lemma pace_run (next : Chrono.time_point) (w1 : World) :
  exists w2,
    w2 = with_log (log_lines w2) (with_steps (S (steps w1)) w1)
    /\ Daemon.pace env config next w1
       = if flag_at env (S (steps w1)) then (Returns false, w2)
         else if Z.quot (next - clock env (S (steps w1))) Chrono.nanos_per_second >? 0
              then Daemon.sleep_until env
                     (Z.quot (next - clock env (S (steps w1))) Chrono.nanos_per_second)
                     (Calendar.show_tm (Calendar.localtime env (Chrono.to_time_t next)))
                     w2
              else Daemon.backup_now env config w2.
Proof.
  unfold Daemon.pace.
  rewrite (bind_returns tick _ w1 (with_steps (S (steps w1)) w1) tt eq_refl).
  rewrite (bind_returns (now env) _ (with_steps (S (steps w1)) w1)
             (with_steps (S (steps w1)) w1) (clock env (S (steps w1))) eq_refl).
  cbv zeta.
  erewrite (bind_returns (Backup.logMessage _)); [| reflexivity].
  erewrite (bind_returns (Backup.logMessage _)); [| reflexivity].
  erewrite (bind_returns (Backup.logMessage _)); [| reflexivity].
  match goal with
  | |- context [bind (gShutdownFlag env) _ ?w'] => set (w2 := w')
  end.
  assert (Hsteps : steps w2 = S (steps w1)) by reflexivity.
  assert (Hw2 : w2 = with_log (log_lines w2) (with_steps (S (steps w1)) w1))
    by reflexivity.
  clearbody w2. exists w2. split; [exact Hw2 |].
  assert (Hflag2 : gShutdownFlag env w2 = (Returns (flag_at env (S (steps w1))), w2)).
  { unfold gShutdownFlag, gets. rewrite Hsteps. reflexivity. }
  rewrite (bind_returns _ _ _ _ _ Hflag2).
  destruct (flag_at env (S (steps w1))) eqn:Hflag.
  - rewrite andb_false_r.
    rewrite (bind_returns _ _ _ _ _ Hflag2). reflexivity.
  - rewrite andb_true_r.
    destruct (Z.quot _ _ >? 0); [reflexivity |].
    rewrite (bind_returns _ _ _ _ _ Hflag2). reflexivity.
Qed.

Lemma getNextBackupTime_keeps_steps : keeps steps (Backup.getNextBackupTime env config).
Proof.
  assert (Hlog : forall msg, keeps steps (Backup.logMessage msg))
    by (intros msg; apply keeps_modify; reflexivity).
  assert (Herr : forall msg, keeps steps (Backup.logError msg))
    by (intros msg; apply keeps_modify; reflexivity).
  unfold Backup.getNextBackupTime, Backup.invalid_schedule_time. frame_by_syntax.
Qed.

Lemma quot_seconds_positive (d : Z) :
  Chrono.nanos_per_second <= d -> (Z.quot d Chrono.nanos_per_second >? 0) = true.
Proof.
  unfold Chrono.nanos_per_second. intros H.
  apply Z.gtb_lt.
  pose proof (Z.quot_rem' d 1000000000) as Hq.
  pose proof (Z.rem_bound_pos d 1000000000) as Hr.
  lia.
Qed.

Lemma quot_seconds_not_positive (d : Z) :
  d < Chrono.nanos_per_second -> (Z.quot d Chrono.nanos_per_second >? 0) = false.
Proof.
  unfold Chrono.nanos_per_second. intros H.
  rewrite Z.gtb_ltb. apply Z.ltb_ge.
  pose proof (Z.quot_rem' d 1000000000) as Hq.
  destruct (Z_le_gt_dec 0 d) as [Hpos | Hneg].
  - pose proof (Z.rem_bound_pos d 1000000000) as Hr. lia.
  - pose proof (Z.rem_bound_pos_neg d 1000000000) as Hr. lia.
Qed.

Lemma sleep_until_run (sleepDuration : Z) (ss : string) (w : World) :
  fst (Daemon.sleep_until env sleepDuration ss w) = Returns true
  /\ durable (snd (Daemon.sleep_until env sleepDuration ss w)) = durable w.
Proof.
  unfold Daemon.sleep_until.
  erewrite (bind_returns (Backup.logMessage _)); [| reflexivity].
  match goal with
  | |- context [bind (Daemon.sleep_loop env ?n) _ ?w'] =>
      destruct (sleep_loop_run env n w') as (k & Hrun & _)
  end.
  rewrite (bind_returns _ _ _ _ _ Hrun). split; reflexivity.
Qed.

End DaemonRound.

(** The daemon waits for the last second.  In a round whose schedule
    computation returns [next], the daemon reads the clock one step later.
    While [next] is a second or more ahead of that reading, no backup is
    started: the round sleeps (or is left, if the flag is set) and nothing
    durable changes.  When [next] is less than a second ahead, or past, and
    the flag is not set, the round is the backup, run in a world that
    differs from the one the computation left by one step and by log
    lines. *)
Theorem daemon_waits_for_last_second :
  forall (env : Env) (config : BackupConfig) (w w1 : World) (next : Chrono.time_point),
    Backup.getNextBackupTime env config w = (Returns next, w1) ->
    (Chrono.nanos_per_second <= next - clock env (S (steps w)) ->
     fst (Daemon.round env config w) = Returns (negb (flag_at env (S (steps w))))
     /\ durable (snd (Daemon.round env config w)) = durable w)
    /\ (next - clock env (S (steps w)) < Chrono.nanos_per_second ->
        flag_at env (S (steps w)) = false ->
        exists w2,
          w2 = with_log (log_lines w2) (with_steps (S (steps w)) w1)
          /\ Daemon.round env config w
             = try_catch (Daemon.backup_now env config) (Daemon.recover env) w2).
Proof.
  intros env config w w1 next Hnext.
  pose proof (getNextBackupTime_keeps_steps env config w) as Hsteps.
  pose proof (getNextBackupTime_keeps_durable env config w) as Hdurable.
  rewrite Hnext in Hsteps, Hdurable. cbn [snd] in Hsteps, Hdurable.
  assert (Hround : Daemon.round env config w
                   = try_catch (Daemon.pace env config next) (Daemon.recover env) w1).
  { unfold Daemon.round, Daemon.attempt, try_catch.
    rewrite (bind_returns _ _ _ _ _ Hnext). reflexivity. }
  destruct (pace_run env config next w1) as (w2 & Hw2 & Hpace).
  rewrite Hsteps in Hw2, Hpace.
  assert (Hd2 : durable w2 = durable w).
  { rewrite Hw2, <- Hdurable. reflexivity. }
  split.
  - intros Hfar.
    rewrite (quot_seconds_positive _ Hfar) in Hpace.
    rewrite Hround. unfold try_catch. rewrite Hpace.
    destruct (flag_at env (S (steps w))).
    + split; [reflexivity | exact Hd2].
    + destruct (sleep_until_run env
                  (Z.quot (next - clock env (S (steps w))) Chrono.nanos_per_second)
                  (Calendar.show_tm (Calendar.localtime env (Chrono.to_time_t next)))
                  w2) as (Hr & Hk).
      destruct (Daemon.sleep_until env _ _ w2) as [[b | e] w3];
        cbn [fst snd] in Hr, Hk |- *; [| discriminate Hr].
      injection Hr as ->. split; [reflexivity |].
      rewrite Hk. exact Hd2.
  - intros Hnear Hflag.
    rewrite (quot_seconds_not_positive _ Hnear), Hflag in Hpace.
    exists w2. split; [exact Hw2 |].
    rewrite Hround. unfold try_catch. rewrite Hpace. reflexivity.
Qed.

Lemma daemon_waits_for_last_second_witness :
  (Chrono.nanos_per_second
   <= 1710556200000000000
      - clock (Scenario.calm None (Scenario.srv []))
          (S (steps (Scenario.start None None None))) ->
   fst (Daemon.round (Scenario.calm None (Scenario.srv []))
          (Scenario.config "daily" "02:30:00" 1) (Scenario.start None None None))
   = Returns (negb (flag_at (Scenario.calm None (Scenario.srv []))
                      (S (steps (Scenario.start None None None)))))
   /\ durable (snd (Daemon.round (Scenario.calm None (Scenario.srv []))
                      (Scenario.config "daily" "02:30:00" 1)
                      (Scenario.start None None None)))
      = durable (Scenario.start None None None))
  /\ (1710556200000000000
      - clock (Scenario.calm None (Scenario.srv []))
          (S (steps (Scenario.start None None None)))
      < Chrono.nanos_per_second ->
      flag_at (Scenario.calm None (Scenario.srv []))
        (S (steps (Scenario.start None None None))) = false ->
      exists w2,
        w2 = with_log (log_lines w2)
               (with_steps (S (steps (Scenario.start None None None)))
                  (snd (Backup.getNextBackupTime (Scenario.calm None (Scenario.srv []))
                          (Scenario.config "daily" "02:30:00" 1)
                          (Scenario.start None None None))))
        /\ Daemon.round (Scenario.calm None (Scenario.srv []))
             (Scenario.config "daily" "02:30:00" 1) (Scenario.start None None None)
           = try_catch
               (Daemon.backup_now (Scenario.calm None (Scenario.srv []))
                  (Scenario.config "daily" "02:30:00" 1))
               (Daemon.recover (Scenario.calm None (Scenario.srv []))) w2).
Proof.
  apply (daemon_waits_for_last_second (Scenario.calm None (Scenario.srv []))
           (Scenario.config "daily" "02:30:00" 1) (Scenario.start None None None)
           (snd (Backup.getNextBackupTime (Scenario.calm None (Scenario.srv []))
                   (Scenario.config "daily" "02:30:00" 1)
                   (Scenario.start None None None)))
           1710556200000000000).
  reflexivity.
Defined.

(** ** The API and the command line *)

(** [BackupAPI::startBackup] never ends by an exception.  An exception
    that leaves the constructor of [Backup] or [Backup::execute] is
    returned as the error [Failed to start backup: ...], in the world the
    exception left; in particular what a run had written before it threw
    stays written. *)
Theorem startBackup_returns_every_exception :
  forall (load : string -> result LoadedConfig) (env : Env) (type : string)
         (fullBackup : bool) (w : World),
    (exists r, fst (BackupAPI.startBackup load env type fullBackup w) = Returns r)
    /\ (forall c config dbStrategy what w',
           load "backup_config.json" = Returns c ->
           Backup_new c = Returns (config, dbStrategy) ->
           Backup.execute env config type fullBackup w = (Throws what, w') ->
           BackupAPI.startBackup load env type fullBackup w
           = (Returns (Unexpected ("Failed to start backup: " ++ what)), w'))
    /\ (forall c config dbStrategy r w',
           load "backup_config.json" = Returns c ->
           Backup_new c = Returns (config, dbStrategy) ->
           Backup.execute env config type fullBackup w = (Returns r, w') ->
           BackupAPI.startBackup load env type fullBackup w = (Returns r, w'))
    /\ (forall what,
           load "backup_config.json" = Throws what
           \/ (exists c, load "backup_config.json" = Returns c
                         /\ Backup_new c = Throws what) ->
           BackupAPI.startBackup load env type fullBackup w
           = (Returns (Unexpected ("Failed to start backup: " ++ what)), w)).
Proof.
  intros load env type fullBackup w.
  unfold BackupAPI.startBackup, BackupAPI.construct.
  repeat split.
  - unfold try_catch.
    match goal with
    | |- exists r, fst (let (r0, w') := ?c w in _) = _ =>
        destruct (c w) as [[r0 | what] w']
    end.
    + exists r0. reflexivity.
    + eexists. reflexivity.
  - intros c config dbStrategy what w' Hload Hnew Hrun.
    rewrite Hload, Hnew. unfold try_catch.
    erewrite (bind_returns (ret config)); [| reflexivity].
    rewrite Hrun. reflexivity.
  - intros c config dbStrategy r w' Hload Hnew Hrun.
    rewrite Hload, Hnew. unfold try_catch.
    erewrite (bind_returns (ret config)); [| reflexivity].
    rewrite Hrun. reflexivity.
  - intros what [Hload | (c & Hload & Hnew)].
    + rewrite Hload. reflexivity.
    + rewrite Hload, Hnew. reflexivity.
Qed.

(** The argument loop: each of the three variables [daemonMode],
    [fullBackup] and [backupType] depends on the arguments and on its own
    initial value only, and [configFile] as well. *)
Lemma parse_independent (args : list string) :
  forall o o',
    (Main.daemonMode o = Main.daemonMode o' ->
     Main.daemonMode (Main.parse args o) = Main.daemonMode (Main.parse args o'))
    /\ (Main.fullBackup o = Main.fullBackup o' ->
        Main.fullBackup (Main.parse args o) = Main.fullBackup (Main.parse args o'))
    /\ (Main.backupType o = Main.backupType o' ->
        Main.backupType (Main.parse args o) = Main.backupType (Main.parse args o'))
    /\ (Main.configFile o = Main.configFile o' ->
        Main.configFile (Main.parse args o) = Main.configFile (Main.parse args o')).
Proof.
  remember (List.length args) as n eqn:Hn.
  revert args Hn.
  induction n as [n IH] using lt_wf_ind.
  intros args Hn o o'.
  assert (Hstep : forall rest O O',
             (List.length rest < n)%nat ->
             (Main.daemonMode o = Main.daemonMode o' ->
              Main.daemonMode O = Main.daemonMode O') ->
             (Main.fullBackup o = Main.fullBackup o' ->
              Main.fullBackup O = Main.fullBackup O') ->
             (Main.backupType o = Main.backupType o' ->
              Main.backupType O = Main.backupType O') ->
             (Main.configFile o = Main.configFile o' ->
              Main.configFile O = Main.configFile O') ->
             (Main.daemonMode o = Main.daemonMode o' ->
              Main.daemonMode (Main.parse rest O) = Main.daemonMode (Main.parse rest O'))
             /\ (Main.fullBackup o = Main.fullBackup o' ->
                 Main.fullBackup (Main.parse rest O) = Main.fullBackup (Main.parse rest O'))
             /\ (Main.backupType o = Main.backupType o' ->
                 Main.backupType (Main.parse rest O) = Main.backupType (Main.parse rest O'))
             /\ (Main.configFile o = Main.configFile o' ->
                 Main.configFile (Main.parse rest O)
                 = Main.configFile (Main.parse rest O'))).
  { intros rest O O' Hlt H1 H2 H3 H4.
    destruct (IH (List.length rest) Hlt rest eq_refl O O') as (I1 & I2 & I3 & I4).
    repeat split; intros H; auto. }
  destruct args as [| arg rest]; [cbn; tauto |].
  cbn [List.length] in Hn.
  cbn [Main.parse].
  destruct (String.eqb arg "--daemon").
  { apply Hstep; cbn; auto; lia. }
  destruct (String.eqb arg "--full").
  { apply Hstep; cbn; auto; lia. }
  destruct (String.eqb arg "--config"), rest as [| value rest'];
    apply Hstep; cbn; auto; cbn in Hn; lia.
Qed.

(** Without [--daemon] and without a backup type on the command line,
    [main] prints its usage and exits with status 1, having done nothing:
    no configuration is read and no backup is started. *)
Theorem main_without_type_does_nothing :
  forall (load : string -> result LoadedConfig) (env : Env)
         (log_directory_error : option string) (log_opens : bool)
         (args : list string) (fuel : nat) (w : World),
    Main.daemonMode (Main.parse args Main.defaults) = false ->
    Main.backupType (Main.parse args Main.defaults) = "" ->
    Main.main load env log_directory_error log_opens args fuel w = (Returns (Some 1), w).
Proof.
  intros load env lde lo args fuel w Hd Ht.
  unfold Main.main. rewrite Hd, Ht. reflexivity.
Qed.

Lemma main_without_type_does_nothing_witness :
  Main.main Site.no_config (Scenario.calm None (Scenario.srv [])) None true
    ["--full"; "--config"; "/etc/backup.json"] 3 (Scenario.start None None None)
  = (Returns (Some 1), Scenario.start None None None).
Proof.
  apply (main_without_type_does_nothing Site.no_config
           (Scenario.calm None (Scenario.srv [])) None true
           ["--full"; "--config"; "/etc/backup.json"] 3
           (Scenario.start None None None)); reflexivity.
Defined.

(** Options that have no effect.  In a one-shot run the configuration
    file named by [--config] is never read: the backup is started from
    [backup_config.json] whatever the option says.  In daemon mode
    [--full] is never used: the daemon runs its backups without it. *)
Theorem options_without_effect :
  forall (load : string -> result LoadedConfig) (env : Env)
         (log_directory_error : option string) (log_opens : bool)
         (args : list string) (fuel : nat) (w : World),
    (Main.daemonMode (Main.parse args Main.defaults) = false ->
     forall p,
       Main.main load env log_directory_error log_opens ("--config" :: p :: args) fuel w
       = Main.main load env log_directory_error log_opens args fuel w)
    /\ (Main.daemonMode (Main.parse args Main.defaults) = true ->
        Main.main load env log_directory_error log_opens ("--full" :: args) fuel w
        = Main.main load env log_directory_error log_opens args fuel w).
Proof.
  intros load env lde lo args fuel w. split.
  - intros Hd p.
    set (o' := {| Main.daemonMode := false; Main.fullBackup := false;
                  Main.backupType := ""; Main.configFile := p |}).
    destruct (parse_independent args o' Main.defaults) as (H1 & H2 & H3 & _).
    specialize (H1 eq_refl). specialize (H2 eq_refl). specialize (H3 eq_refl).
    unfold Main.main.
    change (Main.parse ("--config" :: p :: args) Main.defaults) with (Main.parse args o').
    rewrite H1, H3, Hd. cbn [andb].
    unfold Main.run. rewrite H1, H2, Hd. reflexivity.
  - intros Hd.
    set (o' := {| Main.daemonMode := false; Main.fullBackup := true;
                  Main.backupType := ""; Main.configFile := "backup_config.json" |}).
    destruct (parse_independent args o' Main.defaults) as (H1 & _ & H3 & H4).
    specialize (H1 eq_refl). specialize (H3 eq_refl). specialize (H4 eq_refl).
    unfold Main.main.
    change (Main.parse ("--full" :: args) Main.defaults) with (Main.parse args o').
    rewrite H1, H3, H4, Hd. cbn [andb].
    unfold Main.run. rewrite H1, H4, Hd. reflexivity.
Qed.
